(** * pytask_scheduler: the object layer of [objects/objects.py]

    A shallow embedding of the Python module
    [pytask_scheduler/objects/objects.py] and the properties of its
    tabular queries, its folder walk, its XML extraction and its
    task-creation dispatch.

    Conventions.
    - A polars [Datetime] cell is an [option Z]: the number of microseconds
      since 1970-01-01T00:00:00, naive (no time zone), or null.
    - A Python [datetime] is a record of its calendar day (its proleptic
      Gregorian ordinal, as [date.toordinal] gives it) and its clock fields.
    - A data frame is the list of its rows, in row order.
    - The Schedule.Service COM server is not Python code of the package;
      it is represented by an in-memory provider (a folder tree) on which
      the calls made by the package are interpreted. *)

From Stdlib Require Import ZArith String Ascii List Lia Bool.
From Stdlib Require Import Permutation Sorted DecimalString DecimalZ DecimalPos.
From stdpp Require Import base strings gmap.
Import ListNotations.

Local Open Scope string_scope.
Local Open Scope list_scope.
Local Open Scope Z_scope.

#[local] Set Warnings "-register-all".

(* ===================================================================== *)
(** * Python's [datetime], [date] and [timedelta]                          *)
(* ===================================================================== *)

Module Py.

(** [datetime.date], by its ordinal (day 1 is 0001-01-01). *)
Definition date := Z.

Record datetime := mk_datetime {
  ordinal : date;       (* .date().toordinal() *)
  hour : Z;
  minute : Z;
  second : Z;
  microsecond : Z
}.

(** A well-formed [datetime]: every clock field within its range. *)
Definition valid (t : datetime) : Prop :=
  0 <= hour t < 24 /\ 0 <= minute t < 60 /\ 0 <= second t < 60 /\
  0 <= microsecond t < 1000000.

(** [date(y, m, d).toordinal()], used to write calendar days legibly. *)
Definition is_leap (y : Z) : bool :=
  (y mod 4 =? 0) && (negb (y mod 100 =? 0) || (y mod 400 =? 0)).

Definition days_before_year (y : Z) : Z :=
  let p := y - 1 in p * 365 + p / 4 - p / 100 + p / 400.

Definition days_before_month (y m : Z) : Z :=
  nth (Z.to_nat (m - 1)) [0; 31; 59; 90; 120; 151; 181; 212; 243; 273; 304; 334] 0
  + (if (2 <? m) && is_leap y then 1 else 0).

Definition ymd (y m d : Z) : date :=
  days_before_year y + days_before_month y m + d.

(** [t.date()] *)
Definition date_of (t : datetime) : date := ordinal t.

(** [datetime.time] and [datetime.combine(date, time)]. *)
Record time := mk_time {
  t_hour : Z;
  t_minute : Z;
  t_second : Z;
  t_microsecond : Z
}.

Definition combine (d : date) (t : time) : datetime :=
  {| ordinal := d; hour := t_hour t; minute := t_minute t;
     second := t_second t; microsecond := t_microsecond t |}.

(** [x in xs] on a list of strings. *)
Definition str_in (x : string) (xs : list string) : bool :=
  existsb (String.eqb x) xs.

(** Truth value of a string: the empty string is false. *)
Definition truthy (s : string) : bool :=
  match s with EmptyString => false | String _ _ => true end.

(** [timedelta]: normalised to days, seconds in [0, 86400) and
    microseconds in [0, 10^6), as the constructor does. *)
Record timedelta := mk_timedelta {
  days : Z;
  seconds : Z;
  microseconds : Z
}.

Definition timedelta_of (hours minutes secs usecs : Z) : timedelta :=
  let total := ((hours * 60 + minutes) * 60 + secs) * 1000000 + usecs in
  let s := total / 1000000 in
  {| days := s / 86400; seconds := s mod 86400; microseconds := total mod 1000000 |}.

(** [date + timedelta]: a [date]; only [timedelta.days] takes part, the
    seconds and microseconds of the [timedelta] are ignored. *)
Definition date_add (d : date) (td : timedelta) : date := d + days td.

End Py.

(* ===================================================================== *)
(** * polars expressions used by the frames                                *)
(* ===================================================================== *)

Module Pl.

(** Ordinal of 1970-01-01. *)
Definition epoch : Z := 719163.

Definition us_per_day : Z := 86400 * 1000000.

(** [pl.lit(d)] for a Python [date], compared with a [Datetime] column:
    the day at 00:00:00.000000. *)
Definition lit_date (d : Py.date) : Z := (d - epoch) * us_per_day.

(** [pl.lit(t)] for a Python [datetime]. *)
Definition lit_datetime (t : Py.datetime) : Z :=
  lit_date (Py.ordinal t)
  + ((Py.hour t * 60 + Py.minute t) * 60 + Py.second t) * 1000000
  + Py.microsecond t.

(** [expr.is_between(lower, upper)]: the default [closed="both"];
    a null cell gives null, which [filter] drops. *)
Definition is_between (cell : option Z) (lower upper : Z) : bool :=
  match cell with
  | Some x => (lower <=? x) && (x <=? upper)
  | None => false
  end.

(** Order of two cells under [sort]: nulls come first. *)
Definition cell_le (descending : bool) (a b : option Z) : bool :=
  match a, b with
  | None, _ => true
  | Some _, None => false
  | Some x, Some y => if descending then y <=? x else x <=? y
  end.

Section Sort.
Context {Row : Type} (key : Row -> option Z) (descending : bool).

Fixpoint insert_row (r : Row) (df : list Row) : list Row :=
  match df with
  | [] => [r]
  | r' :: rest =>
      if cell_le descending (key r) (key r') then r :: df
      else r' :: insert_row r rest
  end.

(** [df.sort(column, descending=...)] *)
Fixpoint sort (df : list Row) : list Row :=
  match df with
  | [] => []
  | r :: rest => insert_row r (sort rest)
  end.

Definition ordered (a b : Row) : Prop :=
  cell_le descending (key a) (key b) = true.
End Sort.

(** [str.split(by)] for a one-character separator: the segments between
    the occurrences of [sep], empty segments kept. *)
Fixpoint str_split (sep : ascii) (s : string) : list string :=
  match s with
  | EmptyString => [EmptyString]
  | String c rest =>
      if Ascii.eqb c sep then EmptyString :: str_split sep rest
      else match str_split sep rest with
           | seg :: segs => String c seg :: segs
           | [] => [String c EmptyString]
           end
  end.

(** [sep.join(segments)], the inverse reading of [str_split]. *)
Fixpoint str_join (sep : ascii) (segs : list string) : string :=
  match segs with
  | [] => EmptyString
  | [seg] => seg
  | seg :: rest => String.append seg (String sep (str_join sep rest))
  end.

(** [sep] occurs in [s]. *)
Fixpoint str_contains (sep : ascii) (s : string) : bool :=
  match s with
  | EmptyString => false
  | String c rest => Ascii.eqb c sep || str_contains sep rest
  end.

(** [expr.cast(str)] on an integer cell: its decimal text. *)
Definition cast_str (code : Z) : string :=
  NilZero.string_of_int (Z.to_int code).

(** [expr.replace(mapping)]: a value that is a key of [mapping] is
    replaced, any other value is kept. *)
Definition replace (mapping : gmap string string) (value : string) : string :=
  match mapping !! value with
  | Some label => label
  | None => value
  end.

(** [expr.list.len()], [expr.list.slice(offset, length)] and
    [expr.list.first()] (null on an empty list). *)
Definition list_len {A} (l : list A) : Z := Z.of_nat (length l).
Definition list_slice {A} (offset len : nat) (l : list A) : list A :=
  firstn len (skipn offset l).
Definition list_first {A} (l : list A) : option A := hd_error l.

(** [expr.list.last()] (null on an empty list). *)
Definition list_last {A} (l : list A) : option A :=
  match l with
  | [] => None
  | x :: rest => Some (List.last rest x)
  end.

(** [expr.cast(pl.Date)] on a [Datetime] cell: the number of the day,
    counted from 1970-01-01, that the instant falls in. *)
Definition cast_date (cell : option Z) : option Z :=
  option_map (fun x => x / us_per_day) cell.

(** [pl.lit(d)] for a Python [date], compared with a [Date] column. *)
Definition lit_day (d : Py.date) : Z := d - epoch.

(** [column == literal] under [filter]: a null cell is dropped. *)
Definition eq_lit_Z (cell : option Z) (lit : Z) : bool :=
  match cell with Some x => x =? lit | None => false end.
Definition eq_lit_str (cell : option string) (lit : string) : bool :=
  match cell with Some x => String.eqb x lit | None => false end.

(** A 64-bit signed integer: the value of [z] after wrap-around. *)
Definition wrap_i64 (z : Z) : Z := (z + 2 ^ 63) mod 2 ^ 64 - 2 ^ 63.

(** [column.sum()] of an [Int64] column: the cells are added one by one
    in 64-bit signed arithmetic, which wraps around on overflow. *)
Definition sum (cells : list Z) : Z :=
  fold_left (fun acc c => wrap_i64 (acc + c)) cells 0.

(** The number of rows that [pl.DataFrame] reads to infer the types of
    the columns of a list of dicts. *)
Definition N_INFER_DEFAULT : nat := 100.

Definition is_null {A} (cell : option A) : bool :=
  match cell with Some _ => false | None => true end.

(** A column whose cells are all null in the rows read for inference and
    that holds a value further down: its type is inferred as null, and
    the value cannot be stored. *)
Definition late_value (nulls : list bool) : bool :=
  forallb (fun b => b) (firstn N_INFER_DEFAULT nulls)
  && existsb negb (skipn N_INFER_DEFAULT nulls).

End Pl.

(* ===================================================================== *)
(** * [xml.etree.ElementTree] documents                                    *)
(* ===================================================================== *)

Module ET.

(** A parsed element: its qualified tag, its text (None when it has
    none) and its children in document order. *)
Inductive Element :=
  mkElement (tag : string) (text : option string) (children : list Element).

Definition tag (e : Element) : string := let 'mkElement t _ _ := e in t.
Definition text (e : Element) : option string := let 'mkElement _ x _ := e in x.
Definition children (e : Element) : list Element := let 'mkElement _ _ c := e in c.

(** [e.findall(path)] for a path that is a single tag: the direct
    children of [e] with that tag, in document order. *)
Definition findall (e : Element) (path : string) : list Element :=
  List.filter (fun c => String.eqb (tag c) path) (children e).

End ET.

(* ===================================================================== *)
(** * The records of [RegisteredTask.info] and the task frame              *)
(* ===================================================================== *)

(** The dict returned by [RegisteredTask.info]. *)
Module Info.
Record t := mk {
  name : string;
  enabled : bool;
  task_state : Z;
  next_run_time : option Z;
  last_run_time : option Z;
  last_task_result : Z;
  number_of_missed_runs : Z;
  task_path : string;
  author : string;
  registration_date : string;
  task_description : string;
  task_source : string;
  AllowDemandStart : option bool;
  StartWhenAvailable : option bool;
  Enabled : option bool;
  Hidden : option bool;
  RestartInterval : option string;
  RestartCount : option Z;
  ExecutionTimeLimit : option string;
  MultipleInstances : option Z;
  execution_path : option string
}.
End Info.

(** A row of the frame that [TasksDataFrame.preprocess] selects. *)
Module Row.
Record t := mk {
  task_source : string;
  task_path : string;
  task_folder_name : option string;
  name : string;
  task_description : string;
  enabled : bool;
  task_state : Z;
  task_state_definition : string;
  next_run_time : option Z;
  last_run_time : option Z;
  last_task_result : Z;
  last_task_result_definition : string;
  number_of_missed_runs : Z;
  author : string;
  registration_date : string;
  execution_path : option string;
  AllowDemandStart : option bool;
  StartWhenAvailable : option bool;
  Enabled : option bool;
  Hidden : option bool;
  RestartInterval : option string;
  RestartCount : option Z;
  ExecutionTimeLimit : option string;
  MultipleInstances : option Z
}.
End Row.

(* ===================================================================== *)
(** * class TasksDataFrame                                                 *)
(* ===================================================================== *)

Module TasksDataFrame.

(** The one-character string of the path separator. *)
Definition backslash : ascii := "\"%char.

(** The expression of the second [with_columns]: on the segment list of
    a path, the literal separator when the list has at most two entries,
    otherwise the first entry of its slice (1, 2). *)
Definition top_folder (task_folder_name : list string) : option string :=
  if Pl.list_len task_folder_name <=? 2
  then Some (String backslash EmptyString)
  else Pl.list_first (Pl.list_slice 1 2 task_folder_name).

(** The split of the first [with_columns]. *)
Definition segments (task_path : string) : list string :=
  Pl.str_split backslash task_path.

Section Preprocess.
(** [TaskValueDefinitions.TASK_STATE_DEFINITION] and
    [TaskValueDefinitions.TASK_RESULT_DEFINITION]: the two lookup
    tables of [pytask_scheduler.constants], which is not among the
    sources; they are parameters of [preprocess]. *)
Context (TASK_STATE_DEFINITION TASK_RESULT_DEFINITION : gmap string string).

Definition task_state_definition (task_state : Z) : string :=
  Pl.replace TASK_STATE_DEFINITION (Pl.cast_str task_state).

Definition last_task_result_definition (last_task_result : Z) : string :=
  Pl.replace TASK_RESULT_DEFINITION (Pl.cast_str last_task_result).

Definition preprocess_row (i : Info.t) : Row.t :=
  {| Row.task_source := Info.task_source i;
     Row.task_path := Info.task_path i;
     Row.task_folder_name := top_folder (segments (Info.task_path i));
     Row.name := Info.name i;
     Row.task_description := Info.task_description i;
     Row.enabled := Info.enabled i;
     Row.task_state := Info.task_state i;
     Row.task_state_definition := task_state_definition (Info.task_state i);
     Row.next_run_time := Info.next_run_time i;
     Row.last_run_time := Info.last_run_time i;
     Row.last_task_result := Info.last_task_result i;
     Row.last_task_result_definition :=
       last_task_result_definition (Info.last_task_result i);
     Row.number_of_missed_runs := Info.number_of_missed_runs i;
     Row.author := Info.author i;
     Row.registration_date := Info.registration_date i;
     Row.execution_path := Info.execution_path i;
     Row.AllowDemandStart := Info.AllowDemandStart i;
     Row.StartWhenAvailable := Info.StartWhenAvailable i;
     Row.Enabled := Info.Enabled i;
     Row.Hidden := Info.Hidden i;
     Row.RestartInterval := Info.RestartInterval i;
     Row.RestartCount := Info.RestartCount i;
     Row.ExecutionTimeLimit := Info.ExecutionTimeLimit i;
     Row.MultipleInstances := Info.MultipleInstances i |}.

(** [TasksDataFrame.preprocess] *)
Definition preprocess (df : list Info.t) : list Row.t :=
  List.map preprocess_row df.
End Preprocess.

(** [TasksDataFrame.get_tasks_completed_today]; [clock_today] is the
    reading of [datetime.today()], [clock_now] that of [datetime.now()]. *)
Definition get_tasks_completed_today
    (clock_today clock_now : Py.datetime) (df : list Row.t) : list Row.t :=
  let todays_date := Py.date_of clock_today in
  let current_datetime := clock_now in
  Pl.sort Row.last_run_time true
    (List.filter
       (fun r => Pl.is_between (Row.last_run_time r)
                   (Pl.lit_date todays_date) (Pl.lit_datetime current_datetime))
       df).

(** [TasksDataFrame.get_tasks_due_today]; [clock_now] is the reading of
    [datetime.now()]. *)
Definition get_tasks_due_today (clock_now : Py.datetime) (df : list Row.t)
    : list Row.t :=
  let MAX_HOUR := 23 in
  let MAX_MIN := 59 in
  let MAX_SEC := 59 in
  let MAX_MSEC := 999999 in
  let current_dt := clock_now in
  let lower_date := current_dt in
  let thour := Py.hour lower_date in
  let tmin := Py.minute lower_date in
  let tsec := Py.second lower_date in
  let tmsec := Py.microsecond lower_date in
  let upper_date :=
    Py.date_add (Py.date_of current_dt)
      (Py.timedelta_of (MAX_HOUR - thour) (MAX_MIN - tmin)
         (MAX_SEC - tsec) (MAX_MSEC - tmsec)) in
  Pl.sort Row.next_run_time false
    (List.filter
       (fun r => Pl.is_between (Row.next_run_time r)
                   (Pl.lit_datetime lower_date) (Pl.lit_date upper_date))
       df).

(** [TasksDataFrame.total_number_of_tasks] *)
Definition total_number_of_tasks (df : list Row.t) : Z :=
  Z.of_nat (length df).

(** [TasksDataFrame.total_number_of_missed_runs] *)
Definition total_number_of_missed_runs (df : list Row.t) : Z :=
  Pl.sum (List.map Row.number_of_missed_runs df).

(** [TasksDataFrame.total_number_of_tasks_by_state] *)
Definition total_number_of_tasks_by_state (df : list Row.t) (task_state : Z) : Z :=
  Z.of_nat (length (List.filter (fun r => Row.task_state r =? task_state) df)).

(** The one-row frame of [TasksDataFrame.stats]. *)
Record Stats := mk_stats {
  task_total : Z;
  missed_runs_total : Z;
  unknown_state_total : Z;
  disabled_state_total : Z;
  queued_state_total : Z;
  ready_state_total : Z;
  running_state_total : Z
}.

(** [TasksDataFrame.stats] *)
Definition stats (df : list Row.t) : Stats :=
  {| task_total := total_number_of_tasks df;
     missed_runs_total := total_number_of_missed_runs df;
     unknown_state_total := total_number_of_tasks_by_state df 0;
     disabled_state_total := total_number_of_tasks_by_state df 1;
     queued_state_total := total_number_of_tasks_by_state df 2;
     ready_state_total := total_number_of_tasks_by_state df 3;
     running_state_total := total_number_of_tasks_by_state df 4 |}.

End TasksDataFrame.

(* ===================================================================== *)
(** * class HistoryDataFrame                                               *)
(* ===================================================================== *)

(** A row of the history frame after [HistoryDataFrame.preprocess]: the
    six renamed columns, the creation time as a [Datetime] cell. *)
Module HistoryRow.
Record t := mk {
  Event_Created : option Z;
  Event_Level : option Z;
  Event_ID : option Z;
  Task_Name : option string;
  Event_ID_Description : option string;
  Event_Log_Description : option string
}.
End HistoryRow.

Module HistoryDataFrame.

(** The expression that [preprocess] puts in the column "Task Name":
    the path split on the backslash, then the last entry of the list.
    (The other expressions of [preprocess] parse and cast columns whose
    types are set by the history reader, which is not among the
    sources.) *)
Definition task_name_leaf (task_name : string) : option string :=
  Pl.list_last (Pl.str_split TasksDataFrame.backslash task_name).

(** [HistoryDataFrame.get_todays_history]; [clock_now] is the reading of
    [datetime.now()]. *)
Definition get_todays_history (clock_now : Py.datetime)
    (df : list HistoryRow.t) : list HistoryRow.t :=
  Pl.sort HistoryRow.Event_Created true
    (List.filter
       (fun r => Pl.eq_lit_Z (Pl.cast_date (HistoryRow.Event_Created r))
                   (Pl.lit_day (Py.date_of clock_now)))
       df).

(** [HistoryDataFrame.__event_count_by_criteria]; the column is given by
    its projection. *)
Definition event_count_by_criteria (df : list HistoryRow.t)
    (filter_col : HistoryRow.t -> option string) (filter_criteria : string) : Z :=
  Z.of_nat (length (List.filter (fun r => Pl.eq_lit_str (filter_col r) filter_criteria) df)).

(** [HistoryDataFrame.information_event_count] *)
Definition information_event_count (df : list HistoryRow.t) : Z :=
  event_count_by_criteria df HistoryRow.Event_Log_Description "INFORMATION".

(** [HistoryDataFrame.error_event_count] *)
Definition error_event_count (df : list HistoryRow.t) : Z :=
  event_count_by_criteria df HistoryRow.Event_Log_Description "ERROR".

(** [HistoryDataFrame.warning_event_count] *)
Definition warning_event_count (df : list HistoryRow.t) : Z :=
  event_count_by_criteria df HistoryRow.Event_Log_Description "WARNING".

End HistoryDataFrame.

(* ===================================================================== *)
(** * The Schedule.Service objects                                         *)
(* ===================================================================== *)

(** The members of [pytask_scheduler.constants] that [objects.py] names.
    The module is not among the sources: the members are kept symbolic,
    together with the neighbouring registration and logon modes of the
    Task Scheduler interface that the provider distinguishes. *)
Inductive TaskTriggerTypes :=
  | TASK_TRIGGER_TIME
  | TASK_TRIGGER_DAILY
  | TASK_TRIGGER_WEEKLY
  | TASK_TRIGGER_MONTHLY
  | TASK_TRIGGER_MONTHLYDOW.

Inductive TaskActionTypes :=
  | TASK_ACTION_EXEC.

Inductive TaskCreationTypes :=
  | TASK_CREATE
  | TASK_UPDATE
  | TASK_CREATE_OR_UPDATE.

Inductive TaskLogonTypes :=
  | TASK_LOGON_NONE
  | TASK_LOGON_PASSWORD.

Module COM.

(** [ITaskDefinition.Triggers]: the types passed to [Create], and the
    attributes that [TaskTrigger] assigns on the object it holds. The
    start boundary is kept as the combined [datetime] whose ISO-8601
    text the code assigns. *)
Record Triggers := mkTriggers {
  trg_created : list TaskTriggerTypes;
  StartBoundary : option Py.datetime;
  DaysInterval : option Z;
  WeeksInterval : option Z;
  DaysOfWeek : option Z;
  DaysOfMonth : option Z;
  MonthsOfYear : option Z;
  WeeksOfMonth : option Z
}.

(** [ITaskDefinition.Actions], in the same way. *)
Record Actions := mkActions {
  act_created : list TaskActionTypes;
  Path : option string;
  Arguments : option string;
  WorkingDirectory : option string
}.

Record RegistrationInfo := mkRegistrationInfo {
  Author : string;
  Date : string;
  Description : string;
  Source : string
}.

Record Settings := mkSettings {
  AllowDemandStart : option bool;
  StartWhenAvailable : option bool;
  Enabled : option bool;
  Hidden : option bool;
  RestartInterval : option string;
  RestartCount : option Z;
  ExecutionTimeLimit : option string;
  MultipleInstances : option Z
}.

(** [ITaskDefinition] *)
Record TaskDefinition := mkTaskDefinition {
  reg_info : RegistrationInfo;
  settings : Settings;
  triggers : Triggers;
  actions : Actions
}.

(** [IRegisteredTask], with the credentials it was registered under. *)
Record RegisteredTask := mkRegisteredTask {
  rt_Name : string;
  rt_Enabled : bool;
  rt_State : Z;
  rt_NextRunTime : option Z;
  rt_LastRunTime : option Z;
  rt_LastTaskResult : Z;
  rt_NumberOfMissedRuns : Z;
  rt_Path : string;
  rt_Xml : ET.Element;
  rt_Definition : TaskDefinition;
  rt_UserId : string;
  rt_Password : string;
  rt_LogonType : TaskLogonTypes
}.

(** [ITaskFolder]: its name, its path, its tasks and its subfolders,
    each in the order in which the collections enumerate them. *)
Inductive Folder :=
  mkFolder (Name Path : string)
           (Tasks : list RegisteredTask) (Folders : list Folder).

Definition Name (f : Folder) : string := let 'mkFolder n _ _ _ := f in n.
Definition FPath (f : Folder) : string := let 'mkFolder _ p _ _ := f in p.
Definition GetTasks (f : Folder) : list RegisteredTask :=
  let 'mkFolder _ _ ts _ := f in ts.
Definition GetFolders (f : Folder) : list Folder :=
  let 'mkFolder _ _ _ fs := f in fs.

(** The calls that create or change something on the service. *)
Inductive Call :=
  | CallNewTask
  | CallTriggersCreate (ty : TaskTriggerTypes)
  | CallActionsCreate (ty : TaskActionTypes)
  | CallRegisterTaskDefinition (folder name : string)
  | CallCreateFolder (folder name : string)
  | CallDeleteFolder (folder name : string).

(** The service: its folder tree and the calls received so far, oldest
    first. A folder handle held by Python is the path of the folder. *)
Record Service := mkService {
  root : Folder;
  calls : list Call
}.

End COM.

(* ===================================================================== *)
(** * Exceptions and the monad of the methods                              *)
(* ===================================================================== *)

Inductive exn :=
  | ValueError (msg : string)
  | NotImplementedError (msg : string)
  | RecursionError
  | com_error (msg : string)
  | ColumnNotFoundError
  | ComputeError.

Inductive Result (A : Type) :=
  | Ok (a : A)
  | Raise (e : exn).
Arguments Ok {A} a.
Arguments Raise {A} e.

(** A method runs on the service: it returns a value or raises, and
    leaves the service in a new state either way. *)
Definition M (A : Type) : Type := COM.Service -> Result A * COM.Service.

Definition ret {A} (a : A) : M A := fun w => (Ok a, w).
Definition raise {A} (e : exn) : M A := fun w => (Raise e, w).
Definition bind {A B} (m : M A) (k : A -> M B) : M B :=
  fun w => match m w with
           | (Ok a, w') => k a w'
           | (Raise e, w') => (Raise e, w')
           end.
Definition get_service : M COM.Service := fun w => (Ok w, w).
Definition put_root (r : COM.Folder) : M unit :=
  fun w => (Ok tt, {| COM.root := r; COM.calls := COM.calls w |}).
Definition log_call (c : COM.Call) : M unit :=
  fun w => (Ok tt, {| COM.root := COM.root w; COM.calls := COM.calls w ++ [c] |}).

Notation "'let*' x ':=' m 'in' k" := (bind m (fun x => k))
  (at level 10, x name, m at level 100, k at level 200).

(** [for x in xs: ...] with the loop's variables threaded as [s]. *)
Fixpoint for_each {A S} (xs : list A) (body : A -> S -> M S) (s : S) : M S :=
  match xs with
  | [] => ret s
  | x :: rest => let* s' := body x s in for_each rest body s'
  end.

(* ===================================================================== *)
(** * The in-memory provider                                               *)
(* ===================================================================== *)

(** The provider capability of section 6 of the specification
    (get-folder, get-task, create-folder, delete-folder, register-task
    with a create-or-update flag, credentials and a logon type,
    new-task-definition). The COM server that implements it is outside
    the package; every method below interprets one call on the folder
    tree and records the calls that create or change something. *)
Module Provider.
Import COM.

(** The folder a handle (a path) denotes: the first folder of the tree,
    parents before children, whose path it is. *)
Fixpoint resolve (path : string) (f : Folder) : option Folder :=
  let 'mkFolder _ p _ subs := f in
  if String.eqb p path then Some f
  else (fix first (l : list Folder) : option Folder :=
          match l with
          | [] => None
          | c :: rest =>
              match resolve path c with
              | Some r => Some r
              | None => first rest
              end
          end) subs.

(** The tree with the folder at [path] replaced by its image under [g]. *)
Fixpoint update (path : string) (g : Folder -> Folder) (f : Folder) : Folder :=
  let 'mkFolder n p ts subs := f in
  if String.eqb p path then g f
  else mkFolder n p ts (List.map (update path g) subs).

Definition join_path (parent name : string) : string :=
  if String.eqb parent "\" then ("\" ++ name)%string
  else (parent ++ "\" ++ name)%string.

Definition with_tasks (ts : list RegisteredTask) (f : Folder) : Folder :=
  mkFolder (Name f) (FPath f) ts (GetFolders f).
Definition with_folders (fs : list Folder) (f : Folder) : Folder :=
  mkFolder (Name f) (FPath f) (GetTasks f) fs.

Definition find_task (name : string) (ts : list RegisteredTask)
    : option RegisteredTask :=
  List.find (fun t => String.eqb (rt_Name t) name) ts.

Definition ns (local : string) : string :=
  ("{http://schemas.microsoft.com/windows/2004/02/mit/task}" ++ local)%string.

(** The serialized definition: one Exec element per created action. *)
Definition definition_xml (d : TaskDefinition) : ET.Element :=
  ET.mkElement (ns "Task") None
    [ET.mkElement (ns "Actions") None
       (List.map
          (fun _ => ET.mkElement (ns "Exec") None
                      [ET.mkElement (ns "Command") (Path (actions d)) []])
          (act_created (actions d)))].

(** A task as it stands right after registration: it has not run. *)
Definition registered (folder_path name : string) (d : TaskDefinition)
    (user password : string) (logon : TaskLogonTypes) : RegisteredTask :=
  {| rt_Name := name;
     rt_Enabled := match Enabled (settings d) with Some b => b | None => true end;
     rt_State := 3;
     rt_NextRunTime := None;
     rt_LastRunTime := None;
     rt_LastTaskResult := 0;
     rt_NumberOfMissedRuns := 0;
     rt_Path := join_path folder_path name;
     rt_Xml := definition_xml d;
     rt_Definition := d;
     rt_UserId := user;
     rt_Password := password;
     rt_LogonType := logon |}.

Definition replace_task (name : string) (new : RegisteredTask)
    (ts : list RegisteredTask) : list RegisteredTask :=
  List.map (fun t => if String.eqb (rt_Name t) name then new else t) ts.

Definition empty_definition : TaskDefinition :=
  {| reg_info := {| Author := ""; Date := ""; Description := ""; Source := "" |};
     settings := mkSettings None None None None None None None None;
     triggers := mkTriggers [] None None None None None None None;
     actions := mkActions [] None None None |}.

(** Modelled from the spec: new-task-definition, [client.NewTask(0)];
    the definition starts empty. *)
Definition NewTask : M TaskDefinition :=
  let* _ := log_call CallNewTask in ret empty_definition.

(** Modelled from the spec: get-folder by path, [client.GetFolder(path)];
    a path that denotes no folder is the provider's error. *)
Definition GetFolder (path : string) : M Folder :=
  let* w := get_service in
  match resolve path (root w) with
  | Some f => ret f
  | None => raise (com_error "folder not found")
  end.

(** Modelled from the spec: get-task(folder, name), [folder.GetTask(name)]. *)
Definition GetTask (folder name : string) : M RegisteredTask :=
  let* f := GetFolder folder in
  match find_task name (GetTasks f) with
  | Some t => ret t
  | None => raise (com_error "task not found")
  end.

(** Modelled from the spec: create-folder(folder, name),
    [folder.CreateFolder(name)]; subfolder names are unique within a
    folder, so a taken name is the provider's error. *)
Definition CreateFolder (folder name : string) : M Folder :=
  let* _ := log_call (CallCreateFolder folder name) in
  let* f := GetFolder folder in
  if Py.str_in name (List.map Name (GetFolders f))
  then raise (com_error "folder already exists")
  else
    let new := mkFolder name (join_path (FPath f) name) [] [] in
    let* w := get_service in
    let* _ := put_root
                (update folder (fun f => with_folders (GetFolders f ++ [new]) f)
                   (root w)) in
    ret new.

(** Modelled from the spec: delete-folder(folder, name),
    [folder.DeleteFolder(name)]. *)
Definition DeleteFolder (folder name : string) : M unit :=
  let* _ := log_call (CallDeleteFolder folder name) in
  let* f := GetFolder folder in
  if Py.str_in name (List.map Name (GetFolders f))
  then
    let* w := get_service in
    put_root
      (update folder
         (fun f => with_folders
                     (List.filter (fun c => negb (String.eqb (Name c) name))
                        (GetFolders f)) f)
         (root w))
  else raise (com_error "folder not found").

(** Modelled from the spec: register-task(folder, name, definition,
    create-or-update-flag, credentials, logon-type),
    [folder.RegisterTaskDefinition(name, definition, flags, user,
    password, logon)]. Under [TASK_CREATE_OR_UPDATE] registering under
    an existing name replaces the task rather than failing, and a new
    name is added; under [TASK_CREATE] an existing name is refused and
    under [TASK_UPDATE] a missing one is. *)
Definition RegisterTaskDefinition (folder name : string) (d : TaskDefinition)
    (flags : TaskCreationTypes) (user password : string)
    (logon : TaskLogonTypes) : M RegisteredTask :=
  let* _ := log_call (CallRegisterTaskDefinition folder name) in
  let* f := GetFolder folder in
  let new := registered (FPath f) name d user password logon in
  let present := Py.str_in name (List.map rt_Name (GetTasks f)) in
  let store (ts : list RegisteredTask -> list RegisteredTask) : M RegisteredTask :=
    let* w := get_service in
    let* _ := put_root
                (update folder (fun f => with_tasks (ts (GetTasks f)) f) (root w)) in
    ret new in
  match flags, present with
  | TASK_CREATE, true => raise (com_error "task already exists")
  | TASK_UPDATE, false => raise (com_error "task not found")
  | _, true => store (replace_task name new)
  | _, false => store (fun ts => ts ++ [new])
  end.

End Provider.

(* ===================================================================== *)
(** * class RegisteredTask                                                 *)
(* ===================================================================== *)

Module RegisteredTask.

Definition Actions_tag : string :=
  "{http://schemas.microsoft.com/windows/2004/02/mit/task}Actions".
Definition Exec_tag : string :=
  "{http://schemas.microsoft.com/windows/2004/02/mit/task}Exec".
Definition Command_tag : string :=
  "{http://schemas.microsoft.com/windows/2004/02/mit/task}Command".

(** [RegisteredTask.__extract_action_execpath] on the parsed document:
    the three nested loops, with [exepath] as the loop variable. The
    value is a string or None ([command.text] of an empty element). *)
Definition extract_action_execpath (root : ET.Element) : option string :=
  let exepath := Some EmptyString in
  fold_left
    (fun exepath act =>
       fold_left
         (fun exepath exe =>
            fold_left
              (fun exepath command => ET.text command)
              (ET.findall exe Command_tag) exepath)
         (ET.findall act Exec_tag) exepath)
    (ET.findall root Actions_tag) exepath.

(** [RegisteredTask.info] *)
Definition info (rtask : COM.RegisteredTask) : Info.t :=
  let taskdef := COM.rt_Definition rtask in
  let reg_info := COM.reg_info taskdef in
  let task_settings := COM.settings taskdef in
  {| Info.name := COM.rt_Name rtask;
     Info.enabled := COM.rt_Enabled rtask;
     Info.task_state := COM.rt_State rtask;
     Info.next_run_time := COM.rt_NextRunTime rtask;
     Info.last_run_time := COM.rt_LastRunTime rtask;
     Info.last_task_result := COM.rt_LastTaskResult rtask;
     Info.number_of_missed_runs := COM.rt_NumberOfMissedRuns rtask;
     Info.task_path := COM.rt_Path rtask;
     Info.author := COM.Author reg_info;
     Info.registration_date := COM.Date reg_info;
     Info.task_description := COM.Description reg_info;
     Info.task_source := COM.Source reg_info;
     Info.AllowDemandStart := COM.AllowDemandStart task_settings;
     Info.StartWhenAvailable := COM.StartWhenAvailable task_settings;
     Info.Enabled := COM.Enabled task_settings;
     Info.Hidden := COM.Hidden task_settings;
     Info.RestartInterval := COM.RestartInterval task_settings;
     Info.RestartCount := COM.RestartCount task_settings;
     Info.ExecutionTimeLimit := COM.ExecutionTimeLimit task_settings;
     Info.MultipleInstances := COM.MultipleInstances task_settings;
     Info.execution_path := extract_action_execpath (COM.rt_Xml rtask) |}.

End RegisteredTask.

(* ===================================================================== *)
(** * class TaskFolder                                                     *)
(* ===================================================================== *)

Module TaskFolder.

(** The Python object: the handle of the provider folder and the two
    name lists taken when the object is built. *)
Record t := mk {
  folder : string;
  subfolders : list string;
  tasks : list string
}.

(** [TaskFolder.__init__] *)
Definition init (folder_obj : COM.Folder) : t :=
  {| folder := COM.FPath folder_obj;
     subfolders := List.map COM.Name (COM.GetFolders folder_obj);
     tasks := List.map COM.rt_Name (COM.GetTasks folder_obj) |}.

(** [TaskFolder.create_folder] *)
Definition create_folder (self : t) (folder_name : string) : M t :=
  if Py.str_in folder_name (subfolders self)
  then raise (ValueError (folder_name ++ " already exists!")%string)
  else
    let* new_folder := Provider.CreateFolder (folder self) folder_name in
    ret (init new_folder).

(** [TaskFolder.delete_folder] *)
Definition delete_folder (self : t) (folder_name : string) : M unit :=
  if Py.str_in folder_name (subfolders self)
  then Provider.DeleteFolder (folder self) folder_name
  else raise (ValueError (folder_name ++ " does not exist!")%string).

(** [TaskFolder.get_task] *)
Definition get_task (self : t) (task_name : string) : M COM.RegisteredTask :=
  if Py.str_in task_name (tasks self)
  then Provider.GetTask (folder self) task_name
  else raise (ValueError (task_name ++ " does not exist in this folder!")%string).

(** [TaskFolder.register_new_task] *)
Definition register_new_task (self : t) (task_name : string)
    (new_taskdef : COM.TaskDefinition) : M unit :=
  let* _ := Provider.RegisterTaskDefinition (folder self)
              task_name
              new_taskdef
              TASK_CREATE_OR_UPDATE
              "" (* no username *)
              "" (* no password *)
              TASK_LOGON_NONE in
  ret tt.

End TaskFolder.

(* ===================================================================== *)
(** * class TaskTrigger and class TaskAction                               *)
(* ===================================================================== *)

(** Both classes hold the definition and one of its collections; the
    collection is the definition's own, so an assignment on it is an
    assignment inside the definition. Each method returns the
    definition as it stands afterwards. *)
Module TaskTrigger.
Import COM.

Definition on_triggers (g : Triggers -> Triggers) (d : TaskDefinition)
    : TaskDefinition :=
  {| reg_info := reg_info d; settings := settings d;
     triggers := g (triggers d); actions := actions d |}.

(** [TaskTrigger.__set_start_boundary] *)
Definition set_start_boundary (start_date : Py.date) (start_time : Py.time)
    (d : TaskDefinition) : TaskDefinition :=
  on_triggers
    (fun t => mkTriggers (trg_created t) (Some (Py.combine start_date start_time))
                (DaysInterval t) (WeeksInterval t) (DaysOfWeek t)
                (DaysOfMonth t) (MonthsOfYear t) (WeeksOfMonth t)) d.

(** [TaskTrigger.__set_cadence] *)
Definition set_cadence (trigger_type : TaskTriggerTypes) (d : TaskDefinition)
    : M TaskDefinition :=
  let* _ := log_call (CallTriggersCreate trigger_type) in
  ret (on_triggers
         (fun t => mkTriggers (trg_created t ++ [trigger_type]) (StartBoundary t)
                     (DaysInterval t) (WeeksInterval t) (DaysOfWeek t)
                     (DaysOfMonth t) (MonthsOfYear t) (WeeksOfMonth t)) d).

Definition set_DaysInterval (v : option Z) : TaskDefinition -> TaskDefinition :=
  on_triggers (fun t => mkTriggers (trg_created t) (StartBoundary t) v
                 (WeeksInterval t) (DaysOfWeek t) (DaysOfMonth t)
                 (MonthsOfYear t) (WeeksOfMonth t)).
Definition set_WeeksInterval (v : option Z) : TaskDefinition -> TaskDefinition :=
  on_triggers (fun t => mkTriggers (trg_created t) (StartBoundary t)
                 (DaysInterval t) v (DaysOfWeek t) (DaysOfMonth t)
                 (MonthsOfYear t) (WeeksOfMonth t)).
Definition set_DaysOfWeek (v : option Z) : TaskDefinition -> TaskDefinition :=
  on_triggers (fun t => mkTriggers (trg_created t) (StartBoundary t)
                 (DaysInterval t) (WeeksInterval t) v (DaysOfMonth t)
                 (MonthsOfYear t) (WeeksOfMonth t)).
Definition set_DaysOfMonth (v : option Z) : TaskDefinition -> TaskDefinition :=
  on_triggers (fun t => mkTriggers (trg_created t) (StartBoundary t)
                 (DaysInterval t) (WeeksInterval t) (DaysOfWeek t) v
                 (MonthsOfYear t) (WeeksOfMonth t)).
Definition set_MonthsOfYear (v : option Z) : TaskDefinition -> TaskDefinition :=
  on_triggers (fun t => mkTriggers (trg_created t) (StartBoundary t)
                 (DaysInterval t) (WeeksInterval t) (DaysOfWeek t)
                 (DaysOfMonth t) v (WeeksOfMonth t)).
Definition set_WeeksOfMonth (v : option Z) : TaskDefinition -> TaskDefinition :=
  on_triggers (fun t => mkTriggers (trg_created t) (StartBoundary t)
                 (DaysInterval t) (WeeksInterval t) (DaysOfWeek t)
                 (DaysOfMonth t) (MonthsOfYear t) v).

(** [TaskTrigger.create_daily_trigger] *)
Definition create_daily_trigger (taskdef : TaskDefinition)
    (start_date : Py.date) (start_time : Py.time) (days_interval : option Z)
    : M TaskDefinition :=
  let* taskdef := set_cadence TASK_TRIGGER_DAILY taskdef in
  let taskdef := set_start_boundary start_date start_time taskdef in
  ret (set_DaysInterval days_interval taskdef).

(** [TaskTrigger.create_weekly_trigger] *)
Definition create_weekly_trigger (taskdef : TaskDefinition)
    (start_date : Py.date) (start_time : Py.time)
    (weeks_interval days_of_week : option Z) : M TaskDefinition :=
  let* taskdef := set_cadence TASK_TRIGGER_WEEKLY taskdef in
  let taskdef := set_start_boundary start_date start_time taskdef in
  let taskdef := set_WeeksInterval weeks_interval taskdef in
  ret (set_DaysOfWeek days_of_week taskdef).

(** [TaskTrigger.create_monthly_trigger]; a [trigger_type] other than
    "month" and "dow" matches no case. *)
Definition create_monthly_trigger (taskdef : TaskDefinition)
    (trigger_type : string) (start_date : Py.date) (start_time : Py.time)
    (days_of_month days_of_week months_of_year weeks_of_month : option Z)
    : M TaskDefinition :=
  let taskdef := set_start_boundary start_date start_time taskdef in
  if String.eqb trigger_type "month" then
    let* taskdef := set_cadence TASK_TRIGGER_MONTHLY taskdef in
    let taskdef := set_DaysOfMonth days_of_month taskdef in
    ret (set_MonthsOfYear months_of_year taskdef)
  else if String.eqb trigger_type "dow" then
    let* taskdef := set_cadence TASK_TRIGGER_MONTHLYDOW taskdef in
    let taskdef := set_DaysOfWeek days_of_week taskdef in
    let taskdef := set_MonthsOfYear months_of_year taskdef in
    ret (set_WeeksOfMonth weeks_of_month taskdef)
  else ret taskdef.

(** [TaskTrigger.create_one_time_trigger] *)
Definition create_one_time_trigger (taskdef : TaskDefinition)
    (start_date : Py.date) (start_time : Py.time) : M TaskDefinition :=
  let* taskdef := set_cadence TASK_TRIGGER_TIME taskdef in
  ret (set_start_boundary start_date start_time taskdef).

End TaskTrigger.

Module TaskAction.
Import COM.

Definition on_actions (g : Actions -> Actions) (d : TaskDefinition)
    : TaskDefinition :=
  {| reg_info := reg_info d; settings := settings d;
     triggers := triggers d; actions := g (actions d) |}.

(** [TaskAction.__set_action_type] *)
Definition set_action_type (action_type : TaskActionTypes) (d : TaskDefinition)
    : M TaskDefinition :=
  let* _ := log_call (CallActionsCreate action_type) in
  ret (on_actions
         (fun a => mkActions (act_created a ++ [action_type]) (Path a)
                     (Arguments a) (WorkingDirectory a)) d).

(** [TaskAction.create_execution_action] *)
Definition create_execution_action (taskdef : TaskDefinition)
    (filepath : string) (argument working_dir : option string)
    : M TaskDefinition :=
  let* taskdef := set_action_type TASK_ACTION_EXEC taskdef in
  let taskdef :=
    on_actions (fun a => mkActions (act_created a) (Some filepath)
                           (Arguments a) (WorkingDirectory a)) taskdef in
  let taskdef :=
    on_actions (fun a => mkActions (act_created a) (Path a)
                           argument (WorkingDirectory a)) taskdef in
  ret (on_actions (fun a => mkActions (act_created a) (Path a)
                              (Arguments a) working_dir) taskdef).

End TaskAction.

(* ===================================================================== *)
(** * class NewTask and class TaskScheduler                                *)
(* ===================================================================== *)

(** [pl.DataFrame(records)] on the list of dicts of [RegisteredTask.info]. *)
Module Frame.

(** The frame built: without any column when the list is empty, with
    the columns of the dicts otherwise. *)
Inductive t :=
  | NoColumns
  | Columns (rows : list Info.t).

(** The columns of the dicts that can hold None, each by the test of
    its cells. *)
Definition nullable_columns : list (Info.t -> bool) :=
  [ (fun i => Pl.is_null (Info.next_run_time i));
    (fun i => Pl.is_null (Info.last_run_time i));
    (fun i => Pl.is_null (Info.AllowDemandStart i));
    (fun i => Pl.is_null (Info.StartWhenAvailable i));
    (fun i => Pl.is_null (Info.Enabled i));
    (fun i => Pl.is_null (Info.Hidden i));
    (fun i => Pl.is_null (Info.RestartInterval i));
    (fun i => Pl.is_null (Info.RestartCount i));
    (fun i => Pl.is_null (Info.ExecutionTimeLimit i));
    (fun i => Pl.is_null (Info.MultipleInstances i));
    (fun i => Pl.is_null (Info.execution_path i)) ].

(** Some column is read as null and holds a value after the rows read
    for inference. *)
Definition has_late_value (records : list Info.t) : bool :=
  existsb (fun null => Pl.late_value (List.map null records)) nullable_columns.

(** [pl.DataFrame(records)]: an empty list gives a frame without
    columns; a value in a column inferred as null raises ComputeError. *)
Definition DataFrame (records : list Info.t) : Result t :=
  match records with
  | [] => Ok NoColumns
  | _ :: _ => if has_late_value records then Raise ComputeError
              else Ok (Columns records)
  end.

(** [TasksDataFrame(df).preprocess()] on the frame built: the first
    column asked of a frame without columns is not found. *)
Definition preprocess (TASK_STATE_DEFINITION TASK_RESULT_DEFINITION : gmap string string)
    (df : t) : Result (list Row.t) :=
  match df with
  | NoColumns => Raise ColumnNotFoundError
  | Columns rows =>
      Ok (TasksDataFrame.preprocess TASK_STATE_DEFINITION TASK_RESULT_DEFINITION rows)
  end.

End Frame.

(** A step that does not involve the service. *)
Definition lift {A} (r : Result A) : M A := fun w => (r, w).

Module NewTask.
Record t := mk { taskdef : COM.TaskDefinition }.
End NewTask.

Module TaskScheduler.
Import COM.

(** [TaskScheduler.__find_folder]: the path of the first folder below
    [folder] whose name is [folder_name], each subfolder being looked at
    before the folders below it; None when there is none. *)
Fixpoint find_folder (folder : Folder) (folder_name : string) : option string :=
  match folder with
  | mkFolder _ _ _ folders =>
      (fix loop (folders : list Folder) : option string :=
         match folders with
         | [] => None
         | subfolder :: rest =>
             if String.eqb (Name subfolder) folder_name
             then Some (FPath subfolder)
             else match find_folder subfolder folder_name with
                  | Some fpath => if Py.truthy fpath then Some fpath else loop rest
                  | None => loop rest
                  end
         end) folders
  end.

(** [TaskScheduler.get_folder]; [self.root_folder] is the root of the
    service. *)
Definition get_folder (folder_name : option string) : M TaskFolder.t :=
  let* w := get_service in
  match folder_name with
  | None => ret (TaskFolder.init (root w))
  | Some folder_name =>
      let not_found :=
        raise (ValueError ("Could not find " ++ folder_name)%string) in
      match find_folder (root w) folder_name with
      | Some folder_path =>
          if Py.truthy folder_path then
            let* folder := Provider.GetFolder folder_path in
            ret (TaskFolder.init folder)
          else not_found
      | None => not_found
      end
  end.

(** [TaskScheduler.__list_tasks_info_in_folder]. The list that the
    method appends to is threaded through the two loops. [depth] is the
    number of nested calls that the interpreter still allows; at none,
    the call raises [RecursionError]. *)
Fixpoint list_tasks_info_in_folder (depth : nat) (folder : TaskFolder.t)
    (folder_name : string) (tasks_info_list : list Info.t)
    : M (list Info.t) :=
  match depth with
  | O => raise RecursionError
  | S depth' =>
      (* extract and append all the tasks info in the list. *)
      let tasks := TaskFolder.tasks folder in
      let* tasks_info_list :=
        for_each tasks
          (fun t tasks_info_list =>
             let* rtask := TaskFolder.get_task folder t in
             ret (tasks_info_list ++ [RegisteredTask.info rtask]))
          tasks_info_list in
      (* walk through all subfolders and get the tasks info. *)
      let subfolders := TaskFolder.subfolders folder in
      for_each subfolders
        (fun sf tasks_info_list =>
           let* subfolder := get_folder (Some sf) in
           list_tasks_info_in_folder depth' subfolder
             (folder_name ++ "\" ++ sf)%string tasks_info_list)
        tasks_info_list
  end.

Section GetAllTasks.
Context (TASK_STATE_DEFINITION TASK_RESULT_DEFINITION : gmap string string).

(** [TaskScheduler.get_all_tasks] *)
Definition get_all_tasks (depth : nat) : M (list Row.t) :=
  let* root_folder := get_folder None in
  let tasks_info_list := [] in
  let* tasks_info_list :=
    list_tasks_info_in_folder depth root_folder "\" tasks_info_list in
  let* df := lift (Frame.DataFrame tasks_info_list) in
  lift (Frame.preprocess TASK_STATE_DEFINITION TASK_RESULT_DEFINITION df).
End GetAllTasks.

(** The arguments of [create_task]. *)
Record create_task_args := mk_args {
  folder_name : string;
  trigger_type : string;
  start_date : Py.date;
  start_time : Py.time;
  days_interval : option Z;
  weeks_interval : option Z;
  days_of_week : option Z;
  days_of_month : option Z;
  months_of_year : option Z;
  weeks_of_month : option Z;
  action_type : string;
  action_arg : option string;
  action_file : string;
  action_working_dir : option string;
  task_name : string;
  task_description : string;
  allow_demand_start : option bool;
  start_when_available : option bool;
  enabled : option bool;
  hidden : option bool;
  restart_interval : option string;
  restart_count : option Z;
  execution_time_limit : option string;
  multiple_instances : option Z
}.

(** The first [match] of [create_task]: create new trigger. A
    [trigger_type] that is none of the five literals matches no case. *)
Definition match_trigger_type (a : create_task_args)
    (new_taskdef : TaskDefinition) : M TaskDefinition :=
  let ty := trigger_type a in
  if String.eqb ty "daily" then
    TaskTrigger.create_daily_trigger new_taskdef
      (start_date a) (start_time a) (days_interval a)
  else if String.eqb ty "weekly" then
    TaskTrigger.create_weekly_trigger new_taskdef
      (start_date a) (start_time a) (weeks_interval a) (days_of_week a)
  else if String.eqb ty "monthly" then
    TaskTrigger.create_monthly_trigger new_taskdef "month"
      (start_date a) (start_time a)
      (days_of_month a) (days_of_week a) (months_of_year a) (weeks_of_month a)
  else if String.eqb ty "monthlydow" then
    TaskTrigger.create_monthly_trigger new_taskdef "dow"
      (start_date a) (start_time a)
      (days_of_month a) (days_of_week a) (months_of_year a) (weeks_of_month a)
  else if String.eqb ty "one-time" then
    TaskTrigger.create_one_time_trigger new_taskdef
      (start_date a) (start_time a)
  else ret new_taskdef.

(** The second [match] of [create_task]: create a new task action. An
    [action_type] that is none of the four literals matches no case. *)
Definition match_action_type (a : create_task_args)
    (new_taskdef : TaskDefinition) : M TaskDefinition :=
  let ty := action_type a in
  if String.eqb ty "exec" then
    TaskAction.create_execution_action new_taskdef
      (action_file a) (action_arg a) (action_working_dir a)
  else if String.eqb ty "com-handler" then
    raise (NotImplementedError "Create com handler action has not been implemented")
  else if String.eqb ty "email" then
    raise (NotImplementedError "Create send email action has not been implemented")
  else if String.eqb ty "show-message" then
    raise (NotImplementedError "Create show message action has not been implemented")
  else ret new_taskdef.

(** The assignments that follow the two [match] statements: the task
    description and the eight settings. *)
Definition describe_and_configure (a : create_task_args)
    (new_taskdef : TaskDefinition) : TaskDefinition :=
  let r := reg_info new_taskdef in
  {| reg_info := {| Author := Author r; Date := Date r;
                    Description := task_description a; Source := Source r |};
     settings := {| AllowDemandStart := allow_demand_start a;
                    StartWhenAvailable := start_when_available a;
                    Enabled := enabled a;
                    Hidden := hidden a;
                    RestartInterval := restart_interval a;
                    RestartCount := restart_count a;
                    ExecutionTimeLimit := execution_time_limit a;
                    MultipleInstances := multiple_instances a |};
     triggers := triggers new_taskdef;
     actions := actions new_taskdef |}.

(** [TaskScheduler.create_task] *)
Definition create_task (a : create_task_args) : M NewTask.t :=
  let* folder := get_folder (Some (folder_name a)) in
  (* create task def. *)
  let* new_taskdef := Provider.NewTask in
  let* new_taskdef := match_trigger_type a new_taskdef in
  let* new_taskdef := match_action_type a new_taskdef in
  let new_taskdef := describe_and_configure a new_taskdef in
  let* _ := TaskFolder.register_new_task folder (task_name a) new_taskdef in
  ret (NewTask.mk new_taskdef).

(** The five trigger literals and the three action literals that
    [create_task] refuses. *)
Definition supported_trigger_types : list string :=
  ["daily"; "weekly"; "monthly"; "monthlydow"; "one-time"].
Definition unsupported_action_types : list string :=
  ["com-handler"; "email"; "show-message"].

End TaskScheduler.

(* ===================================================================== *)
(** * Reference notions the properties are stated with                     *)
(* ===================================================================== *)

Module Ref.

(** The Command elements met by walking the Actions children of the
    root, their Exec children and the Command children of these, in
    document order. *)
Definition commands (root : ET.Element) : list ET.Element :=
  flat_map
    (fun act =>
       flat_map (fun exe => ET.findall exe RegisteredTask.Command_tag)
         (ET.findall act RegisteredTask.Exec_tag))
    (ET.findall root RegisteredTask.Actions_tag).

(** The Exec elements met on the same walk. *)
Definition execs (root : ET.Element) : list ET.Element :=
  flat_map (fun act => ET.findall act RegisteredTask.Exec_tag)
    (ET.findall root RegisteredTask.Actions_tag).

(** The tasks of a folder tree, depth first, the tasks of a folder
    before the tasks of its subfolders. *)
Fixpoint all_tasks (f : COM.Folder) : list COM.RegisteredTask :=
  match f with
  | COM.mkFolder _ _ ts subs => ts ++ flat_map all_tasks subs
  end.

(** The folders strictly below [f], each before the folders below it,
    siblings in order. *)
Fixpoint descendants (f : COM.Folder) : list COM.Folder :=
  match f with
  | COM.mkFolder _ _ _ subs => flat_map (fun c => c :: descendants c) subs
  end.

(** The loop of [find_folder] over the subfolders of a folder. *)
Fixpoint find_among (folder_name : string) (folders : list COM.Folder)
    : option string :=
  match folders with
  | [] => None
  | subfolder :: rest =>
      if String.eqb (COM.Name subfolder) folder_name
      then Some (COM.FPath subfolder)
      else match TaskScheduler.find_folder subfolder folder_name with
           | Some fpath =>
               if Py.truthy fpath then Some fpath else find_among folder_name rest
           | None => find_among folder_name rest
           end
  end.

(** The first folder below [root] that bears the name. *)
Definition first_named (name : string) (root : COM.Folder) : option COM.Folder :=
  List.find (fun d => String.eqb (COM.Name d) name) (descendants root).

(** Every folder below [root] that bears the name has a non-empty path. *)
Definition named_have_paths (name : string) (root : COM.Folder) : Prop :=
  forall d, In d (descendants root) -> COM.Name d = name ->
            Py.truthy (COM.FPath d) = true.

(** The state code is one of the five that [stats] counts. *)
Definition known_state (r : Row.t) : bool :=
  (0 <=? Row.task_state r) && (Row.task_state r <=? 4).

(** The log description is one of the three that are counted. *)
Definition known_description (r : HistoryRow.t) : bool :=
  Pl.eq_lit_str (HistoryRow.Event_Log_Description r) "INFORMATION"
  || Pl.eq_lit_str (HistoryRow.Event_Log_Description r) "ERROR"
  || Pl.eq_lit_str (HistoryRow.Event_Log_Description r) "WARNING".

(** History row [a] may stand before [b] in a frame sorted on the
    creation time, latest first. *)
Definition latest_first (a b : HistoryRow.t) : Prop :=
  exists x y, HistoryRow.Event_Created a = Some x /\
              HistoryRow.Event_Created b = Some y /\ y <= x.

(** Sample history rows. *)
Definition event (created : option Z) (task_name description : string)
    : HistoryRow.t :=
  {| HistoryRow.Event_Created := created;
     HistoryRow.Event_Level := Some 4;
     HistoryRow.Event_ID := Some 102;
     HistoryRow.Task_Name := HistoryDataFrame.task_name_leaf task_name;
     HistoryRow.Event_ID_Description := Some "Task completed";
     HistoryRow.Event_Log_Description := Some description |}.

(** The arguments [a] with the six cadence arguments replaced. *)
Definition with_cadence (a : TaskScheduler.create_task_args)
    (di wi dow dom moy wom : option Z) : TaskScheduler.create_task_args :=
  {| TaskScheduler.folder_name := TaskScheduler.folder_name a;
     TaskScheduler.trigger_type := TaskScheduler.trigger_type a;
     TaskScheduler.start_date := TaskScheduler.start_date a;
     TaskScheduler.start_time := TaskScheduler.start_time a;
     TaskScheduler.days_interval := di;
     TaskScheduler.weeks_interval := wi;
     TaskScheduler.days_of_week := dow;
     TaskScheduler.days_of_month := dom;
     TaskScheduler.months_of_year := moy;
     TaskScheduler.weeks_of_month := wom;
     TaskScheduler.action_type := TaskScheduler.action_type a;
     TaskScheduler.action_arg := TaskScheduler.action_arg a;
     TaskScheduler.action_file := TaskScheduler.action_file a;
     TaskScheduler.action_working_dir := TaskScheduler.action_working_dir a;
     TaskScheduler.task_name := TaskScheduler.task_name a;
     TaskScheduler.task_description := TaskScheduler.task_description a;
     TaskScheduler.allow_demand_start := TaskScheduler.allow_demand_start a;
     TaskScheduler.start_when_available := TaskScheduler.start_when_available a;
     TaskScheduler.enabled := TaskScheduler.enabled a;
     TaskScheduler.hidden := TaskScheduler.hidden a;
     TaskScheduler.restart_interval := TaskScheduler.restart_interval a;
     TaskScheduler.restart_count := TaskScheduler.restart_count a;
     TaskScheduler.execution_time_limit := TaskScheduler.execution_time_limit a;
     TaskScheduler.multiple_instances := TaskScheduler.multiple_instances a |}.

(** The four action literals that [create_task] knows. *)
Definition action_literals : list string :=
  ["exec"; "com-handler"; "email"; "show-message"].

(** The settings that [create_task] writes for its arguments. *)
Definition settings_of (a : TaskScheduler.create_task_args) : COM.Settings :=
  {| COM.AllowDemandStart := TaskScheduler.allow_demand_start a;
     COM.StartWhenAvailable := TaskScheduler.start_when_available a;
     COM.Enabled := TaskScheduler.enabled a;
     COM.Hidden := TaskScheduler.hidden a;
     COM.RestartInterval := TaskScheduler.restart_interval a;
     COM.RestartCount := TaskScheduler.restart_count a;
     COM.ExecutionTimeLimit := TaskScheduler.execution_time_limit a;
     COM.MultipleInstances := TaskScheduler.multiple_instances a |}.

(** The number of nested calls that the walk of a tree needs. *)
Fixpoint height (f : COM.Folder) : nat :=
  match f with
  | COM.mkFolder _ _ _ subs => S (list_max (List.map height subs))
  end.

(** A folder of the service under [root] that the walk handles as a
    depth-first walk would: its path denotes it, its task names are
    distinct, and each of its subfolders is the folder that the lookup
    by name from the root finds, and is such a folder itself. *)
Inductive walkable (root : COM.Folder) : COM.Folder -> Prop :=
  | walkable_folder n p ts subs :
      Provider.resolve p root = Some (COM.mkFolder n p ts subs) ->
      List.NoDup (List.map COM.rt_Name ts) ->
      Forall (fun c =>
                TaskScheduler.find_folder root (COM.Name c) = Some (COM.FPath c) /\
                Py.truthy (COM.FPath c) = true /\
                walkable root c) subs ->
      walkable root (COM.mkFolder n p ts subs).

(** The cell lies in the closed window [lower, upper]. *)
Definition in_closed (cell : option Z) (lower upper : Z) : Prop :=
  exists x, cell = Some x /\ lower <= x <= upper.

(** The cell lies in the half-open window [lower, upper). *)
Definition in_half_open (cell : option Z) (lower upper : Z) : Prop :=
  exists x, cell = Some x /\ lower <= x < upper.

(** 23:59:59.999999 of the day of [t]. *)
Definition end_of_day (t : Py.datetime) : Z :=
  Pl.lit_date (Py.date_of t) + Pl.us_per_day - 1.

(** 00:00:00 of the day of [t]. *)
Definition start_of_day (t : Py.datetime) : Z := Pl.lit_date (Py.date_of t).

(** Row [a] may stand before row [b] in a frame sorted on [key]:
    both cells are set and in the order asked for. *)
Definition descending_by (key : Row.t -> option Z) (a b : Row.t) : Prop :=
  exists x y, key a = Some x /\ key b = Some y /\ y <= x.
Definition ascending_by (key : Row.t -> option Z) (a b : Row.t) : Prop :=
  exists x y, key a = Some x /\ key b = Some y /\ x <= y.

(** The first folder of [l], in order, below or at which [path]
    resolves. *)
Fixpoint resolve_first (path : string) (l : list COM.Folder) : option COM.Folder :=
  match l with
  | [] => None
  | c :: rest =>
      match Provider.resolve path c with
      | Some r => Some r
      | None => resolve_first path rest
      end
  end.

(** The outcome is a [ValueError], whatever its message. *)
Definition is_ValueError {A} (r : Result A) : Prop :=
  exists msg, r = Raise (ValueError msg).

(** Reading a decimal text back as an integer. *)
Definition read_int (s : string) : option Z :=
  option_map Z.of_int (NilZero.int_of_string s).

(** Sample lookup tables and a sample record, for the checks on
    concrete inputs. *)
Definition sample_states : gmap string string :=
  <["3" := "READY"]> (<["4" := "RUNNING"]> ∅).
Definition sample_results : gmap string string :=
  <["0" := "SUCCESS"]> ∅.

Definition sample_info (name path : string) (state result : Z)
    (next last : option Z) : Info.t :=
  {| Info.name := name; Info.enabled := true; Info.task_state := state;
     Info.next_run_time := next; Info.last_run_time := last;
     Info.last_task_result := result; Info.number_of_missed_runs := 0;
     Info.task_path := path; Info.author := ""; Info.registration_date := "";
     Info.task_description := ""; Info.task_source := "";
     Info.AllowDemandStart := None; Info.StartWhenAvailable := None;
     Info.Enabled := None; Info.Hidden := None; Info.RestartInterval := None;
     Info.RestartCount := None; Info.ExecutionTimeLimit := None;
     Info.MultipleInstances := None; Info.execution_path := Some "" |}.

(** A record whose state code and result code are in neither table. *)
Definition unmapped_info : Info.t :=
  sample_info "t" "\t" 7 267009 None None.

Definition sample_row (name : string) (next last : option Z) : Row.t :=
  TasksDataFrame.preprocess_row sample_states sample_results
    (sample_info name ("\" ++ name)%string 3 0 next last).

(** Sample instants: 2024-01-01 at 10:00:00, 12:00:00 and
    23:59:59.999999, the following midnight, and the midnight that
    opens the day. *)
Definition at_ (y m d h mi s us : Z) : Py.datetime :=
  Py.mk_datetime (Py.ymd y m d) h mi s us.
Definition ten : Py.datetime := at_ 2024 1 1 10 0 0 0.
Definition noon : Py.datetime := at_ 2024 1 1 12 0 0 0.
Definition last_microsecond : Py.datetime := at_ 2024 1 1 23 59 59 999999.
Definition next_midnight : Py.datetime := at_ 2024 1 2 0 0 0 0.
Definition midnight : Py.datetime := at_ 2024 1 1 0 0 0 0.

(** A frame with one task that last ran at 10:00:00 sharp. *)
Definition ran_at_ten : list Row.t :=
  [sample_row "backup" None (Some (Pl.lit_datetime ten))].

(** A frame with one task whose next run is at noon. *)
Definition due_at_noon : list Row.t :=
  [sample_row "report" (Some (Pl.lit_datetime noon)) None].

(** A frame with tasks due at the last microsecond of the day, at noon,
    at the next midnight, and at the midnight that opens the day. *)
Definition due_all_day : list Row.t :=
  [sample_row "late" (Some (Pl.lit_datetime last_microsecond)) None;
   sample_row "report" (Some (Pl.lit_datetime noon)) None;
   sample_row "tomorrow" (Some (Pl.lit_datetime next_midnight)) None;
   sample_row "first" (Some (Pl.lit_datetime midnight)) None].

(** The task list of a folder after a registration under
    [TASK_CREATE_OR_UPDATE]. *)
Definition store (present : bool) (name : string) (new : COM.RegisteredTask)
    (ts : list COM.RegisteredTask) : list COM.RegisteredTask :=
  if present then Provider.replace_task name new ts else ts ++ [new].

Definition stored (name : string) (new : COM.RegisteredTask)
    (ts : list COM.RegisteredTask) : list COM.RegisteredTask :=
  store (Py.str_in name (List.map COM.rt_Name ts)) name new ts.

(** The trigger type that [create_task] creates for a literal. *)
Definition cadence (trigger_type : string) : option TaskTriggerTypes :=
  if String.eqb trigger_type "daily" then Some TASK_TRIGGER_DAILY
  else if String.eqb trigger_type "weekly" then Some TASK_TRIGGER_WEEKLY
  else if String.eqb trigger_type "monthly" then Some TASK_TRIGGER_MONTHLY
  else if String.eqb trigger_type "monthlydow" then Some TASK_TRIGGER_MONTHLYDOW
  else if String.eqb trigger_type "one-time" then Some TASK_TRIGGER_TIME
  else None.

(** The service after it has received the calls [cs]. *)
Definition received (cs : list COM.Call) (w : COM.Service) : COM.Service :=
  {| COM.root := COM.root w; COM.calls := COM.calls w ++ cs |}.

(** Sample documents: two Exec actions, and none. *)
Definition elem (local : string) (text : option string)
    (children : list ET.Element) : ET.Element :=
  ET.mkElement (Provider.ns local) text children.
Definition command_a : ET.Element := elem "Command" (Some "C:\a.exe") [].
Definition command_b : ET.Element := elem "Command" (Some "C:\b.exe") [].
Definition two_execs : ET.Element :=
  elem "Task" None
    [elem "RegistrationInfo" None [];
     elem "Actions" None
       [elem "Exec" None [command_a; elem "Arguments" (Some "-q") []];
        elem "Exec" None [command_b]]].
Definition no_exec : ET.Element :=
  elem "Task" None [elem "RegistrationInfo" None []; elem "Actions" None []].

(** A sample service. Two folders of the root, A and B, each hold a
    subfolder named X; \A\X holds the task Sync, \B\X the task Clean. *)
Definition task (name path : string) (xml : ET.Element) : COM.RegisteredTask :=
  {| COM.rt_Name := name; COM.rt_Enabled := true; COM.rt_State := 3;
     COM.rt_NextRunTime := None; COM.rt_LastRunTime := None;
     COM.rt_LastTaskResult := 0; COM.rt_NumberOfMissedRuns := 0;
     COM.rt_Path := path; COM.rt_Xml := xml;
     COM.rt_Definition := Provider.empty_definition;
     COM.rt_UserId := ""; COM.rt_Password := "";
     COM.rt_LogonType := TASK_LOGON_NONE |}.

Definition ping : COM.RegisteredTask := task "Ping" "\Ping" no_exec.
Definition sync : COM.RegisteredTask := task "Sync" "\A\X\Sync" two_execs.
Definition clean : COM.RegisteredTask := task "Clean" "\B\X\Clean" no_exec.

Definition tree : COM.Folder :=
  COM.mkFolder "\" "\" [ping]
    [COM.mkFolder "A" "\A" [] [COM.mkFolder "X" "\A\X" [sync] []];
     COM.mkFolder "B" "\B" [] [COM.mkFolder "X" "\B\X" [clean] []]].

Definition service : COM.Service := {| COM.root := tree; COM.calls := [] |}.

(** A service in which the folder A holds a subfolder named A. *)
Definition nested_tree : COM.Folder :=
  COM.mkFolder "\" "\" [ping]
    [COM.mkFolder "A" "\A" [] [COM.mkFolder "A" "\A\A" [sync] []]].
Definition nested_service : COM.Service :=
  {| COM.root := nested_tree; COM.calls := [] |}.

(** A service in which no two folders share a name. *)
Definition plain_tree : COM.Folder :=
  COM.mkFolder "\" "\" [ping]
    [COM.mkFolder "A" "\A" [] [COM.mkFolder "X" "\A\X" [sync] []];
     COM.mkFolder "B" "\B" [] [COM.mkFolder "Y" "\B\Y" [clean] []]].
Definition plain_service : COM.Service :=
  {| COM.root := plain_tree; COM.calls := [] |}.

(** The TaskFolder object of the root of the sample service. *)
Definition root_folder : TaskFolder.t := TaskFolder.init tree.

(** Sample calls of [create_task] on the sample service. *)
Definition call (folder_name trigger_type action_type : string)
    : TaskScheduler.create_task_args :=
  {| TaskScheduler.folder_name := folder_name;
     TaskScheduler.trigger_type := trigger_type;
     TaskScheduler.start_date := Py.ymd 2024 1 1;
     TaskScheduler.start_time := Py.mk_time 10 0 0 0;
     TaskScheduler.days_interval := Some 1;
     TaskScheduler.weeks_interval := Some 1;
     TaskScheduler.days_of_week := Some 2;
     TaskScheduler.days_of_month := Some 1;
     TaskScheduler.months_of_year := Some 4095;
     TaskScheduler.weeks_of_month := Some 1;
     TaskScheduler.action_type := action_type;
     TaskScheduler.action_arg := Some "-q";
     TaskScheduler.action_file := "C:\a.exe";
     TaskScheduler.action_working_dir := None;
     TaskScheduler.task_name := "Nightly";
     TaskScheduler.task_description := "nightly run";
     TaskScheduler.allow_demand_start := Some true;
     TaskScheduler.start_when_available := Some true;
     TaskScheduler.enabled := Some true;
     TaskScheduler.hidden := Some false;
     TaskScheduler.restart_interval := None;
     TaskScheduler.restart_count := None;
     TaskScheduler.execution_time_limit := None;
     TaskScheduler.multiple_instances := Some 0 |}.

End Ref.

(* ===================================================================== *)
(** * Properties                                                           *)
(* ===================================================================== *)

(** ** Strings and lists *)

Lemma str_split_nonempty sep s : Pl.str_split sep s <> [].
Proof.
  destruct s as [|c rest]; simpl; [discriminate|].
  destruct (Ascii.eqb c sep); [discriminate|].
  destruct (Pl.str_split sep rest); discriminate.
Qed.

Lemma str_join_cons sep c seg segs :
  Pl.str_join sep (String c seg :: segs) = String c (Pl.str_join sep (seg :: segs)).
Proof. destruct segs; reflexivity. Qed.

Lemma str_join_split sep s : Pl.str_join sep (Pl.str_split sep s) = s.
Proof.
  induction s as [|c rest IH]; [reflexivity|].
  simpl Pl.str_split. destruct (Ascii.eqb_spec c sep) as [->|Hne].
  - pose proof (str_split_nonempty sep rest) as Hn.
    destruct (Pl.str_split sep rest) as [|seg segs] eqn:E; [contradiction|].
    change (String sep (Pl.str_join sep (seg :: segs)) = String sep rest).
    now rewrite IH.
  - pose proof (str_split_nonempty sep rest) as Hn.
    destruct (Pl.str_split sep rest) as [|seg segs] eqn:E; [contradiction|].
    rewrite str_join_cons. now rewrite IH.
Qed.

Lemma str_split_no_sep sep s :
  Forall (fun seg => Pl.str_contains sep seg = false) (Pl.str_split sep s).
Proof.
  induction s as [|c rest IH]; simpl.
  - repeat constructor.
  - destruct (Ascii.eqb c sep) eqn:E.
    + constructor; [reflexivity|exact IH].
    + destruct (Pl.str_split sep rest) as [|seg segs]; [repeat constructor; simpl; now rewrite E|].
      inversion IH; subst. constructor; [simpl; now rewrite E|assumption].
Qed.

Lemma list_first_slice {A} (l : list A) (d : A) :
  (2 < length l)%nat -> Pl.list_first (Pl.list_slice 1 2 l) = Some (nth 1 l d).
Proof.
  destruct l as [|a [|b [|c l]]]; simpl; intros H; try lia. reflexivity.
Qed.

Lemma str_in_spec x xs : Py.str_in x xs = true <-> In x xs.
Proof.
  unfold Py.str_in. rewrite existsb_exists. split.
  - intros (y & Hy & E). apply String.eqb_eq in E. now subst.
  - intros H. exists x. split; [assumption|apply String.eqb_refl].
Qed.

Lemma str_in_false x xs : Py.str_in x xs = false <-> ~ In x xs.
Proof.
  rewrite <- str_in_spec. destruct (Py.str_in x xs); split; congruence.
Qed.

Lemma last_app_default {A} (l1 l2 : list A) (d : A) :
  List.last (l1 ++ l2) d = List.last l2 (List.last l1 d).
Proof.
  revert d. induction l1 as [|a l1 IH]; intros d; [reflexivity|].
  destruct l1 as [|b l1].
  - simpl. destruct l2 as [|c l2]; [reflexivity|].
    change (List.last (c :: l2) d = List.last (c :: l2) a).
    clear. revert c. induction l2 as [|e l2 IH]; intros c; [reflexivity|].
    change (List.last (e :: l2) d = List.last (e :: l2) a). apply IH.
  - change (List.last (b :: l1 ++ l2) d = List.last l2 (List.last (b :: l1) d)).
    apply (IH d).
Qed.

(** ** C7: the top folder of a task path *)

Example segments_A_B_C :
  TasksDataFrame.segments "\A\B\C" = [""; "A"; "B"; "C"].
Proof. reflexivity. Qed.

Lemma preprocess_rows (S R : gmap string string)
    (P : Info.t -> Row.t -> Prop) (df : list Info.t) :
  (forall i, P i (TasksDataFrame.preprocess_row S R i)) ->
  Forall2 P df (TasksDataFrame.preprocess S R df).
Proof.
  intros H. unfold TasksDataFrame.preprocess.
  induction df as [|i df IH]; simpl; constructor; [apply H|exact IH].
Qed.

Lemma preprocess_row_top_folder (S R : gmap string string) (i : Info.t) :
  let segs := TasksDataFrame.segments (Info.task_path i) in
  Row.task_folder_name (TasksDataFrame.preprocess_row S R i) =
    Some (if (length segs <=? 2)%nat then "\" else nth 1 segs "").
Proof.
  intros segs. simpl. fold segs.
  unfold TasksDataFrame.top_folder, Pl.list_len.
  destruct (Nat.leb_spec (length segs) 2) as [H|H].
  - destruct (Z.leb_spec (Z.of_nat (length segs)) 2); [reflexivity|lia].
  - destruct (Z.leb_spec (Z.of_nat (length segs)) 2); [lia|].
    now apply list_first_slice.
Qed.

(** C7. [preprocess] gives one row per record of the frame, in the order
    of the records, and for every record and its row: the path of the row
    is the path of the record; the path is split on the backslash (the
    segments contain no backslash and joined by backslashes give the path
    back); and the top-folder column of the row is the backslash string
    when there are at most two segments and the second segment otherwise.
    The path \A\B\C has the segments "", A, B, C, and the row of a record
    with this path has the top folder A. *)
Theorem preprocess_top_folder
    (S R : gmap string string) (df : list Info.t) :
  Forall2
    (fun i row =>
       let segs := TasksDataFrame.segments (Info.task_path i) in
       Row.task_path row = Info.task_path i /\
       Pl.str_join TasksDataFrame.backslash segs = Info.task_path i /\
       Forall (fun seg => Pl.str_contains TasksDataFrame.backslash seg = false)
         segs /\
       Row.task_folder_name row =
         Some (if (length segs <=? 2)%nat then "\" else nth 1 segs ""))
    df (TasksDataFrame.preprocess S R df) /\
  TasksDataFrame.segments "\A\B\C" = [""; "A"; "B"; "C"] /\
  List.map Row.task_folder_name
    (TasksDataFrame.preprocess S R
       [Ref.sample_info "C" "\A\B\C" 3 0 None None])
  = [Some "A"].
Proof.
  split; [|split; reflexivity].
  apply preprocess_rows. intros i segs.
  split; [reflexivity|]. split; [apply str_join_split|].
  split; [apply str_split_no_sep|]. apply preprocess_row_top_folder.
Qed.

(** ** C6: the labels of the state and result codes *)

Lemma cast_str_read code : Ref.read_int (Pl.cast_str code) = Some code.
Proof.
  unfold Ref.read_int, Pl.cast_str.
  rewrite NilZero.isi.
  - simpl. now rewrite DecimalZ.of_to.
  - destruct code; simpl; try discriminate.
    intros H; injection H as H. now apply Unsigned.to_uint_nonnil in H.
  - destruct code; simpl; try discriminate.
    intros H; injection H as H. now apply Unsigned.to_uint_nonnil in H.
Qed.

Lemma cast_str_inj a b : Pl.cast_str a = Pl.cast_str b -> a = b.
Proof.
  intros H. pose proof (cast_str_read a) as Ha.
  rewrite H, cast_str_read in Ha. congruence.
Qed.

Example cast_str_samples :
  Pl.cast_str 3 = "3" /\ Pl.cast_str 267009 = "267009" /\ Pl.cast_str (-5) = "-5".
Proof. repeat split. Qed.

Lemma preprocess_row_labels (S R : gmap string string) (i : Info.t) :
  let row := TasksDataFrame.preprocess_row S R i in
  let state := Pl.cast_str (Info.task_state i) in
  let result := Pl.cast_str (Info.last_task_result i) in
  (forall label, S !! state = Some label ->
     Row.task_state_definition row = label) /\
  (S !! state = None ->
     Row.task_state_definition row = state /\
     Ref.read_int (Row.task_state_definition row) = Some (Info.task_state i)) /\
  (forall label, R !! result = Some label ->
     Row.last_task_result_definition row = label) /\
  (R !! result = None ->
     Row.last_task_result_definition row = result /\
     Ref.read_int (Row.last_task_result_definition row)
       = Some (Info.last_task_result i)).
Proof.
  simpl. unfold TasksDataFrame.task_state_definition,
    TasksDataFrame.last_task_result_definition, Pl.replace.
  repeat split.
  - intros label H. now rewrite H.
  - now rewrite H.
  - rewrite H. apply cast_str_read.
  - intros label H. now rewrite H.
  - now rewrite H.
  - rewrite H. apply cast_str_read.
Qed.

(** C6. [preprocess] gives one row per record of the frame, in the order
    of the records, and for every record and its row: the row keeps the
    state code and the last-result code of the record; its state label is
    the label that the state table holds for the text of the state code
    and, when the table has no such key, the text of the code itself,
    from which the code is read back; the same holds of the result label
    with the result table. The derivation is a total function, so nothing
    is raised for a missing key. *)
Theorem preprocess_labels (S R : gmap string string) (df : list Info.t) :
  Forall2
    (fun i row =>
       let state := Pl.cast_str (Info.task_state i) in
       let result := Pl.cast_str (Info.last_task_result i) in
       Row.task_state row = Info.task_state i /\
       Row.last_task_result row = Info.last_task_result i /\
       (forall label, S !! state = Some label ->
          Row.task_state_definition row = label) /\
       (S !! state = None ->
          Row.task_state_definition row = state /\
          Ref.read_int (Row.task_state_definition row)
            = Some (Info.task_state i)) /\
       (forall label, R !! result = Some label ->
          Row.last_task_result_definition row = label) /\
       (R !! result = None ->
          Row.last_task_result_definition row = result /\
          Ref.read_int (Row.last_task_result_definition row)
            = Some (Info.last_task_result i)))
    df (TasksDataFrame.preprocess S R df).
Proof.
  apply preprocess_rows. intros i state result.
  split; [reflexivity|]. split; [reflexivity|].
  apply preprocess_row_labels.
Qed.

Lemma preprocess_labels_witness :
  Ref.sample_states !! Pl.cast_str 7 = None /\
  Ref.sample_results !! Pl.cast_str 267009 = None /\
  List.map Row.task_state_definition
    (TasksDataFrame.preprocess Ref.sample_states Ref.sample_results
       [Ref.unmapped_info]) = ["7"] /\
  List.map Row.last_task_result_definition
    (TasksDataFrame.preprocess Ref.sample_states Ref.sample_results
       [Ref.unmapped_info]) = ["267009"].
Proof.
  assert (H1 : Ref.sample_states !! Pl.cast_str 7 = None) by (vm_compute; reflexivity).
  assert (H2 : Ref.sample_results !! Pl.cast_str 267009 = None) by (vm_compute; reflexivity).
  destruct (Forall2_cons_1 _ _ _ _ _
              (preprocess_labels Ref.sample_states Ref.sample_results
                 [Ref.unmapped_info])) as ((_ & _ & _ & Hs & _ & Hr) & _).
  split; [exact H1|]. split; [exact H2|].
  split.
  - exact (f_equal2 cons (proj1 (Hs H1)) eq_refl).
  - exact (f_equal2 cons (proj1 (Hr H2)) eq_refl).
Defined.

Example preprocess_labels_mapped :
  Row.task_state_definition (Ref.sample_row "t" None None) = "READY" /\
  Row.last_task_result_definition (Ref.sample_row "t" None None) = "SUCCESS".
Proof. vm_compute. split; reflexivity. Qed.

(** ** C3: the executable path of a task *)

Lemma fold_commands (cmds : list ET.Element) (exepath : option string) :
  fold_left (fun _ command => ET.text command) cmds exepath
  = List.last (List.map ET.text cmds) exepath.
Proof.
  revert exepath. induction cmds as [|c cmds IH]; intros exepath; [reflexivity|].
  simpl fold_left. rewrite IH.
  change (List.map ET.text (c :: cmds)) with ([ET.text c] ++ List.map ET.text cmds).
  now rewrite last_app_default.
Qed.

Lemma fold_execs (exes : list ET.Element) (exepath : option string) :
  fold_left
    (fun exepath exe =>
       fold_left (fun _ command => ET.text command)
         (ET.findall exe RegisteredTask.Command_tag) exepath)
    exes exepath
  = List.last
      (List.map ET.text
         (flat_map (fun exe => ET.findall exe RegisteredTask.Command_tag) exes))
      exepath.
Proof.
  revert exepath. induction exes as [|e exes IH]; intros exepath; [reflexivity|].
  simpl fold_left. rewrite IH, fold_commands.
  simpl flat_map. now rewrite List.map_app, last_app_default.
Qed.

Lemma extract_is_last_command (root : ET.Element) :
  RegisteredTask.extract_action_execpath root
  = List.last (List.map ET.text (Ref.commands root)) (Some "").
Proof.
  unfold RegisteredTask.extract_action_execpath, Ref.commands.
  generalize (Some "" : option string) as exepath.
  induction (ET.findall root RegisteredTask.Actions_tag) as [|a acts IH];
    intros exepath; [reflexivity|].
  simpl fold_left. rewrite IH, fold_execs.
  simpl flat_map. now rewrite List.map_app, last_app_default.
Qed.

Lemma no_exec_no_command (root : ET.Element) :
  Ref.execs root = [] -> Ref.commands root = [].
Proof.
  unfold Ref.execs, Ref.commands.
  induction (ET.findall root RegisteredTask.Actions_tag) as [|a acts IH];
    [reflexivity|].
  simpl. intros H. apply app_eq_nil in H as [Ha Hr].
  rewrite Ha. simpl. now apply IH.
Qed.

(** C3. For every parsed task definition, the extracted path is the text
    of the last Command element met by walking the Actions, Exec and
    Command elements in document order (the last one written wins); it
    is the empty string when the walk meets no Command element, and in
    particular when there is no Exec element. The extraction is a total
    function of the document: nothing is raised. *)
Theorem extract_action_execpath_last_wins (root : ET.Element) :
  RegisteredTask.extract_action_execpath root
    = List.last (List.map ET.text (Ref.commands root)) (Some "") /\
  (forall cmds command,
     Ref.commands root = cmds ++ [command] ->
     RegisteredTask.extract_action_execpath root = ET.text command) /\
  (Ref.execs root = [] ->
     RegisteredTask.extract_action_execpath root = Some "").
Proof.
  split; [apply extract_is_last_command|]. split.
  - intros cmds command H. rewrite extract_is_last_command, H.
    rewrite List.map_app. simpl. apply List.last_last.
  - intros H. rewrite extract_is_last_command.
    now rewrite (no_exec_no_command root H).
Qed.

Lemma extract_action_execpath_last_wins_witness :
  Ref.commands Ref.two_execs = [Ref.command_a] ++ [Ref.command_b] /\
  RegisteredTask.extract_action_execpath Ref.two_execs = Some "C:\b.exe" /\
  Ref.execs Ref.no_exec = [] /\
  RegisteredTask.extract_action_execpath Ref.no_exec = Some "".
Proof.
  assert (H1 : Ref.commands Ref.two_execs = [Ref.command_a] ++ [Ref.command_b])
    by (vm_compute; reflexivity).
  assert (H2 : Ref.execs Ref.no_exec = []) by (vm_compute; reflexivity).
  split; [exact H1|]. split.
  - exact (proj1 (proj2 (extract_action_execpath_last_wins Ref.two_execs)) _ _ H1).
  - split; [exact H2|].
    exact (proj2 (proj2 (extract_action_execpath_last_wins Ref.no_exec)) H2).
Defined.

(** ** Sorting a frame *)

Section SortFacts.
Context {Row : Type} (key : Row -> option Z) (descending : bool).

Lemma cell_le_total a b :
  Pl.cell_le descending a b = false -> Pl.cell_le descending b a = true.
Proof.
  destruct a as [x|], b as [y|]; simpl; try congruence.
  destruct descending; intros H; apply Z.leb_gt in H; apply Z.leb_le; lia.
Qed.

Lemma cell_le_trans a b c :
  Pl.cell_le descending a b = true -> Pl.cell_le descending b c = true ->
  Pl.cell_le descending a c = true.
Proof.
  destruct a as [x|], b as [y|], c as [z|]; simpl; try congruence.
  destruct descending; rewrite !Z.leb_le; lia.
Qed.

Lemma insert_row_perm r df :
  Permutation (Pl.insert_row key descending r df) (r :: df).
Proof.
  induction df as [|r' rest IH]; simpl; [reflexivity|].
  destruct (Pl.cell_le descending (key r) (key r')); [reflexivity|].
  rewrite IH. apply perm_swap.
Qed.

Lemma sort_perm df : Permutation (Pl.sort key descending df) df.
Proof.
  induction df as [|r rest IH]; simpl; [reflexivity|].
  rewrite insert_row_perm. now constructor.
Qed.

Lemma insert_row_sorted r df :
  StronglySorted (Pl.ordered key descending) df ->
  StronglySorted (Pl.ordered key descending) (Pl.insert_row key descending r df).
Proof.
  induction df as [|r' rest IH]; simpl; intros Hs.
  - repeat constructor.
  - inversion Hs as [|? ? Hrest Hall]; subst.
    destruct (Pl.cell_le descending (key r) (key r')) eqn:E.
    + constructor; [assumption|]. constructor; [exact E|].
      eapply List.Forall_impl; [|exact Hall].
      intros b Hb. unfold Pl.ordered in *. eapply cell_le_trans; eassumption.
    + constructor; [now apply IH|].
      eapply Permutation_Forall; [symmetry; apply insert_row_perm|].
      constructor; [|assumption]. now apply cell_le_total.
Qed.

Lemma sort_sorted df :
  StronglySorted (Pl.ordered key descending) (Pl.sort key descending df).
Proof.
  induction df as [|r rest IH]; simpl; [constructor|].
  now apply insert_row_sorted.
Qed.
End SortFacts.

Lemma StronglySorted_on {A} (P : A -> Prop) (R R' : A -> A -> Prop) l :
  (forall a b, P a -> P b -> R a b -> R' a b) ->
  Forall P l -> StronglySorted R l -> StronglySorted R' l.
Proof.
  intros HR HP Hs. induction Hs as [|a l Hs IH Hall]; [constructor|].
  inversion HP as [|? ? Pa Pl]; subst. constructor; [now apply IH|].
  rewrite List.Forall_forall in *. intros b Hb. apply HR; auto.
Qed.

Lemma is_between_closed cell lower upper :
  Pl.is_between cell lower upper = true <-> Ref.in_closed cell lower upper.
Proof.
  unfold Pl.is_between, Ref.in_closed. destruct cell as [x|].
  - rewrite andb_true_iff, !Z.leb_le. split.
    + intros H. exists x. split; [reflexivity|lia].
    + intros (y & E & H). inversion E; subst. lia.
  - split; [discriminate|]. intros (y & E & _). discriminate.
Qed.

(** A frame filtered on a window of [key] and sorted on [key]: the rows
    of the window, each as often as in the frame, in order. *)
Lemma window_query (key : Row.t -> option Z) (descending : bool)
    (lower upper : Z) (df : list Row.t) :
  let keep := fun r => Pl.is_between (key r) lower upper in
  let out := Pl.sort key descending (List.filter keep df) in
  Permutation out (List.filter keep df) /\
  (forall r, In r out <-> In r df /\ Ref.in_closed (key r) lower upper) /\
  StronglySorted
    (if descending then Ref.descending_by key else Ref.ascending_by key) out.
Proof.
  intros keep out. pose proof (sort_perm key descending (List.filter keep df)) as Hp.
  fold out in Hp. split; [exact Hp|]. split.
  - intros r. split.
    + intros H. eapply Permutation_in in H; [|exact Hp].
      apply List.filter_In in H as [H1 H2]. split; [assumption|].
      now apply is_between_closed.
    + intros [H1 H2]. eapply Permutation_in; [symmetry; exact Hp|].
      apply List.filter_In. split; [assumption|]. now apply is_between_closed.
  - apply (StronglySorted_on (fun r => exists x, key r = Some x)
             (Pl.ordered key descending)).
    + intros a b [x Ha] [y Hb]. unfold Pl.ordered. rewrite Ha, Hb. simpl.
      destruct descending; rewrite Z.leb_le; intros H;
        exists x, y; auto.
    + eapply Permutation_Forall; [symmetry; exact Hp|].
      apply List.Forall_forall. intros r H. apply List.filter_In in H as [_ H].
      apply is_between_closed in H as (x & E & _). eauto.
    + apply sort_sorted.
Qed.

(** ** C8: the tasks completed today *)

Lemma start_of_day_le (t : Py.datetime) :
  Py.valid t -> Ref.start_of_day t <= Pl.lit_datetime t <= Ref.end_of_day t.
Proof.
  unfold Py.valid, Ref.start_of_day, Ref.end_of_day, Pl.lit_datetime,
    Py.date_of, Pl.us_per_day.
  lia.
Qed.

(** With two readings of the clock: the closed window from the midnight
    of the first reading's day to the second reading. *)
Lemma completed_today_two_clocks (clock_today clock_now : Py.datetime)
    (df : list Row.t) :
  forall r,
    In r (TasksDataFrame.get_tasks_completed_today clock_today clock_now df) <->
    In r df /\
    Ref.in_closed (Row.last_run_time r)
      (Ref.start_of_day clock_today) (Pl.lit_datetime clock_now).
Proof.
  apply (window_query Row.last_run_time true
           (Ref.start_of_day clock_today) (Pl.lit_datetime clock_now) df).
Qed.

(** C8, as the code has it. For every frame and every call instant [t],
    [get_tasks_completed_today] returns exactly the rows whose last-run
    cell is set and lies in the closed window from 00:00:00 of the day of
    [t] to [t] itself, both bounds included, under the naive comparison
    of timestamps; every last run before that midnight is excluded; the
    rows come sorted on last-run, latest first. *)
Theorem completed_today_closed_window (t : Py.datetime) (df : list Row.t) :
  let out := TasksDataFrame.get_tasks_completed_today t t df in
  Permutation out
    (List.filter
       (fun r => Pl.is_between (Row.last_run_time r)
                   (Ref.start_of_day t) (Pl.lit_datetime t)) df) /\
  (forall r, In r out <->
     In r df /\
     Ref.in_closed (Row.last_run_time r) (Ref.start_of_day t) (Pl.lit_datetime t)) /\
  Forall (fun r => exists x, Row.last_run_time r = Some x /\ Ref.start_of_day t <= x) out /\
  StronglySorted (Ref.descending_by Row.last_run_time) out.
Proof.
  intros out.
  destruct (window_query Row.last_run_time true
              (Ref.start_of_day t) (Pl.lit_datetime t) df) as (Hp & Hin & Hs).
  split; [exact Hp|]. split; [exact Hin|]. split; [|exact Hs].
  apply List.Forall_forall. intros r H. apply Hin in H as [_ (x & E & Hx)].
  exists x. split; [assumption|lia].
Qed.

(** C8, as stated, fails: a task whose last run is the call instant
    itself is returned, although the instant is outside the half-open
    window that ends before it. *)
Lemma completed_today_half_open_fails :
  ~ (forall r,
       In r (TasksDataFrame.get_tasks_completed_today Ref.ten Ref.ten Ref.ran_at_ten)
       <-> In r Ref.ran_at_ten /\
           Ref.in_half_open (Row.last_run_time r)
             (Ref.start_of_day Ref.ten) (Pl.lit_datetime Ref.ten)).
Proof.
  intros H.
  pose (r := Ref.sample_row "backup" None (Some (Pl.lit_datetime Ref.ten))).
  assert (Hin : In r (TasksDataFrame.get_tasks_completed_today
                        Ref.ten Ref.ten Ref.ran_at_ten)).
  { apply completed_today_two_clocks. split; [now left|].
    exists (Pl.lit_datetime Ref.ten). split; [reflexivity|].
    vm_compute. split; discriminate. }
  apply H in Hin as [_ (x & E & Hx)].
  simpl in E. injection E as <-. lia.
Qed.

Example completed_today_sample :
  TasksDataFrame.get_tasks_completed_today Ref.ten Ref.ten Ref.ran_at_ten
  = Ref.ran_at_ten.
Proof. vm_compute. reflexivity. Qed.

(** ** C1: the tasks due today *)

(** The upper bound of [get_tasks_due_today] is the bare date of the
    call instant: the remaining time is less than a day, and a [date]
    plus a [timedelta] takes the days of the [timedelta] only. *)
Lemma upper_date_is_today (t : Py.datetime) :
  Py.valid t ->
  Py.date_add (Py.date_of t)
    (Py.timedelta_of (23 - Py.hour t) (59 - Py.minute t)
       (59 - Py.second t) (999999 - Py.microsecond t))
  = Py.date_of t.
Proof.
  intros (Hh & Hm & Hs & Hu). unfold Py.date_add, Py.timedelta_of. simpl.
  set (total := (((23 - Py.hour t) * 60 + (59 - Py.minute t)) * 60
                 + (59 - Py.second t)) * 1000000 + (999999 - Py.microsecond t)).
  assert (H0 : 0 <= total < 86400 * 1000000) by (unfold total; lia).
  assert (H1 : 0 <= total / 1000000 < 86400).
  { split; [apply Z.div_pos; lia|apply Z.div_lt_upper_bound; lia]. }
  rewrite (Z.div_small _ _ H1). lia.
Qed.

(** What the query returns: the rows whose next run lies between the
    call instant and 00:00:00 of the same day. *)
Lemma due_today_window (t : Py.datetime) (df : list Row.t) :
  Py.valid t ->
  forall r,
    In r (TasksDataFrame.get_tasks_due_today t df) <->
    In r df /\
    Ref.in_closed (Row.next_run_time r) (Pl.lit_datetime t) (Ref.start_of_day t).
Proof.
  intros Hv. unfold TasksDataFrame.get_tasks_due_today.
  cbv zeta. rewrite (upper_date_is_today t Hv).
  apply (window_query Row.next_run_time false
           (Pl.lit_datetime t) (Pl.lit_date (Py.date_of t)) df).
Qed.

(** At any instant after midnight the query returns no row at all. *)
Lemma due_today_empty (t : Py.datetime) (df : list Row.t) :
  Py.valid t -> Ref.start_of_day t < Pl.lit_datetime t ->
  TasksDataFrame.get_tasks_due_today t df = [].
Proof.
  intros Hv Hlt.
  destruct (TasksDataFrame.get_tasks_due_today t df) as [|r out] eqn:E;
    [reflexivity|].
  assert (H : In r (TasksDataFrame.get_tasks_due_today t df))
    by (rewrite E; now left).
  apply (due_today_window t df Hv) in H as [_ (x & _ & Hx)]. lia.
Qed.

(** C1, on the code. Called at 2024-01-01T10:00:00 on a frame whose one
    task is due at 12:00:00 of that day, [get_tasks_due_today] returns
    the empty frame, although the next run lies in the window from the
    call instant to 23:59:59.999999 of that day; the upper bound that the
    code computes is 00:00:00 of that day. *)
Theorem due_today_drops_task_due_at_noon :
  TasksDataFrame.get_tasks_due_today Ref.ten Ref.due_at_noon = [] /\
  Ref.in_closed (Some (Pl.lit_datetime Ref.noon))
    (Pl.lit_datetime Ref.ten) (Ref.end_of_day Ref.ten) /\
  Ref.end_of_day Ref.ten = Pl.lit_datetime Ref.last_microsecond /\
  Py.date_add (Py.date_of Ref.ten) (Py.timedelta_of 13 59 59 999999)
    = Py.ymd 2024 1 1.
Proof.
  split; [vm_compute; reflexivity|]. split.
  - exists (Pl.lit_datetime Ref.noon). split; [reflexivity|].
    vm_compute. split; discriminate.
  - split; vm_compute; reflexivity.
Qed.

(** The only call instant at which the query returns anything is
    midnight itself, and then only the tasks due at that very instant. *)
Example due_today_boundaries :
  TasksDataFrame.get_tasks_due_today Ref.ten Ref.due_all_day = [] /\
  TasksDataFrame.get_tasks_due_today Ref.midnight Ref.due_all_day
    = [Ref.sample_row "first" (Some (Pl.lit_datetime Ref.midnight)) None].
Proof. split; vm_compute; reflexivity. Qed.

Example ymd_2024_01_01 : Py.ymd 2024 1 1 = 738886 /\ Py.ymd 1970 1 1 = Pl.epoch.
Proof. split; reflexivity. Qed.

(** ** The folder tree *)

Lemma Folder_rect' (P : COM.Folder -> Prop)
    (step : forall n p ts subs, Forall P subs -> P (COM.mkFolder n p ts subs))
    (f : COM.Folder) : P f.
Proof.
  revert f. fix rec 1. intros [n p ts subs]. apply step.
  induction subs as [|c rest IH]; constructor; [apply rec|exact IH].
Qed.

Lemma resolve_unfold path n p ts subs :
  Provider.resolve path (COM.mkFolder n p ts subs)
  = if String.eqb p path then Some (COM.mkFolder n p ts subs)
    else Ref.resolve_first path subs.
Proof.
  simpl. destruct (String.eqb p path); [reflexivity|].
  induction subs as [|c rest IH]; [reflexivity|].
  simpl. destruct (Provider.resolve path c); [reflexivity|exact IH].
Qed.

Lemma resolve_self path f : COM.FPath f = path -> Provider.resolve path f = Some f.
Proof.
  destruct f as [n p ts subs]. simpl COM.FPath. intros ->.
  rewrite resolve_unfold. now rewrite String.eqb_refl.
Qed.

Lemma resolve_path path f r : Provider.resolve path f = Some r -> COM.FPath r = path.
Proof.
  induction f as [n p ts subs IH] using Folder_rect'.
  rewrite resolve_unfold. destruct (String.eqb_spec p path) as [->|Hne].
  - intros H. injection H as <-. reflexivity.
  - induction IH as [|c rest Hc _ IHrest]; simpl; [discriminate|].
    destruct (Provider.resolve path c) eqn:E.
    + intros H. injection H as <-. now apply Hc.
    + exact IHrest.
Qed.

(** Reading a folder back after an update of the folder at the same
    path, when the update keeps the path. *)
Lemma resolve_update path g f :
  (forall x, COM.FPath (g x) = COM.FPath x) ->
  Provider.resolve path (Provider.update path g f)
  = option_map g (Provider.resolve path f).
Proof.
  intros Hg. induction f as [n p ts subs IH] using Folder_rect'.
  rewrite resolve_unfold. simpl Provider.update.
  destruct (String.eqb_spec p path) as [->|Hne].
  - simpl. apply resolve_self. now rewrite Hg.
  - rewrite resolve_unfold.
    destruct (String.eqb_spec p path) as [|_]; [contradiction|].
    induction IH as [|c rest Hc _ IHrest]; [reflexivity|].
    simpl. rewrite Hc. destruct (Provider.resolve path c); [reflexivity|].
    exact IHrest.
Qed.

(** ** Running the methods *)

Lemma bind_ok {A B} (m : M A) (k : A -> M B) w a w' :
  m w = (Ok a, w') -> bind m k w = k a w'.
Proof. unfold bind. now intros ->. Qed.

Lemma bind_raise {A B} (m : M A) (k : A -> M B) w e w' :
  m w = (Raise e, w') -> bind m k w = (Raise e, w').
Proof. unfold bind. now intros ->. Qed.

Ltac run :=
  unfold bind, ret, raise, get_service, put_root, log_call; simpl.

Lemma GetFolder_run path w :
  Provider.GetFolder path w
  = match Provider.resolve path (COM.root w) with
    | Some f => (Ok f, w)
    | None => (Raise (com_error "folder not found"), w)
    end.
Proof.
  unfold Provider.GetFolder. run.
  destruct (Provider.resolve path (COM.root w)); reflexivity.
Qed.

Lemma GetTask_no_ValueError folder name w :
  ~ Ref.is_ValueError (fst (Provider.GetTask folder name w)).
Proof.
  unfold Provider.GetTask, bind. rewrite GetFolder_run.
  destruct (Provider.resolve folder (COM.root w)) as [f|]; simpl.
  - destruct (Provider.find_task name (COM.GetTasks f)); simpl;
      intros [msg H]; discriminate.
  - intros [msg H]; discriminate.
Qed.

Lemma DeleteFolder_no_ValueError folder name w :
  ~ Ref.is_ValueError (fst (Provider.DeleteFolder folder name w)).
Proof.
  unfold Provider.DeleteFolder, bind at 1, log_call.
  unfold bind at 1. rewrite GetFolder_run. simpl.
  destruct (Provider.resolve folder (COM.root w)) as [f|]; simpl.
  - destruct (Py.str_in name (List.map COM.Name (COM.GetFolders f))); run;
      intros [msg H]; discriminate.
  - intros [msg H]; discriminate.
Qed.

Lemma CreateFolder_no_ValueError A (k : COM.Folder -> A) folder name w :
  ~ Ref.is_ValueError
      (fst ((let* new_folder := Provider.CreateFolder folder name in ret (k new_folder)) w)).
Proof.
  unfold Provider.CreateFolder, log_call.
  unfold bind at 1. unfold bind at 1. unfold bind at 1.
  rewrite GetFolder_run. simpl.
  destruct (Provider.resolve folder (COM.root w)) as [f|]; simpl.
  - destruct (Py.str_in name (List.map COM.Name (COM.GetFolders f))); run;
      intros [msg H]; discriminate.
  - intros [msg H]; discriminate.
Qed.

(** ** C9: the guards of TaskFolder *)

(** C9. For every service state and every TaskFolder object, [get_task]
    and [delete_folder] raise a ValueError exactly when the requested
    name is absent from the object's task list or subfolder list, and
    [create_folder] raises a ValueError exactly when the requested name
    is among the object's subfolders; the message starts with the name,
    and on each of these branches the service is left as it was. *)
Theorem folder_guards (self : TaskFolder.t) (name : string) (w : COM.Service) :
  (Ref.is_ValueError (fst (TaskFolder.get_task self name w))
     <-> ~ In name (TaskFolder.tasks self)) /\
  (~ In name (TaskFolder.tasks self) ->
     TaskFolder.get_task self name w
     = (Raise (ValueError (name ++ " does not exist in this folder!")%string), w)) /\
  (Ref.is_ValueError (fst (TaskFolder.delete_folder self name w))
     <-> ~ In name (TaskFolder.subfolders self)) /\
  (~ In name (TaskFolder.subfolders self) ->
     TaskFolder.delete_folder self name w
     = (Raise (ValueError (name ++ " does not exist!")%string), w)) /\
  (Ref.is_ValueError (fst (TaskFolder.create_folder self name w))
     <-> In name (TaskFolder.subfolders self)) /\
  (In name (TaskFolder.subfolders self) ->
     TaskFolder.create_folder self name w
     = (Raise (ValueError (name ++ " already exists!")%string), w)).
Proof.
  unfold TaskFolder.get_task, TaskFolder.delete_folder, TaskFolder.create_folder.
  repeat split.
  - intros H Hin. apply str_in_spec in Hin. rewrite Hin in H.
    exact (GetTask_no_ValueError _ _ _ H).
  - intros H. apply str_in_false in H. rewrite H. eexists; reflexivity.
  - intros H. apply str_in_false in H. now rewrite H.
  - intros H Hin. apply str_in_spec in Hin. rewrite Hin in H.
    exact (DeleteFolder_no_ValueError _ _ _ H).
  - intros H. apply str_in_false in H. rewrite H. eexists; reflexivity.
  - intros H. apply str_in_false in H. now rewrite H.
  - intros H. apply str_in_spec.
    destruct (Py.str_in name (TaskFolder.subfolders self)); [reflexivity|].
    exfalso. exact (CreateFolder_no_ValueError _ _ _ _ _ H).
  - intros H. apply str_in_spec in H. rewrite H. eexists; reflexivity.
  - intros H. apply str_in_spec in H. now rewrite H.
Qed.

Lemma folder_guards_witness :
  ~ In "Nope" (TaskFolder.tasks Ref.root_folder) /\
  TaskFolder.get_task Ref.root_folder "Nope" Ref.service
    = (Raise (ValueError "Nope does not exist in this folder!"), Ref.service) /\
  ~ In "Nope" (TaskFolder.subfolders Ref.root_folder) /\
  TaskFolder.delete_folder Ref.root_folder "Nope" Ref.service
    = (Raise (ValueError "Nope does not exist!"), Ref.service) /\
  In "A" (TaskFolder.subfolders Ref.root_folder) /\
  TaskFolder.create_folder Ref.root_folder "A" Ref.service
    = (Raise (ValueError "A already exists!"), Ref.service).
Proof.
  assert (H1 : ~ In "Nope" (TaskFolder.tasks Ref.root_folder))
    by (apply str_in_false; reflexivity).
  assert (H2 : ~ In "Nope" (TaskFolder.subfolders Ref.root_folder))
    by (apply str_in_false; reflexivity).
  assert (H3 : In "A" (TaskFolder.subfolders Ref.root_folder))
    by (apply str_in_spec; reflexivity).
  destruct (folder_guards Ref.root_folder "Nope" Ref.service)
    as (_ & Hget & _ & Hdel & _ & _).
  destruct (folder_guards Ref.root_folder "A" Ref.service)
    as (_ & _ & _ & _ & _ & Hcreate).
  split; [exact H1|]. split; [exact (Hget H1)|].
  split; [exact H2|]. split; [exact (Hdel H2)|].
  split; [exact H3|exact (Hcreate H3)].
Defined.

(** ** C5: registration *)

Section TaskLists.
Import COM.
Context (name : string) (new : RegisteredTask).
Hypothesis new_name : rt_Name new = name.

Lemma names_replace ts :
  List.map rt_Name (Provider.replace_task name new ts) = List.map rt_Name ts.
Proof.
  induction ts as [|t ts IH]; [reflexivity|]. simpl.
  rewrite IH. destruct (String.eqb_spec (rt_Name t) name) as [E|_];
    [now rewrite new_name, E|reflexivity].
Qed.

Lemma find_task_replace ts :
  In name (List.map rt_Name ts) ->
  Provider.find_task name (Provider.replace_task name new ts) = Some new.
Proof.
  induction ts as [|t ts IH]; simpl; [contradiction|].
  destruct (String.eqb_spec (rt_Name t) name) as [E|Hne].
  - intros _. now rewrite new_name, String.eqb_refl.
  - intros [H|H]; [contradiction|].
    destruct (String.eqb_spec (rt_Name t) name); [contradiction|].
    now apply IH.
Qed.

Lemma find_task_replace_other n ts :
  n <> name ->
  Provider.find_task n (Provider.replace_task name new ts)
  = Provider.find_task n ts.
Proof.
  intros Hn. induction ts as [|t ts IH]; [reflexivity|]. simpl.
  destruct (String.eqb_spec (rt_Name t) name) as [E|Hne].
  - rewrite new_name.
    destruct (String.eqb_spec name n) as [|_]; [congruence|].
    destruct (String.eqb_spec (rt_Name t) n) as [|_]; [congruence|].
    exact IH.
  - destruct (String.eqb (rt_Name t) n); [reflexivity|exact IH].
Qed.

Lemma find_task_added ts :
  ~ In name (List.map rt_Name ts) ->
  Provider.find_task name (ts ++ [new]) = Some new.
Proof.
  induction ts as [|t ts IH]; simpl.
  - intros _. now rewrite new_name, String.eqb_refl.
  - intros H. destruct (String.eqb_spec (rt_Name t) name) as [E|_].
    + exfalso. apply H. now left.
    + apply IH. intros Hin. apply H. now right.
Qed.

Lemma find_task_added_other n ts :
  n <> name ->
  Provider.find_task n (ts ++ [new]) = Provider.find_task n ts.
Proof.
  intros Hn. induction ts as [|t ts IH]; simpl.
  - rewrite new_name. destruct (String.eqb_spec name n); [congruence|reflexivity].
  - destruct (String.eqb (rt_Name t) n); [reflexivity|exact IH].
Qed.

Lemma find_task_stored ts :
  Provider.find_task name (Ref.stored name new ts) = Some new.
Proof.
  unfold Ref.stored. destruct (Py.str_in name (List.map rt_Name ts)) eqn:E.
  - apply find_task_replace. now apply str_in_spec.
  - apply find_task_added. now apply str_in_false.
Qed.

Lemma find_task_stored_other n ts :
  n <> name ->
  Provider.find_task n (Ref.stored name new ts) = Provider.find_task n ts.
Proof.
  intros Hn. unfold Ref.stored.
  destruct (Py.str_in name (List.map rt_Name ts));
    [now apply find_task_replace_other|now apply find_task_added_other].
Qed.
End TaskLists.

(** A registration under [TASK_CREATE_OR_UPDATE] in a folder that the
    handle denotes: it succeeds, and the folder holds the new task. *)
Lemma RegisterTaskDefinition_run folder name d user password logon w f :
  Provider.resolve folder (COM.root w) = Some f ->
  let new := Provider.registered (COM.FPath f) name d user password logon in
  let present := Py.str_in name (List.map COM.rt_Name (COM.GetTasks f)) in
  let w' := {| COM.root :=
                 Provider.update folder
                   (fun x => Provider.with_tasks
                               (Ref.store present name new (COM.GetTasks x)) x)
                   (COM.root w);
               COM.calls :=
                 COM.calls w ++ [COM.CallRegisterTaskDefinition folder name] |} in
  Provider.RegisterTaskDefinition folder name d TASK_CREATE_OR_UPDATE
    user password logon w = (Ok new, w') /\
  Provider.resolve folder (COM.root w')
    = Some (Provider.with_tasks (Ref.stored name new (COM.GetTasks f)) f).
Proof.
  intros Hf new present w'. split.
  - unfold Provider.RegisterTaskDefinition, log_call.
    unfold bind at 1. unfold bind at 1. rewrite GetFolder_run. simpl.
    rewrite Hf. fold new. fold present. subst w'. unfold Ref.store.
    destruct present; reflexivity.
  - subst w'. cbn [COM.root]. rewrite resolve_update by (intros [? ? ? ?]; reflexivity).
    rewrite Hf. reflexivity.
Qed.

(** Under [TASK_CREATE] the same registration is refused by the
    provider when the name is taken. *)
Lemma RegisterTaskDefinition_create_collides folder name d user password logon w f :
  Provider.resolve folder (COM.root w) = Some f ->
  In name (List.map COM.rt_Name (COM.GetTasks f)) ->
  fst (Provider.RegisterTaskDefinition folder name d TASK_CREATE
         user password logon w)
  = Raise (com_error "task already exists").
Proof.
  intros Hf Hin. apply str_in_spec in Hin.
  unfold Provider.RegisterTaskDefinition, log_call.
  unfold bind at 1. unfold bind at 1. rewrite GetFolder_run. simpl.
  rewrite Hf, Hin. reflexivity.
Qed.

(** C5. For every service, every folder that a TaskFolder object denotes
    and every task name already present in that folder,
    [register_new_task] returns without raising; afterwards the folder
    lists the same task names as before (no duplicate is added), the
    task of that name is the one built from the new definition, it is
    registered with an empty user, an empty password and the logon type
    TASK_LOGON_NONE, and the tasks of the other names are as before. *)
Theorem register_new_task_overwrites
    (self : TaskFolder.t) (task_name : string) (d : COM.TaskDefinition)
    (w : COM.Service) (f : COM.Folder) :
  Provider.resolve (TaskFolder.folder self) (COM.root w) = Some f ->
  In task_name (List.map COM.rt_Name (COM.GetTasks f)) ->
  exists w' f' rt,
    TaskFolder.register_new_task self task_name d w = (Ok tt, w') /\
    Provider.resolve (TaskFolder.folder self) (COM.root w') = Some f' /\
    List.map COM.rt_Name (COM.GetTasks f') = List.map COM.rt_Name (COM.GetTasks f) /\
    Provider.find_task task_name (COM.GetTasks f') = Some rt /\
    COM.rt_Name rt = task_name /\
    COM.rt_Definition rt = d /\
    COM.rt_UserId rt = "" /\ COM.rt_Password rt = "" /\
    COM.rt_LogonType rt = TASK_LOGON_NONE /\
    (forall n, n <> task_name ->
       Provider.find_task n (COM.GetTasks f') = Provider.find_task n (COM.GetTasks f)) /\
    COM.calls w' = COM.calls w
      ++ [COM.CallRegisterTaskDefinition (TaskFolder.folder self) task_name].
Proof.
  intros Hf Hin.
  destruct (RegisterTaskDefinition_run (TaskFolder.folder self) task_name d
              "" "" TASK_LOGON_NONE w f Hf) as [Hrun Hres].
  set (new := Provider.registered (COM.FPath f) task_name d "" "" TASK_LOGON_NONE) in *.
  eexists _, _, new. split.
  - unfold TaskFolder.register_new_task, bind. rewrite Hrun. reflexivity.
  - split; [exact Hres|]. destruct f as [n p ts subs]. simpl in *.
    split.
    + unfold Ref.stored, Ref.store. apply str_in_spec in Hin. rewrite Hin.
      now apply names_replace.
    + split; [now apply find_task_stored|].
      repeat (split; [reflexivity|]).
      split; [|reflexivity]. intros n0 Hn. now apply find_task_stored_other.
Qed.

Lemma register_new_task_overwrites_witness :
  Provider.resolve (TaskFolder.folder Ref.root_folder) (COM.root Ref.service)
    = Some Ref.tree /\
  In "Ping" (List.map COM.rt_Name (COM.GetTasks Ref.tree)) /\
  exists w' f' rt,
    TaskFolder.register_new_task Ref.root_folder "Ping"
      Provider.empty_definition Ref.service = (Ok tt, w') /\
    Provider.resolve "\" (COM.root w') = Some f' /\
    List.map COM.rt_Name (COM.GetTasks f') = ["Ping"] /\
    Provider.find_task "Ping" (COM.GetTasks f') = Some rt /\
    COM.rt_Definition rt = Provider.empty_definition.
Proof.
  assert (H1 : Provider.resolve (TaskFolder.folder Ref.root_folder)
                 (COM.root Ref.service) = Some Ref.tree) by reflexivity.
  assert (H2 : In "Ping" (List.map COM.rt_Name (COM.GetTasks Ref.tree)))
    by (left; reflexivity).
  split; [exact H1|]. split; [exact H2|].
  destruct (register_new_task_overwrites Ref.root_folder "Ping"
              Provider.empty_definition Ref.service Ref.tree H1 H2)
    as (w' & f' & rt & Hrun & Hres & Hnames & Hfind & _ & Hdef & _).
  exists w', f', rt. repeat split; assumption.
Defined.

(** ** Task creation *)

Lemma get_folder_state folder_name w :
  snd (TaskScheduler.get_folder folder_name w) = w.
Proof.
  unfold TaskScheduler.get_folder, bind, get_service.
  destruct folder_name as [name|]; [|reflexivity].
  destruct (TaskScheduler.find_folder (COM.root w) name) as [path|];
    [|reflexivity].
  destruct (Py.truthy path); [|reflexivity].
  rewrite GetFolder_run.
  destruct (Provider.resolve path (COM.root w)); reflexivity.
Qed.

(** A folder that [get_folder] found by name is a folder of the
    service, and the handle of the object denotes it. *)
Lemma get_folder_found name w folder :
  fst (TaskScheduler.get_folder (Some name) w) = Ok folder ->
  TaskScheduler.get_folder (Some name) w = (Ok folder, w) /\
  exists f, folder = TaskFolder.init f /\
            Provider.resolve (TaskFolder.folder folder) (COM.root w) = Some f.
Proof.
  intros H. split.
  - pose proof (get_folder_state (Some name) w) as Hw.
    destruct (TaskScheduler.get_folder (Some name) w) as [r w0].
    simpl in *. now subst.
  - revert H. unfold TaskScheduler.get_folder, bind, get_service.
    destruct (TaskScheduler.find_folder (COM.root w) name) as [path|];
      [|discriminate].
    destruct (Py.truthy path); [|discriminate].
    rewrite GetFolder_run.
    destruct (Provider.resolve path (COM.root w)) as [f|] eqn:E; [|discriminate].
    simpl. intros H. injection H as <-. exists f. split; [reflexivity|].
    simpl. rewrite (resolve_path _ _ _ E). exact E.
Qed.

Lemma supported_cadence ty :
  In ty TaskScheduler.supported_trigger_types <-> Ref.cadence ty <> None.
Proof.
  unfold Ref.cadence. split.
  - intros H. simpl in H.
    destruct H as [<-|[<-|[<-|[<-|[<-|[]]]]]]; discriminate.
  - intros H. simpl.
    destruct (String.eqb_spec ty "daily"); [auto|].
    destruct (String.eqb_spec ty "weekly"); [auto|].
    destruct (String.eqb_spec ty "monthly"); [auto|].
    destruct (String.eqb_spec ty "monthlydow"); [auto 6|].
    destruct (String.eqb_spec ty "one-time"); [auto 6|]. contradiction.
Qed.

Lemma received_received cs cs' w :
  Ref.received cs' (Ref.received cs w) = Ref.received (cs ++ cs') w.
Proof. unfold Ref.received. simpl. now rewrite <- app_assoc. Qed.

Lemma NewTask_run w :
  Provider.NewTask w = (Ok Provider.empty_definition, Ref.received [COM.CallNewTask] w).
Proof. reflexivity. Qed.

Ltac run_builder :=
  unfold TaskTrigger.create_daily_trigger, TaskTrigger.create_weekly_trigger,
    TaskTrigger.create_monthly_trigger, TaskTrigger.create_one_time_trigger,
    TaskTrigger.set_cadence, TaskAction.create_execution_action,
    TaskAction.set_action_type, bind, ret, raise, log_call, Ref.received;
  simpl.

(** A supported trigger literal: one trigger of the matching type is
    created on the definition, and nothing else is asked of the service;
    the actions of the definition are untouched. *)
Lemma match_trigger_type_supported a td w ty :
  Ref.cadence (TaskScheduler.trigger_type a) = Some ty ->
  exists td',
    TaskScheduler.match_trigger_type a td w
      = (Ok td', Ref.received [COM.CallTriggersCreate ty] w) /\
    COM.trg_created (COM.triggers td') = COM.trg_created (COM.triggers td) ++ [ty] /\
    COM.StartBoundary (COM.triggers td')
      = Some (Py.combine (TaskScheduler.start_date a) (TaskScheduler.start_time a)) /\
    COM.actions td' = COM.actions td.
Proof.
  unfold Ref.cadence, TaskScheduler.match_trigger_type.
  destruct (String.eqb (TaskScheduler.trigger_type a) "daily");
    [intros H; injection H as <-; eexists; split; [run_builder; reflexivity|repeat split]|].
  destruct (String.eqb (TaskScheduler.trigger_type a) "weekly");
    [intros H; injection H as <-; eexists; split; [run_builder; reflexivity|repeat split]|].
  destruct (String.eqb (TaskScheduler.trigger_type a) "monthly");
    [intros H; injection H as <-; eexists; split; [run_builder; reflexivity|repeat split]|].
  destruct (String.eqb (TaskScheduler.trigger_type a) "monthlydow");
    [intros H; injection H as <-; eexists; split; [run_builder; reflexivity|repeat split]|].
  destruct (String.eqb (TaskScheduler.trigger_type a) "one-time");
    [intros H; injection H as <-; eexists; split; [run_builder; reflexivity|repeat split]|].
  discriminate.
Qed.

(** Any other literal: no case matches; the definition and the service
    are as before, and nothing is raised. *)
Lemma match_trigger_type_unsupported a td w :
  Ref.cadence (TaskScheduler.trigger_type a) = None ->
  TaskScheduler.match_trigger_type a td w = (Ok td, w).
Proof.
  unfold Ref.cadence, TaskScheduler.match_trigger_type.
  repeat match goal with
         | |- context [String.eqb ?x ?y] => destruct (String.eqb x y); [discriminate|]
         end.
  reflexivity.
Qed.

Lemma match_action_type_unsupported a td w :
  In (TaskScheduler.action_type a) TaskScheduler.unsupported_action_types ->
  exists msg,
    TaskScheduler.match_action_type a td w = (Raise (NotImplementedError msg), w) /\
    (TaskScheduler.action_type a = "email" ->
       msg = "Create send email action has not been implemented").
Proof.
  unfold TaskScheduler.match_action_type. simpl.
  intros [H|[H|[H|[]]]]; rewrite <- H; simpl; eexists; split;
    try reflexivity; try discriminate.
Qed.

Lemma match_action_type_exec a td w :
  TaskScheduler.action_type a = "exec" ->
  exists td',
    TaskScheduler.match_action_type a td w
      = (Ok td', Ref.received [COM.CallActionsCreate TASK_ACTION_EXEC] w) /\
    COM.act_created (COM.actions td')
      = COM.act_created (COM.actions td) ++ [TASK_ACTION_EXEC] /\
    COM.Path (COM.actions td') = Some (TaskScheduler.action_file a) /\
    COM.triggers td' = COM.triggers td.
Proof.
  unfold TaskScheduler.match_action_type. intros ->. simpl.
  eexists. split; [run_builder; reflexivity|repeat split].
Qed.

(** ** C4: an unsupported action kind *)

(** C4, as the code has it. For every call of [create_task] whose folder
    name [get_folder] finds, whose trigger type is one of the five
    supported literals and whose action type is "com-handler", "email"
    or "show-message", the call raises NotImplementedError; by then the
    service has received the request for a new definition and the
    creation of the trigger of the matching type, and nothing else: no
    action was created and nothing was registered. With "monthlydow" and
    "email" the trigger created is the monthly day-of-week one and the
    message is the one of the send-email action. *)
Theorem create_task_unsupported_action
    (a : TaskScheduler.create_task_args) (w : COM.Service) (folder : TaskFolder.t) :
  fst (TaskScheduler.get_folder (Some (TaskScheduler.folder_name a)) w) = Ok folder ->
  In (TaskScheduler.trigger_type a) TaskScheduler.supported_trigger_types ->
  In (TaskScheduler.action_type a) TaskScheduler.unsupported_action_types ->
  exists msg ty,
    Ref.cadence (TaskScheduler.trigger_type a) = Some ty /\
    TaskScheduler.create_task a w
      = (Raise (NotImplementedError msg),
         Ref.received [COM.CallNewTask; COM.CallTriggersCreate ty] w) /\
    (TaskScheduler.trigger_type a = "monthlydow" -> ty = TASK_TRIGGER_MONTHLYDOW) /\
    (TaskScheduler.action_type a = "email" ->
       msg = "Create send email action has not been implemented").
Proof.
  intros Hfolder Htrig Hact.
  apply get_folder_found in Hfolder as [Hget _].
  apply supported_cadence in Htrig.
  destruct (Ref.cadence (TaskScheduler.trigger_type a)) as [ty|] eqn:Hty;
    [clear Htrig|contradiction].
  destruct (match_trigger_type_supported a Provider.empty_definition
              (Ref.received [COM.CallNewTask] w) ty Hty) as (td' & Hrun & _).
  destruct (match_action_type_unsupported a td'
              (Ref.received [COM.CallNewTask; COM.CallTriggersCreate ty] w) Hact)
    as (msg & Hraise & Hmsg).
  exists msg, ty. split; [reflexivity|]. split.
  - unfold TaskScheduler.create_task.
    unfold bind at 1. rewrite Hget.
    unfold bind at 1. rewrite NewTask_run.
    unfold bind at 1. rewrite Hrun, received_received.
    unfold bind at 1. simpl app. rewrite Hraise. reflexivity.
  - split; [|exact Hmsg].
    intros E. unfold Ref.cadence in Hty. rewrite E in Hty. simpl in Hty. congruence.
Qed.

Lemma create_task_unsupported_action_witness :
  fst (TaskScheduler.get_folder (Some "X") Ref.service)
    = Ok (TaskFolder.mk "\A\X" [] ["Sync"]) /\
  In "monthlydow" TaskScheduler.supported_trigger_types /\
  In "email" TaskScheduler.unsupported_action_types /\
  TaskScheduler.create_task (Ref.call "X" "monthlydow" "email") Ref.service
    = (Raise (NotImplementedError "Create send email action has not been implemented"),
       Ref.received
         [COM.CallNewTask; COM.CallTriggersCreate TASK_TRIGGER_MONTHLYDOW]
         Ref.service).
Proof.
  assert (H1 : fst (TaskScheduler.get_folder (Some "X") Ref.service)
               = Ok (TaskFolder.mk "\A\X" [] ["Sync"])) by reflexivity.
  assert (H2 : In "monthlydow" TaskScheduler.supported_trigger_types)
    by (simpl; auto 6).
  assert (H3 : In "email" TaskScheduler.unsupported_action_types)
    by (simpl; auto).
  split; [exact H1|]. split; [exact H2|]. split; [exact H3|].
  destruct (create_task_unsupported_action (Ref.call "X" "monthlydow" "email")
              Ref.service _ H1 H2 H3) as (msg & ty & _ & Hrun & Hty & Hmsg).
  rewrite Hrun, (Hty eq_refl), (Hmsg eq_refl). reflexivity.
Defined.

(** C4, as stated, fails: with a supported trigger type and an
    unsupported action type but a folder name that the service does not
    have, the call raises the ValueError of [get_folder], not
    NotImplementedError, before any definition is asked for. *)
Lemma create_task_missing_folder_not_unimplemented :
  In (TaskScheduler.trigger_type (Ref.call "Nope" "monthlydow" "email"))
    TaskScheduler.supported_trigger_types /\
  In (TaskScheduler.action_type (Ref.call "Nope" "monthlydow" "email"))
    TaskScheduler.unsupported_action_types /\
  TaskScheduler.create_task (Ref.call "Nope" "monthlydow" "email") Ref.service
    = (Raise (ValueError "Could not find Nope"), Ref.service) /\
  ~ (exists msg,
       fst (TaskScheduler.create_task (Ref.call "Nope" "monthlydow" "email")
              Ref.service) = Raise (NotImplementedError msg)).
Proof.
  split; [simpl; auto 6|]. split; [simpl; auto|].
  split; [reflexivity|]. intros [msg H]. discriminate.
Qed.

(** ** C10: a trigger type outside the five literals *)

(** C10, as the code has it. For every call of [create_task] whose
    trigger type is none of the five supported literals, the trigger
    dispatch matches no case: it raises nothing and leaves the definition
    and the service as they were. When moreover [get_folder] finds the
    folder name and the action type is "exec", the call returns, the
    definition carries the exec action and no trigger, and the folder
    holds the task under the given name with that definition. *)
Theorem create_task_unknown_trigger
    (a : TaskScheduler.create_task_args) (w : COM.Service) :
  ~ In (TaskScheduler.trigger_type a) TaskScheduler.supported_trigger_types ->
  (forall td w0, TaskScheduler.match_trigger_type a td w0 = (Ok td, w0)) /\
  (forall folder,
     fst (TaskScheduler.get_folder (Some (TaskScheduler.folder_name a)) w) = Ok folder ->
     TaskScheduler.action_type a = "exec" ->
     exists td w' f' rt,
       TaskScheduler.create_task a w = (Ok (NewTask.mk td), w') /\
       COM.trg_created (COM.triggers td) = [] /\
       COM.StartBoundary (COM.triggers td) = None /\
       COM.act_created (COM.actions td) = [TASK_ACTION_EXEC] /\
       COM.Path (COM.actions td) = Some (TaskScheduler.action_file a) /\
       COM.calls w' = COM.calls w
         ++ [COM.CallNewTask; COM.CallActionsCreate TASK_ACTION_EXEC;
             COM.CallRegisterTaskDefinition (TaskFolder.folder folder)
               (TaskScheduler.task_name a)] /\
       Provider.resolve (TaskFolder.folder folder) (COM.root w') = Some f' /\
       Provider.find_task (TaskScheduler.task_name a) (COM.GetTasks f') = Some rt /\
       COM.rt_Definition rt = td).
Proof.
  intros Hty.
  assert (Hnone : Ref.cadence (TaskScheduler.trigger_type a) = None).
  { destruct (Ref.cadence (TaskScheduler.trigger_type a)) eqn:E; [|reflexivity].
    exfalso. apply Hty, supported_cadence. congruence. }
  split; [intros td w0; now apply match_trigger_type_unsupported|].
  intros folder Hfolder Hexec.
  apply get_folder_found in Hfolder as (Hget & f & _ & Hres).
  destruct (match_action_type_exec a Provider.empty_definition
              (Ref.received [COM.CallNewTask] w) Hexec)
    as (td' & Hact & Hcreated & Hpath & Htrig).
  set (td := TaskScheduler.describe_and_configure a td').
  set (w2 := Ref.received [COM.CallNewTask; COM.CallActionsCreate TASK_ACTION_EXEC] w).
  destruct (RegisterTaskDefinition_run (TaskFolder.folder folder)
              (TaskScheduler.task_name a) td "" "" TASK_LOGON_NONE w2 f Hres)
    as [Hreg Hres'].
  set (new := Provider.registered (COM.FPath f) (TaskScheduler.task_name a) td
                "" "" TASK_LOGON_NONE) in *.
  eexists td, _, _, new. split.
  - unfold TaskScheduler.create_task.
    unfold bind at 1. rewrite Hget.
    unfold bind at 1. rewrite NewTask_run.
    unfold bind at 1. rewrite (match_trigger_type_unsupported _ _ _ Hnone).
    unfold bind at 1. rewrite Hact, received_received. simpl app. fold w2. fold td.
    unfold TaskFolder.register_new_task. unfold bind at 1. unfold bind at 1.
    rewrite Hreg. reflexivity.
  - subst td. simpl. rewrite Htrig, Hcreated, Hpath. simpl.
    repeat (split; [reflexivity|]).
    split; [now rewrite <- app_assoc|].
    split; [exact Hres'|].
    split; [|reflexivity].
    destruct f as [n p ts subs]. simpl. now apply find_task_stored.
Qed.

Lemma create_task_unknown_trigger_witness :
  ~ In "hourly" TaskScheduler.supported_trigger_types /\
  fst (TaskScheduler.get_folder (Some "B") Ref.service)
    = Ok (TaskFolder.mk "\B" ["X"] []) /\
  exists td w' f' rt,
    TaskScheduler.create_task (Ref.call "B" "hourly" "exec") Ref.service
      = (Ok (NewTask.mk td), w') /\
    COM.trg_created (COM.triggers td) = [] /\
    COM.act_created (COM.actions td) = [TASK_ACTION_EXEC] /\
    Provider.resolve "\B" (COM.root w') = Some f' /\
    Provider.find_task "Nightly" (COM.GetTasks f') = Some rt /\
    COM.rt_Definition rt = td.
Proof.
  assert (H1 : ~ In "hourly" TaskScheduler.supported_trigger_types).
  { simpl. intros [H|[H|[H|[H|[H|[]]]]]]; discriminate. }
  assert (H2 : fst (TaskScheduler.get_folder (Some "B") Ref.service)
               = Ok (TaskFolder.mk "\B" ["X"] [])) by reflexivity.
  split; [exact H1|]. split; [exact H2|].
  destruct (create_task_unknown_trigger (Ref.call "B" "hourly" "exec")
              Ref.service H1) as [_ H].
  destruct (H _ H2 eq_refl)
    as (td & w' & f' & rt & Hrun & Ht & _ & Ha & _ & _ & Hres & Hfind & Hdef).
  exists td, w', f', rt. repeat split; assumption.
Defined.

(** C10, as stated, fails: with a trigger type outside the five literals
    and the action type "email", the call raises NotImplementedError
    and registers nothing; the folder tree is as it was. *)
Lemma create_task_unknown_trigger_not_registered :
  ~ In (TaskScheduler.trigger_type (Ref.call "B" "hourly" "email"))
      TaskScheduler.supported_trigger_types /\
  TaskScheduler.create_task (Ref.call "B" "hourly" "email") Ref.service
    = (Raise (NotImplementedError "Create send email action has not been implemented"),
       Ref.received [COM.CallNewTask] Ref.service) /\
  COM.root (snd (TaskScheduler.create_task (Ref.call "B" "hourly" "email")
                   Ref.service)) = COM.root Ref.service /\
  ~ (exists td w',
       TaskScheduler.create_task (Ref.call "B" "hourly" "email") Ref.service
       = (Ok (NewTask.mk td), w')).
Proof.
  split.
  - simpl. intros [H|[H|[H|[H|[H|[]]]]]]; discriminate.
  - split; [reflexivity|]. split; [reflexivity|].
    intros (td & w' & H). discriminate.
Qed.

(** ** C2: the walk over the folders *)

(** C2, on the code. On the sample service, whose folders A and B each
    hold a subfolder named X, [get_all_tasks] returns the rows of Ping,
    Sync and Sync again: the task Sync of \A\X is listed twice and the
    task Clean of \B\X is not listed, while the depth-first walk of
    the tree meets Ping, Sync and Clean, each once. The subfolder X of B
    is looked up by its name from the root, and the first folder of that
    name is \A\X. *)
Theorem get_all_tasks_repeats_and_misses :
  TaskScheduler.get_all_tasks Ref.sample_states Ref.sample_results 1000 Ref.service
    = (Ok (TasksDataFrame.preprocess Ref.sample_states Ref.sample_results
             (List.map RegisteredTask.info [Ref.ping; Ref.sync; Ref.sync])),
       Ref.service) /\
  Ref.all_tasks Ref.tree = [Ref.ping; Ref.sync; Ref.clean] /\
  TaskScheduler.find_folder Ref.tree "X" = Some "\A\X".
Proof.
  split; [vm_compute; reflexivity|]. split; reflexivity.
Qed.

(** When a folder holds a subfolder of its own name, the lookup by name
    sends the walk back to the outer folder: whatever the depth allowed,
    the call ends in RecursionError. *)
Lemma walk_nested_never_returns depth folder_name tasks_info_list :
  TaskScheduler.list_tasks_info_in_folder depth
    (TaskFolder.mk "\A" ["A"] []) folder_name tasks_info_list Ref.nested_service
  = (Raise RecursionError, Ref.nested_service).
Proof.
  revert folder_name tasks_info_list.
  induction depth as [|depth IH]; intros folder_name tasks_info_list;
    [reflexivity|].
  simpl TaskScheduler.list_tasks_info_in_folder. unfold bind, ret.
  replace (TaskScheduler.get_folder (Some "A") Ref.nested_service)
    with (Ok (TaskFolder.mk "\A" ["A"] []), Ref.nested_service) by reflexivity.
  now rewrite IH.
Qed.

Lemma get_all_tasks_recursion_error (S R : gmap string string) (depth : nat) :
  TaskScheduler.get_all_tasks S R depth Ref.nested_service
  = (Raise RecursionError, Ref.nested_service).
Proof.
  unfold TaskScheduler.get_all_tasks.
  erewrite bind_ok; [|cbv; reflexivity].
  apply bind_raise.
  destruct depth as [|depth]; [reflexivity|].
  simpl TaskScheduler.list_tasks_info_in_folder.
  erewrite bind_ok; [|cbv; reflexivity].
  apply bind_raise. erewrite bind_ok; [|cbv; reflexivity].
  apply walk_nested_never_returns.
Qed.

(** ** The walk on trees where the lookup by name finds each subfolder *)

Lemma find_task_own (ts : list COM.RegisteredTask) :
  List.NoDup (List.map COM.rt_Name ts) ->
  forall t, In t ts -> Provider.find_task (COM.rt_Name t) ts = Some t.
Proof.
  induction ts as [|t0 ts IH]; intros Hnd t Hin; [contradiction|].
  inversion Hnd as [|? ? Hnotin Hnd']; subst. simpl.
  destruct Hin as [->|Hin]; [now rewrite String.eqb_refl|].
  destruct (String.eqb_spec (COM.rt_Name t0) (COM.rt_Name t)) as [E|_].
  - exfalso. apply Hnotin. rewrite E. now apply in_map.
  - now apply IH.
Qed.

Section Walk.
Context (w : COM.Service).

(** The first loop: one record per task of the folder, in order. *)
Lemma tasks_loop (self : TaskFolder.t) (f : COM.Folder) :
  Provider.resolve (TaskFolder.folder self) (COM.root w) = Some f ->
  TaskFolder.tasks self = List.map COM.rt_Name (COM.GetTasks f) ->
  List.NoDup (List.map COM.rt_Name (COM.GetTasks f)) ->
  forall ts acc,
    incl ts (COM.GetTasks f) ->
    for_each (List.map COM.rt_Name ts)
      (fun t acc =>
         let* rtask := TaskFolder.get_task self t in
         ret (acc ++ [RegisteredTask.info rtask]))
      acc w
    = (Ok (acc ++ List.map RegisteredTask.info ts), w).
Proof.
  intros Hres Hnames Hnd ts. induction ts as [|t ts IH]; intros acc Hincl.
  - simpl. unfold ret. now rewrite app_nil_r.
  - simpl for_each.
    assert (Hin : In t (COM.GetTasks f)) by (apply Hincl; now left).
    assert (Hget : TaskFolder.get_task self (COM.rt_Name t) w = (Ok t, w)).
    { unfold TaskFolder.get_task. rewrite Hnames.
      replace (Py.str_in (COM.rt_Name t) (List.map COM.rt_Name (COM.GetTasks f)))
        with true by (symmetry; apply str_in_spec; now apply in_map).
      unfold Provider.GetTask, bind. rewrite GetFolder_run, Hres.
      now rewrite (find_task_own _ Hnd t Hin). }
    erewrite bind_ok; [|erewrite bind_ok; [reflexivity|exact Hget]].
    rewrite IH by (intros x Hx; apply Hincl; now right).
    simpl. now rewrite <- app_assoc.
Qed.

(** The walk of a walkable folder, given enough depth. *)
Lemma walk_walkable (f : COM.Folder) :
  Ref.walkable (COM.root w) f ->
  forall depth folder_name acc,
    (Ref.height f <= depth)%nat ->
    TaskScheduler.list_tasks_info_in_folder depth (TaskFolder.init f)
      folder_name acc w
    = (Ok (acc ++ List.map RegisteredTask.info (Ref.all_tasks f)), w).
Proof.
  induction f as [n p ts subs IH] using Folder_rect'.
  intros Hw depth folder_name acc Hdepth.
  inversion Hw as [? ? ? ? Hres Hnd Hsubs]; subst.
  destruct depth as [|depth]; [simpl in Hdepth; lia|].
  simpl in Hdepth. apply le_S_n in Hdepth.
  simpl TaskScheduler.list_tasks_info_in_folder.
  erewrite bind_ok;
    [|apply (tasks_loop (TaskFolder.init (COM.mkFolder n p ts subs))
               (COM.mkFolder n p ts subs) Hres eq_refl Hnd ts acc);
      apply incl_refl].
  simpl Ref.all_tasks. rewrite List.map_app, app_assoc.
  generalize (acc ++ List.map RegisteredTask.info ts) as acc'.
  clear Hw Hres Hnd.
  induction subs as [|c subs IHsubs]; intros acc'.
  - simpl. unfold ret. now rewrite app_nil_r.
  - inversion IH as [|? ? IHc IHrest]; subst.
    inversion Hsubs as [|? ? (Hfind & Htruthy & Hwc) Hsubs']; subst.
    simpl in Hdepth.
    simpl List.map. simpl for_each.
    assert (Hget : TaskScheduler.get_folder (Some (COM.Name c)) w
                   = (Ok (TaskFolder.init c), w)).
    { unfold TaskScheduler.get_folder, bind, get_service.
      rewrite Hfind, Htruthy, GetFolder_run.
      inversion Hwc as [? ? ? ? Hresc _ _]; subst. simpl COM.FPath.
      now rewrite Hresc. }
    erewrite bind_ok;
      [|erewrite bind_ok; [apply (IHc Hwc); lia|exact Hget]].
    rewrite IHsubs by (assumption || lia).
    simpl flat_map. now rewrite List.map_app, app_assoc.
Qed.

(** On a service whose root is walkable, [get_all_tasks] hands, given
    enough depth, the records of the tasks of the tree to the frame in
    depth-first order, the tasks of a folder before those of its
    subfolders, each task once; its outcome is that of building and
    preprocessing the frame of these records. *)
Lemma get_all_tasks_walkable (S R : gmap string string) (depth : nat) :
  Ref.walkable (COM.root w) (COM.root w) ->
  (Ref.height (COM.root w) <= depth)%nat ->
  TaskScheduler.get_all_tasks S R depth w
  = (match Frame.DataFrame
             (List.map RegisteredTask.info (Ref.all_tasks (COM.root w))) with
     | Ok df => Frame.preprocess S R df
     | Raise e => Raise e
     end, w).
Proof.
  intros Hw Hdepth. unfold TaskScheduler.get_all_tasks.
  erewrite bind_ok; [|reflexivity].
  erewrite bind_ok; [|now apply walk_walkable].
  simpl app. unfold bind, lift.
  destruct (Frame.DataFrame
              (List.map RegisteredTask.info (Ref.all_tasks (COM.root w))));
    reflexivity.
Qed.
End Walk.

Example plain_tree_walkable : Ref.walkable Ref.plain_tree Ref.plain_tree.
Proof.
  repeat (first [ apply Ref.walkable_folder | apply List.Forall_cons
                | apply List.Forall_nil | apply List.NoDup_cons | apply List.NoDup_nil
                | split | reflexivity
                | (simpl; intuition discriminate) ]).
Qed.

Example plain_tree_rows :
  fst (TaskScheduler.get_all_tasks Ref.sample_states Ref.sample_results 1000
         Ref.plain_service)
  = Ok (TasksDataFrame.preprocess Ref.sample_states Ref.sample_results
          (List.map RegisteredTask.info [Ref.ping; Ref.sync; Ref.clean])).
Proof.
  rewrite (get_all_tasks_walkable Ref.plain_service _ _ 1000 plain_tree_walkable)
    by (simpl; lia).
  vm_compute. reflexivity.
Qed.

(* ===================================================================== *)
(** * Further properties of the frames                                     *)
(* ===================================================================== *)

(** ** The statistics of the task frame *)

Lemma filter_length_le {A} (p : A -> bool) (l : list A) :
  (length (List.filter p l) <= length l)%nat.
Proof.
  induction l as [|a l IH]; simpl; [lia|]. destruct (p a); simpl; lia.
Qed.

Lemma filter_length_all {A} (p : A -> bool) (l : list A) :
  length (List.filter p l) = length l <-> Forall (fun a => p a = true) l.
Proof.
  induction l as [|a l IH]; simpl.
  - split; [constructor|reflexivity].
  - pose proof (filter_length_le p l) as Hle. destruct (p a) eqn:E; simpl.
    + split.
      * intros H. constructor; [assumption|]. apply IH. lia.
      * intros H. inversion H; subst. f_equal. now apply IH.
    + split; [lia|]. intros H. inversion H; subst. congruence.
Qed.

Lemma filter_all {A} (p : A -> bool) (l : list A) :
  Forall (fun a => p a = true) l -> List.filter p l = l.
Proof.
  induction 1 as [|a l Ha _ IH]; simpl; [reflexivity|]. now rewrite Ha, IH.
Qed.






Example sum_overflow :
  Pl.sum [2 ^ 62; 2 ^ 62; 1] = -9223372036854775807 /\ Pl.sum [] = 0.
Proof. split; reflexivity. Qed.

Lemma by_state_cons (r : Row.t) (df : list Row.t) (s : Z) :
  TasksDataFrame.total_number_of_tasks_by_state (r :: df) s
  = (if Row.task_state r =? s then 1 else 0)
    + TasksDataFrame.total_number_of_tasks_by_state df s.
Proof.
  unfold TasksDataFrame.total_number_of_tasks_by_state. simpl.
  destruct (Row.task_state r =? s); simpl length; lia.
Qed.

(** X1. The five state totals of [stats] add up to the number of rows
    whose state code is one of 0, 1, 2, 3, 4; they never exceed the task
    total, and they add up to it exactly when every row has such a
    code. *)
Theorem stats_state_totals (df : list Row.t) :
  let s := TasksDataFrame.stats df in
  let counted :=
    TasksDataFrame.unknown_state_total s + TasksDataFrame.disabled_state_total s
    + TasksDataFrame.queued_state_total s + TasksDataFrame.ready_state_total s
    + TasksDataFrame.running_state_total s in
  counted = Z.of_nat (length (List.filter Ref.known_state df)) /\
  0 <= counted <= TasksDataFrame.task_total s /\
  (counted = TasksDataFrame.task_total s
   <-> Forall (fun r => Ref.known_state r = true) df).
Proof.
  intros s counted.
  assert (Hc : counted = Z.of_nat (length (List.filter Ref.known_state df))).
  { subst counted s. simpl. induction df as [|r df IH].
    - reflexivity.
    - rewrite !by_state_cons. simpl List.filter. unfold Ref.known_state at 1.
      destruct (Z.eqb_spec (Row.task_state r) 0);
      destruct (Z.eqb_spec (Row.task_state r) 1);
      destruct (Z.eqb_spec (Row.task_state r) 2);
      destruct (Z.eqb_spec (Row.task_state r) 3);
      destruct (Z.eqb_spec (Row.task_state r) 4);
      destruct (Z.leb_spec 0 (Row.task_state r));
      destruct (Z.leb_spec (Row.task_state r) 4);
      simpl andb; cbv iota; simpl length; lia. }
  pose proof (filter_length_le Ref.known_state df) as Hle.
  split; [exact Hc|]. subst s. simpl TasksDataFrame.task_total.
  unfold TasksDataFrame.total_number_of_tasks. split; [lia|].
  rewrite Hc, <- filter_length_all. lia.
Qed.



(** ** Asking a query again *)

Lemma window_again (key : Row.t -> option Z) (descending : bool)
    (lower upper : Z) (df : list Row.t) :
  let query := fun df =>
    Pl.sort key descending
      (List.filter (fun r => Pl.is_between (key r) lower upper) df) in
  Permutation (query (query df)) (query df) /\
  (length (query df) <= length df)%nat.
Proof.
  intros query. subst query. cbv beta.
  set (keep := fun r => Pl.is_between (key r) lower upper).
  pose proof (sort_perm key descending (List.filter keep df)) as Hp.
  split.
  - rewrite (filter_all keep (Pl.sort key descending (List.filter keep df))).
    + apply sort_perm.
    + eapply Permutation_Forall; [symmetry; exact Hp|].
      apply List.Forall_forall. intros r H. now apply List.filter_In in H.
  - rewrite (Permutation_length Hp). apply filter_length_le.
Qed.

(** X3. Both queries of the task frame return a part of the frame they
    are given, and asking the same query of its own result (with the
    same clock readings) returns the same rows, each as often: the
    result is already filtered. *)
Theorem queries_again (clock_today clock_now : Py.datetime) (df : list Row.t) :
  let completed := TasksDataFrame.get_tasks_completed_today clock_today clock_now in
  let due := TasksDataFrame.get_tasks_due_today clock_now in
  Permutation (completed (completed df)) (completed df) /\
  Permutation (due (due df)) (due df) /\
  (length (completed df) <= length df)%nat /\
  (length (due df) <= length df)%nat /\
  incl (completed df) df /\ incl (due df) df.
Proof.
  intros completed due.
  assert (Hc := window_again Row.last_run_time true
                  (Pl.lit_date (Py.date_of clock_today))
                  (Pl.lit_datetime clock_now) df).
  assert (Hd := window_again Row.next_run_time false
                  (Pl.lit_datetime clock_now)
                  (Pl.lit_date
                     (Py.date_add (Py.date_of clock_now)
                        (Py.timedelta_of (23 - Py.hour clock_now)
                           (59 - Py.minute clock_now) (59 - Py.second clock_now)
                           (999999 - Py.microsecond clock_now)))) df).
  destruct Hc as [Hc1 Hc2], Hd as [Hd1 Hd2].
  split; [exact Hc1|]. split; [exact Hd1|]. split; [exact Hc2|].
  split; [exact Hd2|]. split; intros r H.
  - apply (window_query Row.last_run_time true) in H. tauto.
  - apply (window_query Row.next_run_time false) in H. tauto.
Qed.

(** ** Paths, top folders and leaf names *)

Lemma str_split_plain sep s :
  Pl.str_contains sep s = false -> Pl.str_split sep s = [s].
Proof.
  induction s as [|c s IH]; simpl; [reflexivity|].
  destruct (Ascii.eqb c sep); simpl; [discriminate|].
  intros H. now rewrite (IH H).
Qed.

Lemma str_split_app sep a b :
  Pl.str_split sep (a ++ String sep b)%string
  = Pl.str_split sep a ++ Pl.str_split sep b.
Proof.
  induction a as [|c a IH]; simpl.
  - now rewrite Ascii.eqb_refl.
  - destruct (Ascii.eqb c sep); [now rewrite IH|].
    rewrite IH. pose proof (str_split_nonempty sep a) as Hn.
    destruct (Pl.str_split sep a); [contradiction|reflexivity].
Qed.

Lemma preprocess_row_place (states results : gmap string string) (i : Info.t)
    (name rest : string) :
  Pl.str_contains TasksDataFrame.backslash name = false ->
  (Info.task_path i = String TasksDataFrame.backslash name ->
     Row.task_folder_name (TasksDataFrame.preprocess_row states results i) = Some "\") /\
  (Info.task_path i
     = String TasksDataFrame.backslash
         (name ++ String TasksDataFrame.backslash rest)%string ->
     Row.task_folder_name (TasksDataFrame.preprocess_row states results i) = Some name).
Proof.
  intros Hname. simpl. unfold TasksDataFrame.segments. split; intros ->.
  - change (String TasksDataFrame.backslash name)
      with ("" ++ String TasksDataFrame.backslash name)%string.
    rewrite str_split_app, (str_split_plain _ _ Hname). reflexivity.
  - change (String TasksDataFrame.backslash
              (name ++ String TasksDataFrame.backslash rest))
      with ("" ++ String TasksDataFrame.backslash
                    (name ++ String TasksDataFrame.backslash rest))%string.
    rewrite !str_split_app, (str_split_plain _ _ Hname). simpl.
    pose proof (str_split_nonempty TasksDataFrame.backslash rest) as Hn.
    destruct (Pl.str_split TasksDataFrame.backslash rest) as [|seg segs];
      [contradiction|].
    unfold TasksDataFrame.top_folder, Pl.list_len. simpl length.
    destruct (Z.leb_spec (Z.of_nat (S (S (S (length segs))))) 2); [lia|reflexivity].
Qed.

(** X4. The top folder that [preprocess] derives follows the place of
    the task. [preprocess] gives one row per record of the frame, in the
    order of the records, and for every record and its row: when the path
    of the record is a backslash and a name without backslash (a task
    directly under the root), the top folder of the row is the backslash
    string; when the path is backslash, folder name, backslash, rest (a
    task under a folder of the root), it is the name of that folder,
    however deep the rest goes. *)
Theorem top_folder_of_place (states results : gmap string string)
    (df : list Info.t) (name rest : string) :
  Pl.str_contains TasksDataFrame.backslash name = false ->
  Forall2
    (fun i row =>
       (Info.task_path i = String TasksDataFrame.backslash name ->
          Row.task_folder_name row = Some "\") /\
       (Info.task_path i
          = String TasksDataFrame.backslash
              (name ++ String TasksDataFrame.backslash rest)%string ->
          Row.task_folder_name row = Some name))
    df (TasksDataFrame.preprocess states results df).
Proof.
  intros Hname. apply preprocess_rows. intros i.
  now apply preprocess_row_place.
Qed.

Lemma top_folder_of_place_witness :
  Pl.str_contains TasksDataFrame.backslash "Ping" = false /\
  Pl.str_contains TasksDataFrame.backslash "A" = false /\
  List.map Row.task_folder_name
    (TasksDataFrame.preprocess Ref.sample_states Ref.sample_results
       [RegisteredTask.info Ref.ping; RegisteredTask.info Ref.sync])
  = [Some "\"; Some "A"].
Proof.
  assert (H1 : Pl.str_contains TasksDataFrame.backslash "Ping" = false)
    by reflexivity.
  assert (H2 : Pl.str_contains TasksDataFrame.backslash "A" = false)
    by reflexivity.
  split; [exact H1|]. split; [exact H2|].
  destruct (Forall2_cons_1 _ _ _ _ _
              (top_folder_of_place Ref.sample_states Ref.sample_results
                 [RegisteredTask.info Ref.ping; RegisteredTask.info Ref.sync]
                 "Ping" "" H1)) as ((Hping & _) & _).
  destruct (Forall2_cons_1 _ _ _ _ _
              (top_folder_of_place Ref.sample_states Ref.sample_results
                 [RegisteredTask.info Ref.ping; RegisteredTask.info Ref.sync]
                 "A" "X\Sync" H2)) as (_ & Hrest).
  destruct (Forall2_cons_1 _ _ _ _ _ Hrest) as ((_ & Hsync) & _).
  exact (f_equal2 cons (Hping eq_refl) (f_equal2 cons (Hsync eq_refl) eq_refl)).
Defined.

Lemma list_last_app {A} (l : list A) (x : A) : Pl.list_last (l ++ [x]) = Some x.
Proof.
  destruct l as [|a l]; [reflexivity|]. simpl. f_equal. apply List.last_last.
Qed.

(** X5. The task name that [HistoryDataFrame.preprocess] keeps is the
    part of the name after its last backslash: it is never null, it holds
    no backslash, a name without backslash is kept whole, and a name
    made of a folder part, a backslash and a leaf without backslash is
    reduced to the leaf. *)
Theorem task_name_leaf_is_leaf (task_name : string) :
  (exists leaf,
     HistoryDataFrame.task_name_leaf task_name = Some leaf /\
     Pl.str_contains TasksDataFrame.backslash leaf = false) /\
  (Pl.str_contains TasksDataFrame.backslash task_name = false ->
     HistoryDataFrame.task_name_leaf task_name = Some task_name) /\
  (forall dir leaf,
     Pl.str_contains TasksDataFrame.backslash leaf = false ->
     task_name = (dir ++ String TasksDataFrame.backslash leaf)%string ->
     HistoryDataFrame.task_name_leaf task_name = Some leaf).
Proof.
  unfold HistoryDataFrame.task_name_leaf. split; [|split].
  - pose proof (str_split_no_sep TasksDataFrame.backslash task_name) as Hall.
    pose proof (str_split_nonempty TasksDataFrame.backslash task_name) as Hn.
    destruct (Pl.str_split TasksDataFrame.backslash task_name) as [|seg segs];
      [contradiction|].
    destruct (exists_last (l := seg :: segs)) as (front & leaf & E); [discriminate|].
    rewrite E in *. exists leaf. split; [apply list_last_app|].
    apply Forall_app in Hall as [_ Hl]. now inversion Hl.
  - intros H. now rewrite (str_split_plain _ _ H).
  - intros dir leaf Hleaf ->.
    rewrite str_split_app, (str_split_plain _ _ Hleaf). apply list_last_app.
Qed.

Lemma task_name_leaf_is_leaf_witness :
  Pl.str_contains TasksDataFrame.backslash "Sync" = false /\
  HistoryDataFrame.task_name_leaf "Sync" = Some "Sync" /\
  HistoryDataFrame.task_name_leaf "\A\X\Sync" = Some "Sync".
Proof.
  assert (H : Pl.str_contains TasksDataFrame.backslash "Sync" = false)
    by reflexivity.
  destruct (task_name_leaf_is_leaf "Sync") as (_ & Hplain & _).
  destruct (task_name_leaf_is_leaf "\A\X\Sync") as (_ & _ & Hleaf).
  split; [exact H|]. split; [exact (Hplain H)|].
  exact (Hleaf "\A\X" "Sync" H eq_refl).
Defined.

(** ** The history frame *)

Lemma same_day (x day : Z) :
  x / Pl.us_per_day = day <->
  day * Pl.us_per_day <= x < day * Pl.us_per_day + Pl.us_per_day.
Proof.
  unfold Pl.us_per_day.
  pose proof (Z.div_mod x (86400 * 1000000) ltac:(lia)) as Hdm.
  pose proof (Z.mod_pos_bound x (86400 * 1000000) ltac:(lia)) as Hb.
  lia.
Qed.

(** X6. For every history frame and every call instant,
    [get_todays_history] returns exactly the rows whose creation time is
    set and falls on the calendar day of the instant, from 00:00:00
    included to the next midnight excluded, each as often as in the
    frame, latest first. Events later in the day than the instant are
    returned as well. *)
Theorem todays_history_window (t : Py.datetime) (df : list HistoryRow.t) :
  let out := HistoryDataFrame.get_todays_history t df in
  Permutation out
    (List.filter
       (fun r => Pl.eq_lit_Z (Pl.cast_date (HistoryRow.Event_Created r))
                   (Pl.lit_day (Py.date_of t))) df) /\
  (forall r, In r out <->
     In r df /\
     Ref.in_half_open (HistoryRow.Event_Created r)
       (Ref.start_of_day t) (Ref.start_of_day t + Pl.us_per_day)) /\
  StronglySorted Ref.latest_first out.
Proof.
  intros out. unfold HistoryDataFrame.get_todays_history in out.
  set (keep := fun r => Pl.eq_lit_Z (Pl.cast_date (HistoryRow.Event_Created r))
                          (Pl.lit_day (Py.date_of t))) in *.
  pose proof (sort_perm HistoryRow.Event_Created true (List.filter keep df)) as Hp.
  fold out in Hp.
  assert (Hkeep : forall r, keep r = true <->
            Ref.in_half_open (HistoryRow.Event_Created r)
              (Ref.start_of_day t) (Ref.start_of_day t + Pl.us_per_day)).
  { intros r. unfold keep, Ref.in_half_open, Ref.start_of_day, Pl.lit_date,
      Pl.lit_day, Pl.cast_date, Pl.eq_lit_Z.
    destruct (HistoryRow.Event_Created r) as [x|]; simpl.
    - rewrite Z.eqb_eq, same_day. split.
      + intros H. exists x. split; [reflexivity|exact H].
      + intros (y & E & H). injection E as <-. exact H.
    - split; [discriminate|]. intros (y & E & _). discriminate. }
  split; [exact Hp|]. split.
  - intros r. rewrite <- Hkeep. split.
    + intros H. eapply Permutation_in in H; [|exact Hp].
      now apply List.filter_In in H.
    + intros H. eapply Permutation_in; [symmetry; exact Hp|].
      now apply List.filter_In.
  - apply (StronglySorted_on
             (fun r => exists x, HistoryRow.Event_Created r = Some x)
             (Pl.ordered HistoryRow.Event_Created true)).
    + intros a b [x Ha] [y Hb]. unfold Pl.ordered. rewrite Ha, Hb. simpl.
      rewrite Z.leb_le. intros H. exists x, y. auto.
    + eapply Permutation_Forall; [symmetry; exact Hp|].
      apply List.Forall_forall. intros r H. apply List.filter_In in H as [_ H].
      apply Hkeep in H as (x & E & _). eauto.
    + apply sort_sorted.
Qed.

Lemma event_count_cons (r : HistoryRow.t) (df : list HistoryRow.t)
    (col : HistoryRow.t -> option string) (criteria : string) :
  HistoryDataFrame.event_count_by_criteria (r :: df) col criteria
  = (if Pl.eq_lit_str (col r) criteria then 1 else 0)
    + HistoryDataFrame.event_count_by_criteria df col criteria.
Proof.
  unfold HistoryDataFrame.event_count_by_criteria. simpl.
  destruct (Pl.eq_lit_str (col r) criteria); simpl length; lia.
Qed.

(** X7. The three event counts never count a row twice: together they
    are the number of rows whose log description is exactly INFORMATION,
    ERROR or WARNING, so their sum never exceeds the number of rows, and
    it equals it exactly when every row has one of these descriptions
    (a null or differently written description is counted nowhere). *)
Theorem event_counts_partition (df : list HistoryRow.t) :
  let counted :=
    HistoryDataFrame.information_event_count df
    + HistoryDataFrame.error_event_count df
    + HistoryDataFrame.warning_event_count df in
  counted = Z.of_nat (length (List.filter Ref.known_description df)) /\
  0 <= counted <= Z.of_nat (length df) /\
  (counted = Z.of_nat (length df)
   <-> Forall (fun r => Ref.known_description r = true) df).
Proof.
  intros counted.
  assert (Hc : counted = Z.of_nat (length (List.filter Ref.known_description df))).
  { subst counted. unfold HistoryDataFrame.information_event_count,
      HistoryDataFrame.error_event_count, HistoryDataFrame.warning_event_count.
    induction df as [|r df IH]; [reflexivity|].
    rewrite !event_count_cons. simpl List.filter. unfold Ref.known_description at 1.
    destruct (HistoryRow.Event_Log_Description r) as [d|]; simpl Pl.eq_lit_str.
    - destruct (String.eqb_spec d "INFORMATION") as [->|];
        [simpl; simpl length; lia|].
      destruct (String.eqb_spec d "ERROR") as [->|];
        [simpl; simpl length; lia|].
      destruct (String.eqb d "WARNING"); simpl; simpl length; lia.
    - simpl. lia. }
  pose proof (filter_length_le Ref.known_description df) as Hle.
  split; [exact Hc|]. split; [lia|].
  rewrite Hc, <- filter_length_all. lia.
Qed.

(* ===================================================================== *)
(** * Further properties of the scheduler                                  *)
(* ===================================================================== *)

(** ** Finding a folder by name *)

Lemma find_folder_unfold n p ts subs name :
  TaskScheduler.find_folder (COM.mkFolder n p ts subs) name
  = Ref.find_among name subs.
Proof.
  simpl. induction subs as [|c rest IH]; [reflexivity|]. simpl.
  destruct (String.eqb (COM.Name c) name); [reflexivity|].
  destruct (TaskScheduler.find_folder c name) as [fpath|]; [|exact IH].
  destruct (Py.truthy fpath); [reflexivity|exact IH].
Qed.

Lemma find_app_first {A} (p : A -> bool) (l1 l2 : list A) :
  List.find p (l1 ++ l2)
  = match List.find p l1 with Some x => Some x | None => List.find p l2 end.
Proof.
  induction l1 as [|a l1 IH]; [reflexivity|]. simpl.
  destruct (p a); [reflexivity|exact IH].
Qed.

Lemma find_folder_sound root name p :
  TaskScheduler.find_folder root name = Some p ->
  exists d, In d (Ref.descendants root) /\ COM.Name d = name /\ COM.FPath d = p.
Proof.
  revert p. induction root as [n p0 ts subs IH] using Folder_rect'. intros p.
  rewrite find_folder_unfold. simpl Ref.descendants.
  induction IH as [|c rest Hc _ IHrest]; simpl; [discriminate|].
  assert (Hrest : Ref.find_among name rest = Some p ->
            exists d, In d (c :: Ref.descendants c
                              ++ flat_map (fun c => c :: Ref.descendants c) rest)
                      /\ COM.Name d = name /\ COM.FPath d = p).
  { intros H. destruct (IHrest H) as (d & Hin & Hd). exists d. split; [|exact Hd].
    right. apply in_or_app. now right. }
  destruct (String.eqb_spec (COM.Name c) name) as [E|_].
  - intros H. injection H as <-. exists c. split; [now left|]. now split.
  - destruct (TaskScheduler.find_folder c name) as [fpath|] eqn:Ef; [|exact Hrest].
    destruct (Py.truthy fpath); [|exact Hrest].
    intros H. injection H as <-. destruct (Hc _ eq_refl) as (d & Hin & Hd).
    exists d. split; [|exact Hd]. right. apply in_or_app. now left.
Qed.

Lemma find_folder_exact root name :
  Ref.named_have_paths name root ->
  TaskScheduler.find_folder root name
  = option_map COM.FPath (Ref.first_named name root).
Proof.
  unfold Ref.named_have_paths, Ref.first_named.
  induction root as [n p0 ts subs IH] using Folder_rect'.
  rewrite find_folder_unfold. simpl Ref.descendants.
  induction IH as [|c rest Hc _ IHrest]; intros Hpaths; [reflexivity|].
  simpl. destruct (String.eqb (COM.Name c) name) eqn:E; [reflexivity|].
  rewrite find_app_first.
  rewrite Hc by (intros d Hd; apply Hpaths; right; apply in_or_app; now left).
  assert (Hrest : forall d,
            In d (flat_map (fun c => c :: Ref.descendants c) rest) ->
            COM.Name d = name -> Py.truthy (COM.FPath d) = true).
  { intros d Hd. apply Hpaths. right. apply in_or_app. now right. }
  destruct (List.find (fun d => String.eqb (COM.Name d) name) (Ref.descendants c))
    as [d|] eqn:Ed; simpl.
  - apply List.find_some in Ed as [Hin Hname]. apply String.eqb_eq in Hname.
    rewrite (Hpaths d); [reflexivity| |exact Hname].
    right. apply in_or_app. now left.
  - now apply IHrest.
Qed.

(** X8. [find_folder] never returns the folder it starts from, only
    folders below it: a path it returns is the path of a folder below
    the start that bears the name; and when the folders of that name
    have non-empty paths, it returns the path of the first such folder,
    parents before children and siblings in order, and None only when no
    folder below the start bears the name. *)
Theorem find_folder_first_named (root : COM.Folder) (name : string) :
  (forall p, TaskScheduler.find_folder root name = Some p ->
     exists d, In d (Ref.descendants root) /\ COM.Name d = name /\ COM.FPath d = p) /\
  (Ref.named_have_paths name root ->
     TaskScheduler.find_folder root name
       = option_map COM.FPath (Ref.first_named name root) /\
     (TaskScheduler.find_folder root name = None <->
        forall d, In d (Ref.descendants root) -> COM.Name d <> name)).
Proof.
  split; [intros p; apply find_folder_sound|].
  intros Hpaths. rewrite (find_folder_exact root name Hpaths).
  split; [reflexivity|]. unfold Ref.first_named.
  destruct (List.find (fun d => String.eqb (COM.Name d) name) (Ref.descendants root))
    as [d|] eqn:E; simpl.
  - split; [discriminate|]. intros H. apply List.find_some in E as [Hin Hn].
    apply String.eqb_eq in Hn. now destruct (H d Hin).
  - split; [|reflexivity]. intros _ d Hin Hn.
    pose proof (List.find_none _ _ E d Hin) as Hf. simpl in Hf.
    rewrite Hn, String.eqb_refl in Hf. discriminate.
Qed.

Lemma sample_tree_paths name : Ref.named_have_paths name Ref.tree.
Proof.
  intros d Hd _. simpl in Hd.
  destruct Hd as [<-|[<-|[<-|[<-|[]]]]]; reflexivity.
Defined.

Lemma find_folder_first_named_witness :
  Ref.named_have_paths "X" Ref.tree /\
  TaskScheduler.find_folder Ref.tree "X" = Some "\A\X" /\
  TaskScheduler.find_folder Ref.tree "\" = None.
Proof.
  split; [exact (sample_tree_paths "X")|]. split.
  - rewrite (proj1 (proj2 (find_folder_first_named Ref.tree "X")
                      (sample_tree_paths "X"))).
    reflexivity.
  - rewrite (proj1 (proj2 (find_folder_first_named Ref.tree "\")
                      (sample_tree_paths "\"))).
    reflexivity.
Defined.

Lemma resolve_first_found path subs d :
  In d (flat_map (fun c => c :: Ref.descendants c) subs) ->
  Forall (fun c => forall d, In d (Ref.descendants c) -> COM.FPath d = path ->
                   Provider.resolve path c <> None) subs ->
  COM.FPath d = path ->
  Ref.resolve_first path subs <> None.
Proof.
  induction subs as [|c rest IH]; simpl; [contradiction|].
  intros Hin Hall Hp. inversion Hall as [|? ? Hc Hrest]; subst.
  destruct (Provider.resolve (COM.FPath d) c) eqn:E; [discriminate|].
  destruct Hin as [->|Hin]; [now rewrite resolve_self in E|].
  apply in_app_or in Hin as [Hin|Hin].
  - now destruct (Hc d Hin eq_refl).
  - now apply IH.
Qed.

(** The path of a folder of the tree always denotes a folder. *)
Lemma resolve_descendant root d :
  In d (Ref.descendants root) ->
  exists f, Provider.resolve (COM.FPath d) root = Some f.
Proof.
  intros Hin.
  assert (H : Provider.resolve (COM.FPath d) root <> None).
  { revert d Hin. induction root as [n p ts subs IH] using Folder_rect'.
    intros d Hin. rewrite resolve_unfold.
    destruct (String.eqb p (COM.FPath d)); [discriminate|].
    simpl in Hin. eapply resolve_first_found; [exact Hin| |reflexivity].
    eapply List.Forall_impl; [|exact IH].
    intros c Hc d' Hd' E. rewrite <- E. now apply Hc. }
  destruct (Provider.resolve (COM.FPath d) root) as [f|]; [eauto|contradiction].
Qed.

(** [get_folder] on a name: it either finds a folder or raises its own
    ValueError; the provider never refuses the path it is given. *)
Lemma get_folder_cases name w :
  TaskScheduler.get_folder (Some name) w
    = (Raise (ValueError ("Could not find " ++ name)%string), w) \/
  exists f, TaskScheduler.get_folder (Some name) w = (Ok (TaskFolder.init f), w) /\
            Provider.resolve (COM.FPath f) (COM.root w) = Some f.
Proof.
  unfold TaskScheduler.get_folder, bind, get_service.
  destruct (TaskScheduler.find_folder (COM.root w) name) as [path|] eqn:E;
    [|now left].
  destruct (Py.truthy path); [|now left].
  apply find_folder_sound in E as (d & Hin & _ & <-).
  destruct (resolve_descendant _ _ Hin) as [f Hf].
  right. exists f. rewrite GetFolder_run, Hf. split; [reflexivity|].
  now rewrite (resolve_path _ _ _ Hf).
Qed.

(** X9. [get_folder] never changes the service and never fails inside
    the provider. Without a name it returns the root. With a name, when
    the folders of that name have non-empty paths, it raises
    ValueError("Could not find <name>") exactly when no folder below the
    root bears the name, and otherwise returns the object of the folder
    that the path of the first such folder denotes; the root itself is
    never found by its name. *)
Theorem get_folder_outcome (w : COM.Service) (name : string) :
  TaskScheduler.get_folder None w = (Ok (TaskFolder.init (COM.root w)), w) /\
  snd (TaskScheduler.get_folder (Some name) w) = w /\
  (forall msg, fst (TaskScheduler.get_folder (Some name) w) <> Raise (com_error msg)) /\
  (Ref.named_have_paths name (COM.root w) ->
     match Ref.first_named name (COM.root w) with
     | None =>
         TaskScheduler.get_folder (Some name) w
         = (Raise (ValueError ("Could not find " ++ name)%string), w)
     | Some d =>
         exists f,
           Provider.resolve (COM.FPath d) (COM.root w) = Some f /\
           TaskScheduler.get_folder (Some name) w = (Ok (TaskFolder.init f), w)
     end).
Proof.
  split; [reflexivity|]. split; [apply get_folder_state|]. split.
  - intros msg. destruct (get_folder_cases name w) as [H|(f & H & _)];
      rewrite H; discriminate.
  - intros Hpaths. pose proof (find_folder_exact _ _ Hpaths) as Hfind.
    unfold TaskScheduler.get_folder, bind, get_service. rewrite Hfind.
    destruct (Ref.first_named name (COM.root w)) as [d|] eqn:E; simpl;
      [|reflexivity].
    apply List.find_some in E as [Hin Hn]. apply String.eqb_eq in Hn.
    rewrite (Hpaths d Hin Hn).
    destruct (resolve_descendant _ _ Hin) as [f Hf].
    exists f. split; [exact Hf|]. now rewrite GetFolder_run, Hf.
Qed.

Lemma get_folder_outcome_witness :
  Ref.named_have_paths "X" (COM.root Ref.service) /\
  Ref.named_have_paths "\" (COM.root Ref.service) /\
  TaskScheduler.get_folder (Some "X") Ref.service
    = (Ok (TaskFolder.mk "\A\X" [] ["Sync"]), Ref.service) /\
  TaskScheduler.get_folder (Some "\") Ref.service
    = (Raise (ValueError "Could not find \"), Ref.service).
Proof.
  split; [exact (sample_tree_paths "X")|].
  split; [exact (sample_tree_paths "\")|]. split.
  - destruct (proj2 (proj2 (proj2 (get_folder_outcome Ref.service "X")))
                (sample_tree_paths "X")) as (f & Hf & Hget).
    rewrite Hget. vm_compute in Hf. injection Hf as <-. reflexivity.
  - exact (proj2 (proj2 (proj2 (get_folder_outcome Ref.service "\")))
             (sample_tree_paths "\")).
Defined.

(** ** What the walk can return on any tree *)

Lemma for_each_inv {A St} (P : St -> Prop) (w : COM.Service)
    (body : A -> St -> M St) (xs : list A) :
  (forall x s, snd (body x s w) = w /\
               (P s -> forall s', fst (body x s w) = Ok s' -> P s')) ->
  forall s, snd (for_each xs body s w) = w /\
            (P s -> forall s', fst (for_each xs body s w) = Ok s' -> P s').
Proof.
  intros Hbody. induction xs as [|x xs IH]; intros s; simpl.
  - split; [reflexivity|]. intros Hs s' H. injection H as <-. exact Hs.
  - unfold bind. destruct (Hbody x s) as [Hw Hp].
    destruct (body x s w) as [[s1|e] w1]; simpl in *; subst w1.
    + destruct (IH s1) as [Hw1 Hp1]. split; [exact Hw1|].
      intros Hs s' H. apply (Hp1 (Hp Hs s1 eq_refl) s' H).
    + split; [reflexivity|]. intros _ s' H. discriminate.
Qed.

Lemma resolve_tasks_in path root f :
  Provider.resolve path root = Some f ->
  incl (COM.GetTasks f) (Ref.all_tasks root).
Proof.
  induction root as [n p ts subs IH] using Folder_rect'.
  rewrite resolve_unfold. simpl Ref.all_tasks.
  destruct (String.eqb p path).
  - intros H. injection H as <-. simpl. apply incl_appl, incl_refl.
  - intros H. apply incl_appr.
    induction IH as [|c rest Hc _ IHrest]; simpl in *; [discriminate|].
    destruct (Provider.resolve path c) eqn:E.
    + injection H as <-. apply incl_appl. now apply Hc.
    + apply incl_appr. now apply IHrest.
Qed.

Lemma get_task_sound self name w :
  snd (TaskFolder.get_task self name w) = w /\
  forall rt, fst (TaskFolder.get_task self name w) = Ok rt ->
             In rt (Ref.all_tasks (COM.root w)) /\ COM.rt_Name rt = name.
Proof.
  unfold TaskFolder.get_task.
  destruct (Py.str_in name (TaskFolder.tasks self));
    [|split; [reflexivity|discriminate]].
  unfold Provider.GetTask, bind. rewrite GetFolder_run.
  destruct (Provider.resolve (TaskFolder.folder self) (COM.root w)) as [f|] eqn:E;
    [|split; [reflexivity|discriminate]].
  unfold Provider.find_task.
  destruct (List.find (fun t => String.eqb (COM.rt_Name t) name) (COM.GetTasks f))
    as [t|] eqn:Ef; simpl; [|split; [reflexivity|discriminate]].
  split; [reflexivity|]. intros rt H. injection H as <-.
  apply List.find_some in Ef as [Hin Hn]. apply String.eqb_eq in Hn.
  split; [|exact Hn]. exact (resolve_tasks_in _ _ _ E t Hin).
Qed.

Lemma DataFrame_columns records rows :
  Frame.DataFrame records = Ok (Frame.Columns rows) -> rows = records.
Proof.
  unfold Frame.DataFrame. destruct records as [|r records]; [discriminate|].
  destruct (Frame.has_late_value (r :: records)); [discriminate|].
  intros H. now injection H as <-.
Qed.

Lemma bind_sound {A B} (m : M A) (k : A -> M B) (w : COM.Service)
    (Q : A -> Prop) (R : B -> Prop) :
  (snd (m w) = w /\ forall a, fst (m w) = Ok a -> Q a) ->
  (forall a, Q a -> snd (k a w) = w /\ forall b, fst (k a w) = Ok b -> R b) ->
  snd (bind m k w) = w /\ forall b, fst (bind m k w) = Ok b -> R b.
Proof.
  intros [Hw Hq] Hk. unfold bind.
  destruct (m w) as [[a|e] w1]; simpl in *; subst w1.
  - apply Hk, Hq. reflexivity.
  - split; [reflexivity|discriminate].
Qed.

Lemma walk_sound depth (w : COM.Service) :
  forall folder folder_name acc,
    snd (TaskScheduler.list_tasks_info_in_folder depth folder folder_name acc w) = w /\
    forall l,
      fst (TaskScheduler.list_tasks_info_in_folder depth folder folder_name acc w)
        = Ok l ->
      exists ts, l = acc ++ List.map RegisteredTask.info ts /\
                 incl ts (Ref.all_tasks (COM.root w)).
Proof.
  induction depth as [|depth IH]; intros folder folder_name acc.
  - simpl. split; [reflexivity|discriminate].
  - set (P := fun s : list Info.t =>
                exists ts, s = acc ++ List.map RegisteredTask.info ts /\
                           incl ts (Ref.all_tasks (COM.root w))).
    assert (P0 : P acc).
    { exists []. split; [now rewrite app_nil_r|intros x []]. }
    simpl TaskScheduler.list_tasks_info_in_folder.
    apply (bind_sound _ _ w P P).
    + match goal with
      | |- context [for_each ?xs ?body acc w] =>
          assert (Hb : forall x s, snd (body x s w) = w /\
                    (P s -> forall s', fst (body x s w) = Ok s' -> P s'));
          [|destruct (for_each_inv P w body xs Hb acc) as [Hw1 Hp1]; split;
            [exact Hw1|exact (Hp1 P0)]]
      end.
      intros t s.
      destruct (get_task_sound folder t w) as [Hw Hrt].
      unfold bind, ret.
      destruct (TaskFolder.get_task folder t w) as [[rt|e] w1]; simpl in *; subst w1.
      * split; [reflexivity|]. intros (ts & -> & Hts) s' H. injection H as <-.
        exists (ts ++ [rt]). split; [now rewrite List.map_app, app_assoc|].
        apply incl_app; [exact Hts|]. intros x [<-|[]]. now apply Hrt.
      * split; [reflexivity|]. intros _ s' H. discriminate.
    + intros acc1 Hacc1.
      match goal with
      | |- context [for_each ?xs ?body acc1 w] =>
          assert (Hb : forall x s, snd (body x s w) = w /\
                    (P s -> forall s', fst (body x s w) = Ok s' -> P s'));
          [|destruct (for_each_inv P w body xs Hb acc1) as [Hw2 Hp2]; split;
            [exact Hw2|exact (Hp2 Hacc1)]]
      end.
      intros sf s. pose proof (get_folder_state (Some sf) w) as Hw.
      unfold bind.
      destruct (TaskScheduler.get_folder (Some sf) w) as [[subfolder|e] w1];
        simpl in Hw; subst w1.
      * destruct (IH subfolder (folder_name ++ "\" ++ sf)%string s) as [Hw Hl].
        split; [exact Hw|]. intros (ts & -> & Hts) s' H.
        destruct (Hl s' H) as (ts' & -> & Hts').
        exists (ts ++ ts'). split; [now rewrite List.map_app, app_assoc|].
        now apply incl_app.
      * split; [reflexivity|]. intros _ s' H. discriminate.
Qed.

(** X10. On every service and for every depth allowed, [get_all_tasks]
    leaves the service as it was, whether it returns or raises, and when
    it returns, every row is the preprocessed record of a task that is in
    the folder tree: the walk may repeat or miss tasks, but it never
    lists a task that does not exist. *)
Theorem get_all_tasks_sound (states results : gmap string string)
    (depth : nat) (w : COM.Service) :
  snd (TaskScheduler.get_all_tasks states results depth w) = w /\
  forall rows,
    fst (TaskScheduler.get_all_tasks states results depth w) = Ok rows ->
    exists ts,
      rows = TasksDataFrame.preprocess states results
               (List.map RegisteredTask.info ts) /\
      incl ts (Ref.all_tasks (COM.root w)).
Proof.
  unfold TaskScheduler.get_all_tasks.
  apply (bind_sound _ _ w (fun tf => tf = TaskFolder.init (COM.root w))).
  - split; [reflexivity|]. intros tf H. now injection H as <-.
  - intros tf ->.
    apply (bind_sound _ _ w
             (fun l => exists ts, l = List.map RegisteredTask.info ts /\
                                  incl ts (Ref.all_tasks (COM.root w)))).
    + exact (walk_sound depth w (TaskFolder.init (COM.root w)) "\" []).
    + intros l (ts & -> & Hts). unfold bind, lift. simpl app.
      destruct (Frame.DataFrame (List.map RegisteredTask.info ts))
        as [[|rows0]|e] eqn:E; simpl.
      * split; [reflexivity|discriminate].
      * split; [reflexivity|]. intros rows H. injection H as <-.
        apply DataFrame_columns in E as ->. exists ts. now split.
      * split; [reflexivity|discriminate].
Qed.

(** ** Creating a task *)

Lemma match_trigger_type_frame a td w :
  exists td',
    TaskScheduler.match_trigger_type a td w
      = (Ok td',
         Ref.received
           (match Ref.cadence (TaskScheduler.trigger_type a) with
            | Some ty => [COM.CallTriggersCreate ty]
            | None => []
            end) w) /\
    COM.trg_created (COM.triggers td')
      = COM.trg_created (COM.triggers td)
        ++ match Ref.cadence (TaskScheduler.trigger_type a) with
           | Some ty => [ty]
           | None => []
           end /\
    COM.actions td' = COM.actions td /\
    COM.reg_info td' = COM.reg_info td /\
    COM.settings td' = COM.settings td.
Proof.
  unfold Ref.cadence, TaskScheduler.match_trigger_type.
  repeat match goal with
         | |- context [String.eqb (TaskScheduler.trigger_type a) ?y] =>
             destruct (String.eqb (TaskScheduler.trigger_type a) y);
             [eexists; split; [run_builder; reflexivity|repeat split]|]
         end.
  exists td. unfold Ref.received, ret. destruct w as [r cs]; simpl.
  rewrite !app_nil_r. repeat split.
Qed.

Lemma match_action_type_exec_full a td w :
  TaskScheduler.action_type a = "exec" ->
  exists td',
    TaskScheduler.match_action_type a td w
      = (Ok td', Ref.received [COM.CallActionsCreate TASK_ACTION_EXEC] w) /\
    COM.actions td'
      = COM.mkActions (COM.act_created (COM.actions td) ++ [TASK_ACTION_EXEC])
          (Some (TaskScheduler.action_file a)) (TaskScheduler.action_arg a)
          (TaskScheduler.action_working_dir a) /\
    COM.triggers td' = COM.triggers td /\
    COM.reg_info td' = COM.reg_info td /\
    COM.settings td' = COM.settings td.
Proof.
  unfold TaskScheduler.match_action_type. intros ->. simpl.
  eexists. split; [run_builder; reflexivity|repeat split].
Qed.

Lemma match_action_type_other a td w :
  ~ In (TaskScheduler.action_type a) Ref.action_literals ->
  TaskScheduler.match_action_type a td w = (Ok td, w).
Proof.
  unfold TaskScheduler.match_action_type, Ref.action_literals. intros H.
  cbv zeta.
  repeat match goal with
         | |- context [String.eqb (TaskScheduler.action_type a) ?y] =>
             destruct (String.eqb_spec (TaskScheduler.action_type a) y) as [E|_];
             [exfalso; apply H; rewrite E; simpl; auto 6|]
         end.
  reflexivity.
Qed.

(** The end of [create_task], once the folder is found and the two
    dispatches have returned. *)
Lemma create_task_steps a w folder f td1 w1 td2 w2 :
  TaskScheduler.get_folder (Some (TaskScheduler.folder_name a)) w = (Ok folder, w) ->
  Provider.resolve (TaskFolder.folder folder) (COM.root w) = Some f ->
  TaskScheduler.match_trigger_type a Provider.empty_definition
    (Ref.received [COM.CallNewTask] w) = (Ok td1, w1) ->
  TaskScheduler.match_action_type a td1 w1 = (Ok td2, w2) ->
  COM.root w2 = COM.root w ->
  let td := TaskScheduler.describe_and_configure a td2 in
  let new := Provider.registered (COM.FPath f) (TaskScheduler.task_name a) td
               "" "" TASK_LOGON_NONE in
  exists w',
    TaskScheduler.create_task a w = (Ok (NewTask.mk td), w') /\
    COM.calls w' = COM.calls w2
      ++ [COM.CallRegisterTaskDefinition (TaskFolder.folder folder)
            (TaskScheduler.task_name a)] /\
    Provider.resolve (TaskFolder.folder folder) (COM.root w')
      = Some (Provider.with_tasks
                (Ref.stored (TaskScheduler.task_name a) new (COM.GetTasks f)) f) /\
    COM.root w'
      = Provider.update (TaskFolder.folder folder)
          (fun x => Provider.with_tasks
                      (Ref.store
                         (Py.str_in (TaskScheduler.task_name a)
                            (List.map COM.rt_Name (COM.GetTasks f)))
                         (TaskScheduler.task_name a) new (COM.GetTasks x)) x)
          (COM.root w).
Proof.
  intros Hget Hres Htrig Hact Hroot td new.
  rewrite <- Hroot in Hres.
  destruct (RegisterTaskDefinition_run (TaskFolder.folder folder)
              (TaskScheduler.task_name a) td "" "" TASK_LOGON_NONE w2 f Hres)
    as [Hreg Hres'].
  fold new in Hreg, Hres'. eexists. split.
  - unfold TaskScheduler.create_task.
    unfold bind at 1. rewrite Hget.
    unfold bind at 1. rewrite NewTask_run.
    unfold bind at 1. rewrite Htrig.
    unfold bind at 1. rewrite Hact. fold td.
    unfold TaskFolder.register_new_task. unfold bind at 1. unfold bind at 1.
    rewrite Hreg. reflexivity.
  - simpl. split; [reflexivity|]. split; [exact Hres'|]. now rewrite Hroot.
Qed.

(** X11. For every call of [create_task] whose folder name is found,
    whose trigger type is one of the five literals and whose action type
    is "exec", the call returns: the service has received, in this
    order, the request for a definition, the creation of one trigger of
    the matching type, the creation of one exec action and the
    registration; the definition returned has that one trigger with the
    combined start date and time as its boundary, the exec action with
    the file, the argument and the working directory given, the
    description and the eight settings given; and the folder holds it
    under the task name, its other tasks being as before. *)
Theorem create_task_registers
    (a : TaskScheduler.create_task_args) (w : COM.Service)
    (folder : TaskFolder.t) (ty : TaskTriggerTypes) :
  fst (TaskScheduler.get_folder (Some (TaskScheduler.folder_name a)) w) = Ok folder ->
  Ref.cadence (TaskScheduler.trigger_type a) = Some ty ->
  TaskScheduler.action_type a = "exec" ->
  exists td w' f f' rt,
    TaskScheduler.create_task a w = (Ok (NewTask.mk td), w') /\
    COM.calls w' = COM.calls w
      ++ [COM.CallNewTask; COM.CallTriggersCreate ty;
          COM.CallActionsCreate TASK_ACTION_EXEC;
          COM.CallRegisterTaskDefinition (TaskFolder.folder folder)
            (TaskScheduler.task_name a)] /\
    COM.trg_created (COM.triggers td) = [ty] /\
    COM.StartBoundary (COM.triggers td)
      = Some (Py.combine (TaskScheduler.start_date a) (TaskScheduler.start_time a)) /\
    COM.actions td
      = COM.mkActions [TASK_ACTION_EXEC] (Some (TaskScheduler.action_file a))
          (TaskScheduler.action_arg a) (TaskScheduler.action_working_dir a) /\
    COM.Description (COM.reg_info td) = TaskScheduler.task_description a /\
    COM.settings td = Ref.settings_of a /\
    Provider.resolve (TaskFolder.folder folder) (COM.root w) = Some f /\
    Provider.resolve (TaskFolder.folder folder) (COM.root w') = Some f' /\
    Provider.find_task (TaskScheduler.task_name a) (COM.GetTasks f') = Some rt /\
    COM.rt_Definition rt = td /\
    (forall n, n <> TaskScheduler.task_name a ->
       Provider.find_task n (COM.GetTasks f') = Provider.find_task n (COM.GetTasks f)) /\
    COM.GetFolders f' = COM.GetFolders f.
Proof.
  intros Hfolder Hty Hexec.
  apply get_folder_found in Hfolder as (Hget & f & _ & Hres).
  destruct (match_trigger_type_supported a Provider.empty_definition
              (Ref.received [COM.CallNewTask] w) ty Hty)
    as (td1 & Htrig & Hcreated & Hboundary & Hacts).
  destruct (match_action_type_exec_full a td1
              (Ref.received [COM.CallTriggersCreate ty]
                 (Ref.received [COM.CallNewTask] w)) Hexec)
    as (td2 & Hact & Hacts2 & Htrig2 & _ & _).
  destruct (create_task_steps a w folder f _ _ _ _ Hget Hres Htrig Hact eq_refl)
    as (w' & Hrun & Hcalls & Hres' & _).
  destruct f as [n p ts subs].
  eexists _, w', _, _, _. split; [exact Hrun|].
  split; [rewrite Hcalls; simpl; now rewrite <- !app_assoc|].
  simpl. rewrite Htrig2, Hacts2, Hcreated, Hboundary, Hacts. simpl.
  repeat (split; [reflexivity|]).
  split; [exact Hres|]. split; [exact Hres'|]. simpl.
  split; [now apply find_task_stored|]. split; [reflexivity|].
  split; [|reflexivity]. intros n0 Hn. now apply find_task_stored_other.
Qed.

Lemma create_task_registers_witness :
  fst (TaskScheduler.get_folder (Some "B") Ref.service)
    = Ok (TaskFolder.mk "\B" ["X"] []) /\
  Ref.cadence "weekly" = Some TASK_TRIGGER_WEEKLY /\
  exists td w' f' rt,
    TaskScheduler.create_task (Ref.call "B" "weekly" "exec") Ref.service
      = (Ok (NewTask.mk td), w') /\
    COM.trg_created (COM.triggers td) = [TASK_TRIGGER_WEEKLY] /\
    Provider.resolve "\B" (COM.root w') = Some f' /\
    Provider.find_task "Nightly" (COM.GetTasks f') = Some rt /\
    COM.rt_Definition rt = td.
Proof.
  assert (H1 : fst (TaskScheduler.get_folder (Some "B") Ref.service)
               = Ok (TaskFolder.mk "\B" ["X"] [])) by reflexivity.
  assert (H2 : Ref.cadence "weekly" = Some TASK_TRIGGER_WEEKLY) by reflexivity.
  split; [exact H1|]. split; [exact H2|].
  destruct (create_task_registers (Ref.call "B" "weekly" "exec") Ref.service
              _ _ H1 H2 eq_refl)
    as (td & w' & f & f' & rt & Hrun & _ & Ht & _ & _ & _ & _ & _ & Hres & Hfind
        & Hdef & _).
  exists td, w', f', rt. repeat split; assumption.
Defined.

(** X12. An action type that is none of the four literals is not
    refused: when the folder name is found, the call returns and
    registers the task with no action at all, whatever the trigger
    type; the service is never asked to create an action. *)
Theorem create_task_unknown_action
    (a : TaskScheduler.create_task_args) (w : COM.Service) (folder : TaskFolder.t) :
  fst (TaskScheduler.get_folder (Some (TaskScheduler.folder_name a)) w) = Ok folder ->
  ~ In (TaskScheduler.action_type a) Ref.action_literals ->
  exists td w' f' rt,
    TaskScheduler.create_task a w = (Ok (NewTask.mk td), w') /\
    COM.actions td = COM.mkActions [] None None None /\
    COM.calls w' = COM.calls w
      ++ [COM.CallNewTask]
      ++ match Ref.cadence (TaskScheduler.trigger_type a) with
         | Some ty => [COM.CallTriggersCreate ty]
         | None => []
         end
      ++ [COM.CallRegisterTaskDefinition (TaskFolder.folder folder)
            (TaskScheduler.task_name a)] /\
    Provider.resolve (TaskFolder.folder folder) (COM.root w') = Some f' /\
    Provider.find_task (TaskScheduler.task_name a) (COM.GetTasks f') = Some rt /\
    COM.rt_Definition rt = td.
Proof.
  intros Hfolder Hother.
  apply get_folder_found in Hfolder as (Hget & f & _ & Hres).
  destruct (match_trigger_type_frame a Provider.empty_definition
              (Ref.received [COM.CallNewTask] w))
    as (td1 & Htrig & _ & Hacts & _).
  pose proof (match_action_type_other a td1
                (Ref.received
                   match Ref.cadence (TaskScheduler.trigger_type a) with
                   | Some ty => [COM.CallTriggersCreate ty]
                   | None => []
                   end (Ref.received [COM.CallNewTask] w)) Hother) as Hact.
  destruct (create_task_steps a w folder f _ _ _ _ Hget Hres Htrig Hact eq_refl)
    as (w' & Hrun & Hcalls & Hres' & _).
  destruct f as [n p ts subs].
  eexists _, w', _, _. split; [exact Hrun|].
  split; [simpl; now rewrite Hacts|].
  split; [rewrite Hcalls; simpl; now rewrite <- !app_assoc|].
  split; [exact Hres'|]. simpl.
  split; [now apply find_task_stored|reflexivity].
Qed.

Lemma create_task_unknown_action_witness :
  fst (TaskScheduler.get_folder (Some "B") Ref.service)
    = Ok (TaskFolder.mk "\B" ["X"] []) /\
  ~ In "exe" Ref.action_literals /\
  exists td w',
    TaskScheduler.create_task (Ref.call "B" "daily" "exe") Ref.service
      = (Ok (NewTask.mk td), w') /\
    COM.actions td = COM.mkActions [] None None None.
Proof.
  assert (H1 : fst (TaskScheduler.get_folder (Some "B") Ref.service)
               = Ok (TaskFolder.mk "\B" ["X"] [])) by reflexivity.
  assert (H2 : ~ In "exe" Ref.action_literals).
  { simpl. intros [H|[H|[H|[H|[]]]]]; discriminate. }
  split; [exact H1|]. split; [exact H2|].
  destruct (create_task_unknown_action (Ref.call "B" "daily" "exe") Ref.service
              _ H1 H2) as (td & w' & _ & _ & Hrun & Hacts & _).
  exists td, w'. split; assumption.
Defined.

(** X13. The outcome of [create_task] on any call. It returns exactly
    when the folder name is found and the action type is none of
    "com-handler", "email", "show-message". When it raises, the folder
    tree is as before the call (nothing is registered), and the error is
    either the ValueError of the folder lookup, raised before anything
    is asked of the service, or a NotImplementedError for one of the
    three action types; it is never an error of the provider. *)
Theorem create_task_outcome (a : TaskScheduler.create_task_args) (w : COM.Service) :
  (forall e w',
     TaskScheduler.create_task a w = (Raise e, w') ->
     COM.root w' = COM.root w /\
     ((e = ValueError ("Could not find " ++ TaskScheduler.folder_name a)%string
       /\ w' = w) \/
      (In (TaskScheduler.action_type a) TaskScheduler.unsupported_action_types /\
       exists msg, e = NotImplementedError msg))) /\
  ((exists nt w', TaskScheduler.create_task a w = (Ok nt, w')) <->
   (exists folder,
      fst (TaskScheduler.get_folder (Some (TaskScheduler.folder_name a)) w)
        = Ok folder) /\
   ~ In (TaskScheduler.action_type a) TaskScheduler.unsupported_action_types).
Proof.
  destruct (get_folder_cases (TaskScheduler.folder_name a) w)
    as [Hget|(f & Hget & Hres)].
  - assert (Hrun : TaskScheduler.create_task a w
                   = (Raise (ValueError
                               ("Could not find " ++ TaskScheduler.folder_name a)%string),
                      w)).
    { unfold TaskScheduler.create_task. apply bind_raise. exact Hget. }
    rewrite Hrun, Hget. split.
    + intros e w' H. injection H as <- <-. split; [reflexivity|]. now left.
    + split; [intros (nt & w' & H); discriminate|].
      intros [(folder & H) _]. discriminate.
  - assert (Hres' : Provider.resolve (TaskFolder.folder (TaskFolder.init f))
                      (COM.root w) = Some f) by exact Hres.
    destruct (match_trigger_type_frame a Provider.empty_definition
                (Ref.received [COM.CallNewTask] w))
      as (td1 & Htrig & _).
    set (w1 := Ref.received
                 match Ref.cadence (TaskScheduler.trigger_type a) with
                 | Some ty => [COM.CallTriggersCreate ty]
                 | None => []
                 end (Ref.received [COM.CallNewTask] w)) in *.
    assert (Hok : forall td2 w2,
              TaskScheduler.match_action_type a td1 w1 = (Ok td2, w2) ->
              COM.root w2 = COM.root w ->
              exists nt w', TaskScheduler.create_task a w = (Ok nt, w')).
    { intros td2 w2 Hact Hroot.
      destruct (create_task_steps a w _ f _ _ _ _ Hget Hres' Htrig Hact Hroot)
        as (w' & Hrun & _). eauto. }
    destruct (in_dec string_dec (TaskScheduler.action_type a)
                TaskScheduler.unsupported_action_types) as [Hin|Hnot].
    + destruct (match_action_type_unsupported a td1 w1 Hin) as (msg & Hraise & _).
      assert (Hrun : TaskScheduler.create_task a w
                     = (Raise (NotImplementedError msg), w1)).
      { unfold TaskScheduler.create_task.
        unfold bind at 1. rewrite Hget.
        unfold bind at 1. rewrite NewTask_run.
        unfold bind at 1. rewrite Htrig.
        unfold bind at 1. now rewrite Hraise. }
      rewrite Hrun. split.
      * intros e w' H. injection H as <- <-. split; [reflexivity|].
        right. split; [exact Hin|]. now exists msg.
      * split; [intros (nt & w' & H); discriminate|]. intros [_ H]. contradiction.
    + assert (Hret : exists nt w', TaskScheduler.create_task a w = (Ok nt, w')).
      { destruct (String.eqb_spec (TaskScheduler.action_type a) "exec") as [E|E].
        - destruct (match_action_type_exec_full a td1 w1 E) as (td2 & Hact & _).
          exact (Hok _ _ Hact eq_refl).
        - apply (Hok td1 w1); [|reflexivity].
          apply match_action_type_other. unfold Ref.action_literals.
          intros [H|H]; [now symmetry in H|contradiction]. }
      split.
      * intros e w' H. destruct Hret as (nt & w2 & Hrun). congruence.
      * split; [|intros _; exact Hret].
        intros _. split; [|exact Hnot]. exists (TaskFolder.init f).
        now rewrite Hget.
Qed.

Lemma create_task_outcome_witness :
  TaskScheduler.create_task (Ref.call "Nope" "daily" "exec") Ref.service
    = (Raise (ValueError "Could not find Nope"), Ref.service) /\
  COM.root Ref.service = COM.root Ref.service /\
  ((ValueError "Could not find Nope" = ValueError "Could not find Nope"
    /\ Ref.service = Ref.service) \/
   (In "exec" TaskScheduler.unsupported_action_types /\
    exists msg, ValueError "Could not find Nope" = NotImplementedError msg)).
Proof.
  assert (H : TaskScheduler.create_task (Ref.call "Nope" "daily" "exec") Ref.service
              = (Raise (ValueError "Could not find Nope"), Ref.service))
    by reflexivity.
  split; [exact H|].
  exact (proj1 (create_task_outcome (Ref.call "Nope" "daily" "exec") Ref.service)
           _ _ H).
Defined.

Lemma bind_ext {A B} (m : M A) (k k' : A -> M B) w :
  (forall x w', k x w' = k' x w') -> bind m k w = bind m k' w.
Proof.
  intros H. unfold bind. destruct (m w) as [[x|e] w']; [apply H|reflexivity].
Qed.

Lemma create_task_same_trigger (a a' : TaskScheduler.create_task_args) w :
  (forall td, TaskScheduler.match_trigger_type a' td
              = TaskScheduler.match_trigger_type a td) ->
  TaskScheduler.folder_name a' = TaskScheduler.folder_name a ->
  (forall td, TaskScheduler.match_action_type a' td
              = TaskScheduler.match_action_type a td) ->
  (forall td, TaskScheduler.describe_and_configure a' td
              = TaskScheduler.describe_and_configure a td) ->
  TaskScheduler.task_name a' = TaskScheduler.task_name a ->
  TaskScheduler.create_task a' w = TaskScheduler.create_task a w.
Proof.
  intros Htrig Hfolder Hact Hdesc Hname. unfold TaskScheduler.create_task.
  rewrite Hfolder, Hname.
  apply bind_ext. intros folder w1. apply bind_ext. intros td w2.
  rewrite Htrig. apply bind_ext. intros td1 w3.
  rewrite Hact. apply bind_ext. intros td2 w4. now rewrite Hdesc.
Qed.

Ltac same_trigger H :=
  apply create_task_same_trigger; try reflexivity;
  intros td; unfold TaskScheduler.match_trigger_type;
  cbn [TaskScheduler.trigger_type TaskScheduler.start_date TaskScheduler.start_time
       TaskScheduler.days_interval TaskScheduler.weeks_interval
       TaskScheduler.days_of_week TaskScheduler.days_of_month
       TaskScheduler.months_of_year TaskScheduler.weeks_of_month Ref.with_cadence];
  rewrite H; reflexivity.

(** X14. [create_task] reads only the cadence arguments of the trigger
    type it is given: the outcome of the call is the same whatever is
    passed for the others. A daily trigger reads the days interval only;
    a weekly one the weeks interval and the days of week; "monthly" the
    days of month and the months of year, not the days of week nor the
    weeks of month; "monthlydow" the days of week, the months of year and
    the weeks of month, not the days of month; "one-time" none of the
    six. *)
Theorem cadence_arguments_read (a : TaskScheduler.create_task_args)
    (w : COM.Service) (di wi dow dom moy wom : option Z) :
  (TaskScheduler.trigger_type a = "daily" ->
     TaskScheduler.create_task
       (Ref.with_cadence a (TaskScheduler.days_interval a) wi dow dom moy wom) w
     = TaskScheduler.create_task a w) /\
  (TaskScheduler.trigger_type a = "weekly" ->
     TaskScheduler.create_task
       (Ref.with_cadence a di (TaskScheduler.weeks_interval a)
          (TaskScheduler.days_of_week a) dom moy wom) w
     = TaskScheduler.create_task a w) /\
  (TaskScheduler.trigger_type a = "monthly" ->
     TaskScheduler.create_task
       (Ref.with_cadence a di wi dow (TaskScheduler.days_of_month a)
          (TaskScheduler.months_of_year a) wom) w
     = TaskScheduler.create_task a w) /\
  (TaskScheduler.trigger_type a = "monthlydow" ->
     TaskScheduler.create_task
       (Ref.with_cadence a di wi (TaskScheduler.days_of_week a) dom
          (TaskScheduler.months_of_year a) (TaskScheduler.weeks_of_month a)) w
     = TaskScheduler.create_task a w) /\
  (TaskScheduler.trigger_type a = "one-time" ->
     TaskScheduler.create_task (Ref.with_cadence a di wi dow dom moy wom) w
     = TaskScheduler.create_task a w).
Proof.
  repeat split; intros H; same_trigger H.
Qed.

Lemma cadence_arguments_read_witness :
  TaskScheduler.trigger_type (Ref.call "B" "monthly" "exec") = "monthly" /\
  TaskScheduler.create_task
    (Ref.with_cadence (Ref.call "B" "monthly" "exec")
       None None (Some 127) (Some 1) (Some 4095) (Some 31)) Ref.service
  = TaskScheduler.create_task (Ref.call "B" "monthly" "exec") Ref.service.
Proof.
  assert (H : TaskScheduler.trigger_type (Ref.call "B" "monthly" "exec") = "monthly")
    by reflexivity.
  split; [exact H|].
  exact (proj1 (proj2 (proj2 (cadence_arguments_read
                                (Ref.call "B" "monthly" "exec") Ref.service
                                None None (Some 127) None None (Some 31)))) H).
Defined.

(** ** Reading back what was registered *)

Lemma find_folder_children f name :
  TaskScheduler.find_folder f name = Ref.find_among name (COM.GetFolders f).
Proof. destruct f. apply find_folder_unfold. Qed.

Lemma update_keeps path g f :
  (forall x, COM.Name (g x) = COM.Name x) ->
  (forall x, COM.FPath (g x) = COM.FPath x) ->
  COM.Name (Provider.update path g f) = COM.Name f /\
  COM.FPath (Provider.update path g f) = COM.FPath f.
Proof.
  intros Hn Hp. destruct f as [n p ts subs]. simpl.
  destruct (String.eqb p path); [now rewrite Hn, Hp|now split].
Qed.

(** An update that keeps names, paths and subfolders does not change
    what the lookup by name finds. *)
Lemma find_folder_update path g root name :
  (forall x, COM.Name (g x) = COM.Name x) ->
  (forall x, COM.FPath (g x) = COM.FPath x) ->
  (forall x, COM.GetFolders (g x) = COM.GetFolders x) ->
  TaskScheduler.find_folder (Provider.update path g root) name
  = TaskScheduler.find_folder root name.
Proof.
  intros Hn Hp Hf. induction root as [n p ts subs IH] using Folder_rect'.
  simpl Provider.update. destruct (String.eqb p path).
  - now rewrite !find_folder_children, Hf.
  - rewrite !find_folder_unfold.
    induction IH as [|c rest Hc _ IHrest]; [reflexivity|]. simpl.
    destruct (update_keeps path g c Hn Hp) as [-> ->]. rewrite Hc, IHrest.
    reflexivity.
Qed.

Lemma get_folder_run name w path f :
  TaskScheduler.find_folder (COM.root w) name = Some path ->
  Py.truthy path = true ->
  Provider.resolve path (COM.root w) = Some f ->
  TaskScheduler.get_folder (Some name) w = (Ok (TaskFolder.init f), w).
Proof.
  intros Hfind Htruthy Hres. unfold TaskScheduler.get_folder, bind, get_service.
  now rewrite Hfind, Htruthy, GetFolder_run, Hres.
Qed.

Lemma get_folder_path name w folder :
  TaskScheduler.get_folder (Some name) w = (Ok folder, w) ->
  exists path f,
    TaskScheduler.find_folder (COM.root w) name = Some path /\
    Py.truthy path = true /\
    Provider.resolve path (COM.root w) = Some f /\
    folder = TaskFolder.init f /\ COM.FPath f = path.
Proof.
  unfold TaskScheduler.get_folder, bind, get_service.
  destruct (TaskScheduler.find_folder (COM.root w) name) as [path|];
    [|discriminate].
  destruct (Py.truthy path) eqn:Ht; [|discriminate].
  rewrite GetFolder_run.
  destruct (Provider.resolve path (COM.root w)) as [f|] eqn:E; [|discriminate].
  intros H. injection H as <-. exists path, f.
  repeat split; try assumption. exact (resolve_path _ _ _ E).
Qed.

Lemma get_task_run self name w f t :
  Py.str_in name (TaskFolder.tasks self) = true ->
  Provider.resolve (TaskFolder.folder self) (COM.root w) = Some f ->
  Provider.find_task name (COM.GetTasks f) = Some t ->
  TaskFolder.get_task self name w = (Ok t, w).
Proof.
  intros Hin Hres Hfind. unfold TaskFolder.get_task. rewrite Hin.
  unfold Provider.GetTask, bind. now rewrite GetFolder_run, Hres, Hfind.
Qed.

Lemma stored_lists_name name new ts :
  COM.rt_Name new = name ->
  In name (List.map COM.rt_Name (Ref.stored name new ts)).
Proof.
  intros Hn. pose proof (find_task_stored name new Hn ts) as H.
  apply List.find_some in H as [Hin _]. subst name.
  exact (in_map COM.rt_Name _ _ Hin).
Qed.

(** X15. A task that [create_task] has registered is found again: after
    a call that returned, [get_folder] with the same folder name gives an
    object that lists the task name, [get_task] on it returns the task,
    and the record of that task carries the name, the description and
    the eight settings of the call, and the definition that the call
    returned. *)
Theorem created_task_is_found (a : TaskScheduler.create_task_args)
    (w w' : COM.Service) (nt : NewTask.t) :
  TaskScheduler.create_task a w = (Ok nt, w') ->
  exists folder rt,
    TaskScheduler.get_folder (Some (TaskScheduler.folder_name a)) w'
      = (Ok folder, w') /\
    In (TaskScheduler.task_name a) (TaskFolder.tasks folder) /\
    TaskFolder.get_task folder (TaskScheduler.task_name a) w' = (Ok rt, w') /\
    COM.rt_Definition rt = NewTask.taskdef nt /\
    Info.name (RegisteredTask.info rt) = TaskScheduler.task_name a /\
    Info.task_description (RegisteredTask.info rt) = TaskScheduler.task_description a /\
    Info.AllowDemandStart (RegisteredTask.info rt) = TaskScheduler.allow_demand_start a /\
    Info.StartWhenAvailable (RegisteredTask.info rt)
      = TaskScheduler.start_when_available a /\
    Info.Enabled (RegisteredTask.info rt) = TaskScheduler.enabled a /\
    Info.Hidden (RegisteredTask.info rt) = TaskScheduler.hidden a /\
    Info.RestartInterval (RegisteredTask.info rt) = TaskScheduler.restart_interval a /\
    Info.RestartCount (RegisteredTask.info rt) = TaskScheduler.restart_count a /\
    Info.ExecutionTimeLimit (RegisteredTask.info rt)
      = TaskScheduler.execution_time_limit a /\
    Info.MultipleInstances (RegisteredTask.info rt)
      = TaskScheduler.multiple_instances a.
Proof.
  intros Hrun.
  destruct (get_folder_cases (TaskScheduler.folder_name a) w)
    as [Hget|(f0 & Hget & _)].
  { unfold TaskScheduler.create_task in Hrun.
    rewrite (bind_raise _ _ _ _ _ Hget) in Hrun. discriminate. }
  destruct (get_folder_path _ _ _ Hget) as (path & f & Hfind & Htruthy & Hres & Hinit & Hpath).
  assert (Hres0 : Provider.resolve (TaskFolder.folder (TaskFolder.init f0))
                    (COM.root w) = Some f).
  { rewrite Hinit. simpl. now rewrite Hpath. }
  destruct (match_trigger_type_frame a Provider.empty_definition
              (Ref.received [COM.CallNewTask] w)) as (td1 & Htrig & _).
  set (w1 := Ref.received
               match Ref.cadence (TaskScheduler.trigger_type a) with
               | Some ty => [COM.CallTriggersCreate ty]
               | None => []
               end (Ref.received [COM.CallNewTask] w)) in *.
  assert (Hact : exists td2 w2,
            TaskScheduler.match_action_type a td1 w1 = (Ok td2, w2) /\
            COM.root w2 = COM.root w).
  { destruct (in_dec string_dec (TaskScheduler.action_type a)
                TaskScheduler.unsupported_action_types) as [Hin|Hnot].
    - destruct (match_action_type_unsupported a td1 w1 Hin) as (msg & Hraise & _).
      exfalso. unfold TaskScheduler.create_task in Hrun.
      unfold bind at 1 in Hrun. rewrite Hget in Hrun.
      unfold bind at 1 in Hrun. rewrite NewTask_run in Hrun.
      unfold bind at 1 in Hrun. rewrite Htrig in Hrun.
      unfold bind at 1 in Hrun. rewrite Hraise in Hrun. discriminate.
    - destruct (String.eqb_spec (TaskScheduler.action_type a) "exec") as [E|E].
      + destruct (match_action_type_exec_full a td1 w1 E) as (td2 & H & _).
        exists td2. eexists. split; [exact H|reflexivity].
      + exists td1, w1. split; [|reflexivity].
        apply match_action_type_other. unfold Ref.action_literals.
        intros [H|H]; [now symmetry in H|contradiction]. }
  destruct Hact as (td2 & w2 & Hact & Hroot).
  destruct (create_task_steps a w _ f _ _ _ _ Hget Hres0 Htrig Hact Hroot)
    as (w'' & Hrun' & _ & Hres' & Hroot').
  rewrite Hrun' in Hrun. injection Hrun as <- <-.
  set (td := TaskScheduler.describe_and_configure a td2) in *.
  set (new := Provider.registered (COM.FPath f) (TaskScheduler.task_name a) td
                "" "" TASK_LOGON_NONE) in *.
  assert (Hhandle : TaskFolder.folder (TaskFolder.init f0) = path).
  { rewrite Hinit. exact Hpath. }
  rewrite Hhandle in Hres', Hroot'.
  assert (Hfind' : TaskScheduler.find_folder (COM.root w'')
                     (TaskScheduler.folder_name a) = Some path).
  { rewrite Hroot', find_folder_update; [exact Hfind| | |];
      intros [? ? ? ?]; reflexivity. }
  eexists _, new. split; [exact (get_folder_run _ _ _ _ Hfind' Htruthy Hres')|].
  assert (Hlisted : In (TaskScheduler.task_name a)
                      (TaskFolder.tasks
                         (TaskFolder.init
                            (Provider.with_tasks
                               (Ref.stored (TaskScheduler.task_name a) new
                                  (COM.GetTasks f)) f)))).
  { destruct f as [n p ts subs]. simpl. now apply stored_lists_name. }
  split; [exact Hlisted|]. split.
  - apply (get_task_run _ _ _
             (Provider.with_tasks
                (Ref.stored (TaskScheduler.task_name a) new (COM.GetTasks f)) f)).
    + now apply str_in_spec.
    + destruct f as [n p ts subs]. simpl in *. rewrite <- Hpath in Hres'.
      exact Hres'.
    + destruct f as [n p ts subs]. simpl. now apply find_task_stored.
  - repeat split.
Qed.

Lemma created_task_is_found_witness :
  exists nt w' rt,
    TaskScheduler.create_task (Ref.call "B" "daily" "exec") Ref.service = (Ok nt, w') /\
    TaskFolder.get_task (TaskFolder.mk "\B" ["X"] ["Nightly"]) "Nightly" w'
      = (Ok rt, w') /\
    Info.task_description (RegisteredTask.info rt) = "nightly run".
Proof.
  destruct (TaskScheduler.create_task (Ref.call "B" "daily" "exec") Ref.service)
    as [[nt|e] w'] eqn:Hrun; [|vm_compute in Hrun; discriminate].
  destruct (created_task_is_found _ _ _ _ Hrun)
    as (folder & rt & Hget & _ & Htask & _ & _ & Hdesc & _).
  exists nt, w', rt. split; [reflexivity|].
  assert (Hfolder : folder = TaskFolder.mk "\B" ["X"] ["Nightly"]).
  { vm_compute in Hrun. injection Hrun as <- <-. vm_compute in Hget.
    now injection Hget as <-. }
  rewrite Hfolder in Htask. split; [exact Htask|exact Hdesc].
Defined.

(** X16. A TaskFolder object keeps the name lists it took when it was
    built. After [register_new_task] has registered a task under a name
    that the object does not list, [get_task] on the same object still
    raises its ValueError for that name, although the folder now holds
    the task; an object built anew from the folder returns it. *)
Theorem task_list_is_a_snapshot (self : TaskFolder.t) (name : string)
    (d : COM.TaskDefinition) (w : COM.Service) (f : COM.Folder) :
  Provider.resolve (TaskFolder.folder self) (COM.root w) = Some f ->
  ~ In name (TaskFolder.tasks self) ->
  exists w' f' rt,
    TaskFolder.register_new_task self name d w = (Ok tt, w') /\
    TaskFolder.get_task self name w'
      = (Raise (ValueError (name ++ " does not exist in this folder!")%string), w') /\
    Provider.resolve (TaskFolder.folder self) (COM.root w') = Some f' /\
    In name (TaskFolder.tasks (TaskFolder.init f')) /\
    TaskFolder.get_task (TaskFolder.init f') name w' = (Ok rt, w') /\
    COM.rt_Definition rt = d.
Proof.
  intros Hres Hnot.
  pose proof (resolve_path _ _ _ Hres) as Hpath.
  destruct f as [n p ts subs]. simpl in Hpath. subst p.
  destruct (RegisterTaskDefinition_run (TaskFolder.folder self) name d
              "" "" TASK_LOGON_NONE w _ Hres) as [Hrun Hres'].
  simpl in Hrun, Hres'.
  set (new := Provider.registered (TaskFolder.folder self) name d
                "" "" TASK_LOGON_NONE) in *.
  match type of Hrun with _ = (_, ?w') => exists w' end.
  match type of Hres' with _ = Some ?f' => exists f' end.
  exists new. split.
  - unfold TaskFolder.register_new_task, bind. rewrite Hrun. reflexivity.
  - split.
    + unfold TaskFolder.get_task. apply str_in_false in Hnot. now rewrite Hnot.
    + split; [exact Hres'|]. simpl.
      split; [now apply stored_lists_name|]. split; [|reflexivity].
      apply (get_task_run _ _ _
               (Provider.with_tasks (Ref.stored name new ts)
                  (COM.mkFolder n (TaskFolder.folder self) ts subs))).
      * apply str_in_spec. simpl. now apply stored_lists_name.
      * exact Hres'.
      * simpl. now apply find_task_stored.
Qed.

Lemma task_list_is_a_snapshot_witness :
  Provider.resolve (TaskFolder.folder Ref.root_folder) (COM.root Ref.service)
    = Some Ref.tree /\
  ~ In "Nightly" (TaskFolder.tasks Ref.root_folder) /\
  exists w' rt,
    TaskFolder.register_new_task Ref.root_folder "Nightly"
      Provider.empty_definition Ref.service = (Ok tt, w') /\
    TaskFolder.get_task Ref.root_folder "Nightly" w'
      = (Raise (ValueError "Nightly does not exist in this folder!"), w') /\
    TaskFolder.get_task (TaskFolder.mk "\" ["A"; "B"] ["Ping"; "Nightly"])
      "Nightly" w' = (Ok rt, w').
Proof.
  assert (H1 : Provider.resolve (TaskFolder.folder Ref.root_folder)
                 (COM.root Ref.service) = Some Ref.tree) by reflexivity.
  assert (H2 : ~ In "Nightly" (TaskFolder.tasks Ref.root_folder))
    by (apply str_in_false; reflexivity).
  split; [exact H1|]. split; [exact H2|].
  destruct (task_list_is_a_snapshot Ref.root_folder "Nightly"
              Provider.empty_definition Ref.service Ref.tree H1 H2)
    as (w' & f' & rt & Hrun & Hstale & Hres & _ & Hfresh & _).
  exists w', rt. split; [exact Hrun|]. split; [exact Hstale|].
  assert (Hf : TaskFolder.init f' = TaskFolder.mk "\" ["A"; "B"] ["Ping"; "Nightly"]).
  { vm_compute in Hrun. injection Hrun as <-. vm_compute in Hres.
    now injection Hres as <-. }
  rewrite <- Hf. exact Hfresh.
Defined.

(** ** The walk where every subfolder is found by its name *)





Lemma get_all_tasks_sound_witness :
  fst (TaskScheduler.get_all_tasks Ref.sample_states Ref.sample_results 1000
         Ref.service)
  = Ok (TasksDataFrame.preprocess Ref.sample_states Ref.sample_results
          (List.map RegisteredTask.info [Ref.ping; Ref.sync; Ref.sync])) /\
  exists ts,
    TasksDataFrame.preprocess Ref.sample_states Ref.sample_results
      (List.map RegisteredTask.info [Ref.ping; Ref.sync; Ref.sync])
    = TasksDataFrame.preprocess Ref.sample_states Ref.sample_results
        (List.map RegisteredTask.info ts) /\
    incl ts (Ref.all_tasks (COM.root Ref.service)).
Proof.
  assert (H : fst (TaskScheduler.get_all_tasks Ref.sample_states
                     Ref.sample_results 1000 Ref.service)
              = Ok (TasksDataFrame.preprocess Ref.sample_states Ref.sample_results
                      (List.map RegisteredTask.info [Ref.ping; Ref.sync; Ref.sync])))
    by (vm_compute; reflexivity).
  split; [exact H|].
  exact (proj2 (get_all_tasks_sound Ref.sample_states Ref.sample_results 1000
                  Ref.service) _ H).
Defined.

(** ** Creating a folder twice *)

Lemma CreateFolder_run folder name w f :
  Provider.resolve folder (COM.root w) = Some f ->
  let new := COM.mkFolder name (Provider.join_path (COM.FPath f) name) [] [] in
  Provider.CreateFolder folder name w
  = if Py.str_in name (List.map COM.Name (COM.GetFolders f))
    then (Raise (com_error "folder already exists"),
          Ref.received [COM.CallCreateFolder folder name] w)
    else (Ok new,
          {| COM.root :=
               Provider.update folder
                 (fun x => Provider.with_folders (COM.GetFolders x ++ [new]) x)
                 (COM.root w);
             COM.calls := COM.calls w ++ [COM.CallCreateFolder folder name] |}).
Proof.
  intros Hres new. unfold Provider.CreateFolder, log_call.
  unfold bind at 1. unfold bind at 1. rewrite GetFolder_run. simpl.
  rewrite Hres.
  destruct (Py.str_in name (List.map COM.Name (COM.GetFolders f))); reflexivity.
Qed.

(** X18. [create_folder] on an object whose subfolder list is that of
    its folder and does not hold the name returns the object of the new
    folder, which lists no task and no subfolder, and the folder then
    holds a subfolder of that name. The object itself keeps its old
    list: a second [create_folder] with the same name on the same object
    passes the object's own check and is refused by the provider, not
    by the ValueError of the method; an object built anew raises the
    ValueError. *)
Theorem create_folder_twice (self : TaskFolder.t) (name : string)
    (w : COM.Service) (f : COM.Folder) :
  Provider.resolve (TaskFolder.folder self) (COM.root w) = Some f ->
  TaskFolder.subfolders self = List.map COM.Name (COM.GetFolders f) ->
  ~ In name (TaskFolder.subfolders self) ->
  exists w' f',
    TaskFolder.create_folder self name w
      = (Ok (TaskFolder.mk (Provider.join_path (COM.FPath f) name) [] []), w') /\
    Provider.resolve (TaskFolder.folder self) (COM.root w') = Some f' /\
    List.map COM.Name (COM.GetFolders f')
      = List.map COM.Name (COM.GetFolders f) ++ [name] /\
    COM.GetTasks f' = COM.GetTasks f /\
    fst (TaskFolder.create_folder self name w')
      = Raise (com_error "folder already exists") /\
    TaskFolder.create_folder (TaskFolder.init f') name w'
      = (Raise (ValueError (name ++ " already exists!")%string), w').
Proof.
  intros Hres Hlist Hnot.
  pose proof (CreateFolder_run (TaskFolder.folder self) name w f Hres) as Hrun.
  cbv zeta in Hrun.
  assert (Hfalse : Py.str_in name (TaskFolder.subfolders self) = false)
    by now apply str_in_false.
  rewrite <- Hlist, Hfalse in Hrun.
  set (new := COM.mkFolder name (Provider.join_path (COM.FPath f) name) [] []) in *.
  set (g := fun x => Provider.with_folders (COM.GetFolders x ++ [new]) x) in *.
  match type of Hrun with _ = (_, ?x) => set (w' := x) in * end.
  assert (Hres' : Provider.resolve (TaskFolder.folder self) (COM.root w')
                  = Some (g f)).
  { subst w'. cbn [COM.root].
    rewrite resolve_update by (intros [? ? ? ?]; reflexivity). now rewrite Hres. }
  assert (Hnames : List.map COM.Name (COM.GetFolders (g f))
                   = List.map COM.Name (COM.GetFolders f) ++ [name]).
  { destruct f as [n p ts subs]. simpl. now rewrite List.map_app. }
  exists w', (g f). split.
  - unfold TaskFolder.create_folder. rewrite Hfalse.
    unfold bind. now rewrite Hrun.
  - split; [exact Hres'|]. split; [exact Hnames|].
    split; [destruct f; reflexivity|]. split.
    + unfold TaskFolder.create_folder. rewrite Hfalse. unfold bind.
      rewrite (CreateFolder_run _ _ _ _ Hres').
      destruct (Py.str_in name (List.map COM.Name (COM.GetFolders (g f)))) eqn:E;
        [reflexivity|].
      exfalso. apply str_in_false in E. apply E. rewrite Hnames.
      apply in_or_app. right. now left.
    + unfold TaskFolder.create_folder.
      replace (Py.str_in name (TaskFolder.subfolders (TaskFolder.init (g f))))
        with true; [reflexivity|].
      symmetry. apply str_in_spec.
      change (TaskFolder.subfolders (TaskFolder.init (g f)))
        with (List.map COM.Name (COM.GetFolders (g f))).
      rewrite Hnames. apply in_or_app. right. now left.
Qed.

Lemma create_folder_twice_witness :
  Provider.resolve (TaskFolder.folder Ref.root_folder) (COM.root Ref.service)
    = Some Ref.tree /\
  TaskFolder.subfolders Ref.root_folder
    = List.map COM.Name (COM.GetFolders Ref.tree) /\
  ~ In "C" (TaskFolder.subfolders Ref.root_folder) /\
  exists w',
    TaskFolder.create_folder Ref.root_folder "C" Ref.service
      = (Ok (TaskFolder.mk "\C" [] []), w') /\
    fst (TaskFolder.create_folder Ref.root_folder "C" w')
      = Raise (com_error "folder already exists").
Proof.
  assert (H1 : Provider.resolve (TaskFolder.folder Ref.root_folder)
                 (COM.root Ref.service) = Some Ref.tree) by reflexivity.
  assert (H2 : TaskFolder.subfolders Ref.root_folder
               = List.map COM.Name (COM.GetFolders Ref.tree)) by reflexivity.
  assert (H3 : ~ In "C" (TaskFolder.subfolders Ref.root_folder))
    by (apply str_in_false; reflexivity).
  split; [exact H1|]. split; [exact H2|]. split; [exact H3|].
  destruct (create_folder_twice Ref.root_folder "C" Ref.service Ref.tree H1 H2 H3)
    as (w' & f' & Hrun & _ & _ & _ & Hagain & _).
  exists w'. split; [exact Hrun|exact Hagain].
Defined.
